(** * infranetes: pod sandboxes realised as virtual machines

    A shallow embedding of the sandbox providers (aws, virtualbox), the
    gcp image provider and the request router of infranetes, with the
    properties of the design document stated and proved over it.

    Go code is embedded as follows.
    - A function that can touch the provider, the clock or the outside
      world is a computation [M S A]: it takes the state and gives back an
      [Outcome]: a normal return, a runtime panic, or a goroutine that
      blocks for ever.  Calls run one after the other; between two calls
      every lock is free.
    - A [(value, error)] pair is a [Result]; an [error] alone is an
      [option string]; error texts are the ones [fmt.Errorf] builds.
    - A pointer to a message that may be nil is an [option]; reading a
      field through a nil pointer panics.
    - [map[string]T] is [gmap string T]; a [range] over a map visits
      [map_to_list] of it.  A [*podData] held by the directory is
      modelled by the directory entry itself.
    - Calls that leave the process (libretto, the agent connection, the
      file system) take their answer from an [Env] and are recorded, in
      order, in the trace of the state.
    - [glog] calls and the random log cookie have no effect on any value
      and are left out. *)

From Stdlib Require Import ZArith String Ascii List Lia.
From stdpp Require Import base option list gmap strings fin_maps.

Local Open Scope string_scope.
Local Open Scope Z_scope.

(** ** Go primitives *)

Module golang.

(** A Go [(value, error)] pair with [error != nil] on the right. *)
Inductive Result (A : Type) : Type :=
  | Ok (a : A)
  | Err (e : string).
Arguments Ok {A} a.
Arguments Err {A} e.

(** How a call ends. *)
Inductive Outcome (S A : Type) : Type :=
  | Return (a : A) (s : S)            (* the function returns [a] *)
  | Panic (msg : string) (s : S)      (* a runtime panic unwinds the goroutine *)
  | Blocked (s : S).                  (* the goroutine waits for ever *)
Arguments Return {S A} a s.
Arguments Panic {S A} msg s.
Arguments Blocked {S A} s.

Definition M (S A : Type) : Type := S -> Outcome S A.

Definition ret {S A} (a : A) : M S A := fun s => Return a s.

Definition bind {S A B} (m : M S A) (k : A -> M S B) : M S B :=
  fun s =>
    match m s with
    | Return a s' => k a s'
    | Panic msg s' => Panic msg s'
    | Blocked s' => Blocked s'
    end.

Definition panic {S A} (msg : string) : M S A := fun s => Panic msg s.

(** [defer d; body]: [d] runs when [body] returns and also when it
    panics; a panic of [d] replaces the one under way. *)
Definition defer {S A} (d : M S unit) (body : M S A) : M S A :=
  fun s =>
    match body s with
    | Return a s' =>
        match d s' with
        | Return _ s'' => Return a s''
        | Panic msg s'' => Panic msg s''
        | Blocked s'' => Blocked s''
        end
    | Panic msg s' =>
        match d s' with
        | Return _ s'' => Panic msg s''
        | Panic msg' s'' => Panic msg' s''
        | Blocked s'' => Blocked s''
        end
    | Blocked s' => Blocked s'
    end.

(** The state a call leaves behind, and what it returned, if it did. *)
Definition state_of {S A} (o : Outcome S A) : S :=
  match o with
  | Return _ s => s
  | Panic _ s => s
  | Blocked s => s
  end.

Definition value_of {S A} (o : Outcome S A) : option A :=
  match o with
  | Return a _ => Some a
  | _ => None
  end.

(** [l[0]] *)
Definition index0 {S A} (l : list A) : M S A :=
  match l with
  | [] => panic "runtime error: index out of range"
  | x :: _ => ret x
  end.

(** [strings.Split(s, sep)] for a separator of one byte: the pieces of
    [s] between the separators; always at least one piece. *)
Fixpoint strings_Split (s : string) (sep : ascii) : list string :=
  match s with
  | EmptyString => [EmptyString]
  | String c r =>
      if Ascii.eqb c sep then EmptyString :: strings_Split r sep
      else match strings_Split r sep with
           | h :: t => String c h :: t
           | [] => [String c EmptyString]
           end
  end.

(** Does the byte [c] occur in [s]? *)
Fixpoint occurs (c : ascii) (s : string) : bool :=
  match s with
  | EmptyString => false
  | String c' r => Ascii.eqb c' c || occurs c r
  end.

(** [time.Time] and [time.Duration] count nanoseconds. *)
Definition time_Second : Z := 1000000000.
Definition Time_Add (t d : Z) : Z := t + d.
Definition Time_After (t u : Z) : bool := u <? t.
Definition Time_Unix (t : Z) : Z := t / time_Second.

End golang.

Export golang.

Declare Scope go_scope.
Delimit Scope go_scope with go.
Notation "x <- c1 ;; c2" := (bind c1 (fun x => c2))
  (at level 20, c1 at level 99, c2 at level 200, only parsing) : go_scope.
Notation "c1 ;; c2" := (bind c1 (fun _ => c2))
  (at level 100, c2 at level 200, only parsing, right associativity) : go_scope.
Local Open Scope go_scope.

(** ** sync: locks as one goroutine sees them *)

Module sync.

(** [sync.Mutex].  A transition gives [None] when the call does not
    return in the normal way: [Lock] on a held lock waits, [Unlock] on a
    free lock makes the runtime stop the program. *)
Record Mutex := { locked : bool }.

Definition Mutex_Lock (m : Mutex) : option Mutex :=
  if locked m then None (* the caller waits *) else Some {| locked := true |}.

Definition Mutex_Unlock (m : Mutex) : option Mutex :=
  if locked m then Some {| locked := false |}
  else None (* sync: unlock of unlocked mutex *).

(** [sync.RWMutex] *)
Record RWMutex := { writer : bool; readers : nat }.

Definition RWMutex_Lock (m : RWMutex) : option RWMutex :=
  if writer m then None
  else match readers m with
       | O => Some {| writer := true; readers := O |}
       | S _ => None
       end.

Definition RWMutex_Unlock (m : RWMutex) : option RWMutex :=
  if writer m then Some {| writer := false; readers := readers m |}
  else None (* sync: Unlock of unlocked RWMutex *).

Definition RWMutex_RLock (m : RWMutex) : option RWMutex :=
  if writer m then None
  else Some {| writer := false; readers := S (readers m) |}.

Definition RWMutex_RUnlock (m : RWMutex) : option RWMutex :=
  match readers m with
  | O => None (* sync: RUnlock of unlocked RWMutex *)
  | S n => Some {| writer := writer m; readers := n |}
  end.

Definition free : Mutex := {| locked := false |}.
Definition rwfree : RWMutex := {| writer := false; readers := O |}.

(** Run a lock transition on the lock that [rd]/[wr] select in [S]. *)
Definition acquire {S L} (rd : S -> L) (wr : L -> S -> S)
    (step : L -> option L) : M S unit :=
  fun s => match step (rd s) with
           | Some l => Return tt (wr l s)
           | None => Blocked s
           end.

Definition release {S L} (rd : S -> L) (wr : L -> S -> S)
    (step : L -> option L) (msg : string) : M S unit :=
  fun s => match step (rd s) with
           | Some l => Return tt (wr l s)
           | None => Panic msg s
           end.

End sync.

(** ** libretto: raw machine states *)

Module lvm.
(** [virtualmachine.VMRunning] *)
Definition VMRunning : string := "running".
Definition VMHalted : string := "halted".
End lvm.

(** ** kubeapi: the messages of the runtime service that the code reads
    or builds.  Optional message fields are pointers in Go and [option]
    here; a getter gives the zero value of the field when it is unset. *)

Module kubeapi.

Inductive PodSandBoxState : Type :=
  | PodSandBoxState_READY
  | PodSandBoxState_NOTREADY.

Definition PodSandBoxState_eqb (a b : PodSandBoxState) : bool :=
  match a, b with
  | PodSandBoxState_READY, PodSandBoxState_READY => true
  | PodSandBoxState_NOTREADY, PodSandBoxState_NOTREADY => true
  | _, _ => false
  end.

Module PodSandboxMetadata.
Record t := { Name : option string; Uid : option string;
  Namespace : option string; Attempt : option Z }.
Definition GetName (m : option t) : string :=
  match m with Some m => default "" (Name m) | None => "" end.
Definition GetNamespace (m : option t) : string :=
  match m with Some m => default "" (Namespace m) | None => "" end.
End PodSandboxMetadata.

Module NamespaceOption.
Record t := { HostNetwork : option bool; HostPid : option bool;
  HostIpc : option bool }.
End NamespaceOption.

Module LinuxPodSandboxConfig.
Record t := { CgroupParent : option string;
  NamespaceOptions : option NamespaceOption.t }.
End LinuxPodSandboxConfig.

Module PodSandboxConfig.
Record t := { Metadata : option PodSandboxMetadata.t;
  Labels : gmap string string;
  Annotations : gmap string string;
  Linux : option LinuxPodSandboxConfig.t }.
End PodSandboxConfig.

Module RunPodSandboxRequest.
Record t := { Config : option PodSandboxConfig.t }.
End RunPodSandboxRequest.

Module RunPodSandboxResponse.
Record t := { PodSandboxId : option string }.
End RunPodSandboxResponse.

(** [StopPodSandboxRequest], [RemovePodSandboxRequest] and
    [PodSandboxStatusRequest] all carry one optional id. *)
Module PodSandboxIdRequest.
Record t := { PodSandboxId : option string }.
Definition GetPodSandboxId (r : t) : string := default "" (PodSandboxId r).
End PodSandboxIdRequest.

Inductive StopPodSandboxResponse : Type := mkStopPodSandboxResponse.
Inductive RemovePodSandboxResponse : Type := mkRemovePodSandboxResponse.

Module PodSandboxFilter.
Record t := { Id : option string;
  State : option PodSandBoxState;
  LabelSelector : gmap string string }.
Definition GetId (f : t) : string := default "" (Id f).
(** The zero value of the enumeration is its first member. *)
Definition GetState (f : t) : PodSandBoxState :=
  default PodSandBoxState_READY (State f).
Definition GetLabelSelector (f : t) : gmap string string := LabelSelector f.
End PodSandboxFilter.

Module ListPodSandboxRequest.
Record t := { Filter : option PodSandboxFilter.t }.
End ListPodSandboxRequest.

Module PodSandbox.
Record t := { Id : option string;
  Metadata : option PodSandboxMetadata.t;
  State : option PodSandBoxState;
  CreatedAt : option Z;
  Labels : gmap string string;
  Annotations : gmap string string }.
End PodSandbox.

Module ListPodSandboxResponse.
Record t := { Items : list PodSandbox.t }.
End ListPodSandboxResponse.

Module Namespace.
Record t := { Network : option string;
  Options : option NamespaceOption.t }.
End Namespace.

Module PodSandboxNetworkStatus.
Record t := { Ip : option string }.
End PodSandboxNetworkStatus.

Module LinuxPodSandboxStatus.
Record t := { Namespaces : option Namespace.t }.
End LinuxPodSandboxStatus.

Module PodSandboxStatus.
Record t := { Id : option string;
  Metadata : option PodSandboxMetadata.t;
  State : option PodSandBoxState;
  CreatedAt : option Z;
  Network : option PodSandboxNetworkStatus.t;
  Linux : option LinuxPodSandboxStatus.t;
  Labels : gmap string string;
  Annotations : gmap string string }.
End PodSandboxStatus.

Module PodSandboxStatusResponse.
Record t := { Status : option PodSandboxStatus.t }.
End PodSandboxStatusResponse.

(** Container requests name their container; the payloads that the
    router never opens are kept whole in [body]. *)
Module ContainerRequest.
Record t := { ContainerId : option string; body : string }.
Definition GetContainerId (r : t) : string := default "" (ContainerId r).
End ContainerRequest.

Module CreateContainerRequest.
Record t := { PodSandboxId : option string; body : string }.
Definition GetPodSandboxId (r : t) : string := default "" (PodSandboxId r).
End CreateContainerRequest.

(** cri/v1alpha1, as the gcp image provider uses it *)
Module ImageSpec.
Record t := { Image : string }.
End ImageSpec.

Module Image.
Record t := { Id : string; RepoTags : list string;
  RepoDigests : list string; Size_ : Z }.
End Image.

Module ImageFilter.
Record t := { Image : option ImageSpec.t }.
End ImageFilter.

Module ListImagesRequest.
Record t := { Filter : option ImageFilter.t }.
End ListImagesRequest.

Module ListImagesResponse.
Record t := { Images : list Image.t }.
End ListImagesResponse.

Module ImageStatusRequest.
Record t := { Image : option ImageSpec.t }.
(** The request that names the image [reference]. *)
Definition naming (reference : string) : t :=
  {| Image := Some {| ImageSpec.Image := reference |} |}.
End ImageStatusRequest.

Module ImageStatusResponse.
Record t := { Image : option Image.t }.
End ImageStatusResponse.

Module RemoveImageRequest.
Record t := { Image : option ImageSpec.t }.
End RemoveImageRequest.

End kubeapi.

(** ** The world outside the process *)

Module world.

(** [*common.Client]: the connection to the agent inside one machine. *)
Definition Client := nat.

(** What the router hands to an agent. *)
Inductive AgentRequest : Type :=
  | CreateContainer (req : kubeapi.CreateContainerRequest.t)
  | StartContainer (req : kubeapi.ContainerRequest.t)
  | StopContainer (req : kubeapi.ContainerRequest.t)
  | RemoveContainer (req : kubeapi.ContainerRequest.t)
  | ContainerStatus (req : kubeapi.ContainerRequest.t).

(** What an agent answers; the router never looks inside. *)
Definition AgentResponse := string.

(** The effects of a call, as they happen.  [Insert] and [Delete] are
    the writes to the sandbox directory, recorded with the calls that
    leave the process so that their order can be read off the trace. *)
Inductive Event : Type :=
  | ReadFile (path : string)
  | Provision (name : string)
  | GetIPs (vm : string)
  | CreateClient (ip : string)
  | Destroy (vm : string)
  | GetState (vm : string)
  | Close (c : option Client)
  | Forward (c : option Client) (r : AgentRequest)
  | Insert (id : string)
  | Delete (id : string).

(** The answers of the collaborators during one call.  A machine is
    named by what the backend assigned to it when it was provisioned
    (the instance id on aws, the machine name on virtualbox). *)
Record Env := {
    ioutil_ReadFile : string -> Result string;
    vm_Provision : string -> Result string;
    vm_GetIPs : string -> Result (list string);
    vm_Destroy : string -> option string;
    vm_GetState : string -> Result string;
    common_CreateClient : string -> Result (option Client);
    client_Do : option Client -> AgentRequest -> Result AgentResponse;
    elapsed : Event -> N
  }.

(** A provider (or the router) together with the clock and the trace. *)
Record State (P : Type) := { prov : P; now : Z; trace : list Event }.
Arguments prov {P} s.
Arguments now {P} s.
Arguments trace {P} s.

Definition with_prov {P Q} (q : Q) (s : State P) : State Q :=
  {| prov := q; now := now s; trace := trace s |}.

(** Time goes by between two calls. *)
Definition later {P} (d : N) (s : State P) : State P :=
  {| prov := prov s; now := now s + Z.of_N d; trace := trace s |}.

Section Calls.
Context {P : Type} (env : Env).

(** An effect [ev] takes place and takes [elapsed env ev]. *)
Definition emit (ev : Event) : M (State P) unit :=
  fun s => Return tt {| prov := prov s;
                        now := now s + Z.of_N (elapsed env ev);
                        trace := trace s ++ [ev] |}.

Definition time_Now : M (State P) Z := fun s => Return (now s) s.

Definition getP : M (State P) P := fun s => Return (prov s) s.
Definition setP (p : P) : M (State P) unit :=
  fun s => Return tt (with_prov p s).

Definition ReadFile_ (path : string) : M (State P) (Result string) :=
  emit (ReadFile path) ;; ret (ioutil_ReadFile env path).
Definition Provision_ (name : string) : M (State P) (Result string) :=
  emit (Provision name) ;; ret (vm_Provision env name).
Definition GetIPs_ (vm : string) : M (State P) (Result (list string)) :=
  emit (GetIPs vm) ;; ret (vm_GetIPs env vm).
Definition Destroy_ (vm : string) : M (State P) (option string) :=
  emit (Destroy vm) ;; ret (vm_Destroy env vm).
Definition GetState_ (vm : string) : M (State P) (Result string) :=
  emit (GetState vm) ;; ret (vm_GetState env vm).
Definition CreateClient_ (ip : string) : M (State P) (Result (option Client)) :=
  emit (CreateClient ip) ;; ret (common_CreateClient env ip).
Definition Close_ (c : option Client) : M (State P) unit :=
  emit (Close c).
Definition Do_ (c : option Client) (r : AgentRequest) : M (State P) (Result AgentResponse) :=
  emit (Forward c r) ;; ret (client_Do env c r).
End Calls.

End world.
Export world.

(** ** Helpers shared by the providers *)

Module helpers.

(** [for _, x := range l { acc = body x acc }] *)
Fixpoint range {S A B} (l : list A) (body : A -> B -> M S B) (acc : B) : M S B :=
  match l with
  | [] => ret acc
  | x :: rest => acc' <- body x acc ;; range rest body acc'
  end.

(** [return resp, err] *)
Definition returns {A} (resp : A) (err : option string) : Result A :=
  match err with
  | None => Ok resp
  | Some e => Err e
  end.

(** The line feed that ends some error texts. *)
Definition nl : string := String (ascii_of_nat 10) EmptyString.

Definition nil_dereference : string :=
  "runtime error: invalid memory address or nil pointer dereference".

(** Run a method of an embedded or pointed-to object [Q] inside [P].
    [rd] follows the pointer; the object can only be missing when the
    pointer does not come from a successful lookup. *)
Definition through {P Q A} (rd : P -> option Q) (wr : Q -> P -> P)
    (m : M (State Q) A) : M (State P) A :=
  fun s =>
    match rd (prov s) with
    | None => Panic nil_dereference s
    | Some q =>
        match m (with_prov q s) with
        | Return a s' => Return a (with_prov (wr (prov s') (prov s)) s')
        | Panic msg s' => Panic msg (with_prov (wr (prov s') (prov s)) s')
        | Blocked s' => Blocked (with_prov (wr (prov s') (prov s)) s')
        end
    end.

End helpers.
Export helpers.

(** ** common/poddata.go (first listing): the record of one sandbox, as
    the aws provider uses it *)

Module common.

Record PodData := {
    Id : string;
    Metadata : option kubeapi.PodSandboxMetadata.t;
    Annotations : gmap string string;
    CreatedAt : Z;
    Ip : string;
    Labels : gmap string string;
    Linux : option kubeapi.LinuxPodSandboxConfig.t;
    StateLock : sync.Mutex;
    Client : option world.Client;
    PodState : kubeapi.PodSandBoxState
  }.

Definition set_PodState (st : kubeapi.PodSandBoxState) (p : PodData) : PodData :=
  {| Id := Id p; Metadata := Metadata p; Annotations := Annotations p;
     CreatedAt := CreatedAt p; Ip := Ip p; Labels := Labels p;
     Linux := Linux p; StateLock := StateLock p; Client := Client p;
     PodState := st |}.

Definition set_StateLock (l : sync.Mutex) (p : PodData) : PodData :=
  {| Id := Id p; Metadata := Metadata p; Annotations := Annotations p;
     CreatedAt := CreatedAt p; Ip := Ip p; Labels := Labels p;
     Linux := Linux p; StateLock := l; Client := Client p;
     PodState := PodState p |}.

(** Why [Filter] drops a record (the text goes to the log only). *)
Inductive FilterMsg : Type :=
  | NoMsg
  | DoesntMatch (want : string)
  | WantGot (want got : kubeapi.PodSandBoxState)
  | DidntFindKey (key : string)
  | ValuesDidntMatch (filterVal podVal : string).

Definition StateLock_Lock : M (State PodData) unit :=
  sync.acquire (fun s => StateLock (prov s))
               (fun l s => with_prov (set_StateLock l (prov s)) s)
               sync.Mutex_Lock.

Definition StateLock_Unlock : M (State PodData) unit :=
  sync.release (fun s => StateLock (prov s))
               (fun l s => with_prov (set_StateLock l (prov s)) s)
               sync.Mutex_Unlock "sync: unlock of unlocked mutex".

Definition StopPod : M (State PodData) (option string) :=
  StateLock_Lock ;;
  p <- getP ;;
  setP (set_PodState kubeapi.PodSandBoxState_NOTREADY p) ;;
  StateLock_Unlock ;;
  ret None.

(** The methods below only read the record: they take what the
    pointer shows and run in the state of their caller. *)
Definition RemovePod {P} (env : Env) (p : PodData) : M (State P) (option string) :=
  Close_ env (Client p) ;;
  ret None.

Definition PodStatus {S} (p : PodData) : M S kubeapi.PodSandboxStatus.t :=
  let network := {| kubeapi.PodSandboxNetworkStatus.Ip := Some (Ip p) |} in
  let net := "host" in
  match Linux p with
  | None => panic nil_dereference
  | Some p_Linux =>
      let linux :=
        {| kubeapi.LinuxPodSandboxStatus.Namespaces :=
             Some {| kubeapi.Namespace.Network := Some net;
                     kubeapi.Namespace.Options :=
                       kubeapi.LinuxPodSandboxConfig.NamespaceOptions p_Linux |} |} in
      ret {| kubeapi.PodSandboxStatus.Id := Some (Id p);
             kubeapi.PodSandboxStatus.CreatedAt := Some (CreatedAt p);
             kubeapi.PodSandboxStatus.Metadata := Metadata p;
             kubeapi.PodSandboxStatus.Network := Some network;
             kubeapi.PodSandboxStatus.Linux := Some linux;
             kubeapi.PodSandboxStatus.Labels := Labels p;
             kubeapi.PodSandboxStatus.Annotations := Annotations p;
             kubeapi.PodSandboxStatus.State := Some (PodState p) |}
  end.

(** The loop over the label selector, in the order the map is ranged. *)
Fixpoint matchLabels (labels : gmap string string)
    (selector : list (string * string)) : bool * FilterMsg :=
  match selector with
  | [] => (false, NoMsg)
  | (key, filterVal) :: rest =>
      match labels !! key with
      | None => (true, DidntFindKey key)
      | Some podVal =>
          if negb (String.eqb podVal filterVal)
          then (true, ValuesDidntMatch filterVal podVal)
          else matchLabels labels rest
      end
  end.

(** [Filter] answers [true] when the record is to be dropped. *)
Definition Filter (p : PodData) (filter : option kubeapi.PodSandboxFilter.t)
    : bool * FilterMsg :=
  match filter with
  | Some filter =>
      if negb (String.eqb (kubeapi.PodSandboxFilter.GetId filter) "")
         && negb (String.eqb (kubeapi.PodSandboxFilter.GetId filter) (Id p))
      then (true, DoesntMatch (kubeapi.PodSandboxFilter.GetId filter))
      else if negb (kubeapi.PodSandBoxState_eqb
                      (kubeapi.PodSandboxFilter.GetState filter) (PodState p))
      then (true, WantGot (kubeapi.PodSandboxFilter.GetState filter) (PodState p))
      else matchLabels (Labels p)
             (map_to_list (kubeapi.PodSandboxFilter.GetLabelSelector filter))
  | None => (false, NoMsg)
  end.

Definition GetSandbox (p : PodData) : kubeapi.PodSandbox.t :=
  {| kubeapi.PodSandbox.CreatedAt := Some (CreatedAt p);
     kubeapi.PodSandbox.Id := Some (Id p);
     kubeapi.PodSandbox.Metadata := Metadata p;
     kubeapi.PodSandbox.Labels := Labels p;
     kubeapi.PodSandbox.Annotations := Annotations p;
     kubeapi.PodSandbox.State := Some (PodState p) |}.

End common.

(** ** common/poddata.go (second listing), as the virtualbox provider
    uses it: [PodStatus] and [GetSandbox] leave the state out, and the
    labels are matched by [FilterByLabels]. *)

Module common2.

Definition PodStatus {S} (p : common.PodData) : M S (Result kubeapi.PodSandboxStatus.t) :=
  let network := {| kubeapi.PodSandboxNetworkStatus.Ip := Some (common.Ip p) |} in
  let net := "host" in
  match common.Linux p with
  | None => panic nil_dereference
  | Some p_Linux =>
      let linux :=
        {| kubeapi.LinuxPodSandboxStatus.Namespaces :=
             Some {| kubeapi.Namespace.Network := Some net;
                     kubeapi.Namespace.Options :=
                       kubeapi.LinuxPodSandboxConfig.NamespaceOptions p_Linux |} |} in
      ret (Ok {| kubeapi.PodSandboxStatus.Id := Some (common.Id p);
                 kubeapi.PodSandboxStatus.CreatedAt := Some (common.CreatedAt p);
                 kubeapi.PodSandboxStatus.Metadata := common.Metadata p;
                 kubeapi.PodSandboxStatus.Network := Some network;
                 kubeapi.PodSandboxStatus.Linux := Some linux;
                 kubeapi.PodSandboxStatus.Labels := common.Labels p;
                 kubeapi.PodSandboxStatus.Annotations := common.Annotations p;
                 kubeapi.PodSandboxStatus.State := None |})
  end.

Definition FilterByLabels (p : common.PodData) (filterLabels : gmap string string)
    : bool * common.FilterMsg :=
  common.matchLabels (common.Labels p) (map_to_list filterLabels).

Definition GetSandbox (p : common.PodData) : kubeapi.PodSandbox.t :=
  {| kubeapi.PodSandbox.CreatedAt := Some (common.CreatedAt p);
     kubeapi.PodSandbox.Id := Some (common.Id p);
     kubeapi.PodSandbox.Metadata := common.Metadata p;
     kubeapi.PodSandbox.Labels := common.Labels p;
     kubeapi.PodSandbox.Annotations := common.Annotations p;
     kubeapi.PodSandbox.State := None |}.

End common2.

(** ** provider/aws/aws.go *)

Module aws.

(** [aws.VM] of libretto.  The launch parameters copied from the
    configuration (instance type, volumes, key pair, credentials) are
    constants of the provider and are not tracked; [InstanceID] is what
    [Provision] assigns. *)
Record VM := { Name : string; AMI : string; Region : string;
  SecurityGroup_ : string; VPC : string; Subnet_ : string;
  InstanceID : string }.

Record podData := {
    PodData : common.PodData;
    vm : VM;
    vmState : string;
    vmStateLastChecked : Z
  }.

Record awsConfig := { Ami : string; Region_ : string; SecurityGroup : string;
  Vpc : string; Subnet : string; SshKey : string }.

Record awsProvider := {
    vmMap : gmap string podData;
    vmMapLock : sync.RWMutex;
    config : awsConfig
  }.

Definition set_PodData (p : common.PodData) (d : podData) : podData :=
  {| PodData := p; vm := vm d; vmState := vmState d;
     vmStateLastChecked := vmStateLastChecked d |}.

Definition set_vmState (st : string) (t : Z) (d : podData) : podData :=
  {| PodData := PodData d; vm := vm d; vmState := st;
     vmStateLastChecked := t |}.

Definition set_vmMap (m : gmap string podData) (v : awsProvider) : awsProvider :=
  {| vmMap := m; vmMapLock := vmMapLock v; config := config v |}.

Definition set_vmMapLock (l : sync.RWMutex) (v : awsProvider) : awsProvider :=
  {| vmMap := vmMap v; vmMapLock := l; config := config v |}.

(** A [*podData] taken from the directory is the key of its entry. *)
Abbreviation ptr := string (only parsing).

Abbreviation St := (State awsProvider).

(** [*p]: the object behind a pointer, and the write through it. *)
Definition at_ (p : ptr) (v : awsProvider) : option podData := vmMap v !! p.
Definition store_ (p : ptr) (d : podData) (v : awsProvider) : awsProvider :=
  set_vmMap (<[p := d]> (vmMap v)) v.

Definition load (p : ptr) : M St podData :=
  fun s => match at_ p (prov s) with
           | Some d => Return d s
           | None => Panic nil_dereference s
           end.
Definition store (p : ptr) (d : podData) : M St unit :=
  through (at_ p) (store_ p) (setP d).

(** A method of the embedded [common.PodData]. *)
Definition embedded {A} (p : ptr) (m : M (State common.PodData) A) : M St A :=
  through (at_ p) (store_ p) (through (fun d => Some (PodData d)) set_PodData m).

Definition vmMapLock_Lock : M St unit :=
  sync.acquire (fun s => vmMapLock (prov s))
               (fun l s => with_prov (set_vmMapLock l (prov s)) s)
               sync.RWMutex_Lock.
Definition vmMapLock_Unlock : M St unit :=
  sync.release (fun s => vmMapLock (prov s))
               (fun l s => with_prov (set_vmMapLock l (prov s)) s)
               sync.RWMutex_Unlock "sync: Unlock of unlocked RWMutex".
Definition vmMapLock_RLock : M St unit :=
  sync.acquire (fun s => vmMapLock (prov s))
               (fun l s => with_prov (set_vmMapLock l (prov s)) s)
               sync.RWMutex_RLock.
Definition vmMapLock_RUnlock : M St unit :=
  sync.release (fun s => vmMapLock (prov s))
               (fun l s => with_prov (set_vmMapLock l (prov s)) s)
               sync.RWMutex_RUnlock "sync: RUnlock of unlocked RWMutex".

Definition StateLock_Lock (p : ptr) : M St unit := embedded p common.StateLock_Lock.

(** The deferred unlock of [RemovePodSandbox] runs after the entry has
    left the directory: the object is then out of reach of the provider
    and its lock is no longer part of the state. *)
Definition StateLock_Unlock (p : ptr) : M St unit :=
  v <- getP ;;
  match vmMap v !! p with
  | Some _ => embedded p common.StateLock_Unlock
  | None => ret tt
  end.

Section Provider.
Context (env : Env).

(** [req.Config.Metadata.GetNamespace() + ":" + req.Config.Metadata.GetName()] *)
Definition awsName (req_Config : kubeapi.PodSandboxConfig.t) : string :=
  kubeapi.PodSandboxMetadata.GetNamespace (kubeapi.PodSandboxConfig.Metadata req_Config)
  ++ ":" ++
  kubeapi.PodSandboxMetadata.GetName (kubeapi.PodSandboxConfig.Metadata req_Config).

(** Must be at least holding the vmmap RLock *)
Definition getPodData (id : string) : M St (Result ptr) :=
  v <- getP ;;
  match vmMap v !! id with
  | None => ret (Err ("Invalid PodSandboxId (" ++ id ++ ")"))
  | Some _ => ret (Ok id)
  end.

Definition RunPodSandbox (req : kubeapi.RunPodSandboxRequest.t)
    : M St (Result kubeapi.RunPodSandboxResponse.t) :=
  v <- getP ;;
  rawKey <- ReadFile_ env (SshKey (config v)) ;;
  match rawKey with
  | Err err => ret (Err ("failed to read key: " ++ err ++ nl))
  | Ok _ =>
  match kubeapi.RunPodSandboxRequest.Config req with
  | None => panic nil_dereference
  | Some req_Config =>
  let awsName := awsName req_Config in
  provisioned <- Provision_ env awsName ;;
  match provisioned with
  | Err err => ret (Err ("failed to provision vm: " ++ err ++ nl))
  | Ok instanceID =>
  let vm := {| Name := awsName; AMI := Ami (config v); Region := Region_ (config v);
               SecurityGroup_ := SecurityGroup (config v); VPC := Vpc (config v);
               Subnet_ := Subnet (config v); InstanceID := instanceID |} in
  ips <- GetIPs_ env (InstanceID vm) ;;
  match ips with
  | Err err => ret (Err ("CreatePodSandbox: error in GetIPs(): " ++ err))
  | Ok ips =>
  ip <- index0 ips ;;
  let name := InstanceID vm in
  client <- CreateClient_ env ip ;;
  match client with
  | Err err => ret (Err ("CreatePodSandbox: error in createClient(): " ++ err))
  | Ok None =>
      Destroy_ env (InstanceID vm) ;;
      ret (Err "returned a nil GRPC client")
  | Ok (Some client) =>
      vmMapLock_Lock ;;
      defer vmMapLock_Unlock (
        createdAt <- time_Now ;;
        lastChecked <- time_Now ;;
        v <- getP ;;
        setP (set_vmMap
                (<[name :=
                     {| PodData :=
                          {| common.Id := name;
                             common.Metadata := kubeapi.PodSandboxConfig.Metadata req_Config;
                             common.Annotations := kubeapi.PodSandboxConfig.Annotations req_Config;
                             common.CreatedAt := Time_Unix createdAt;
                             common.Ip := ip;
                             common.Labels := kubeapi.PodSandboxConfig.Labels req_Config;
                             common.Linux := kubeapi.PodSandboxConfig.Linux req_Config;
                             common.StateLock := sync.free;
                             common.Client := Some client;
                             common.PodState := kubeapi.PodSandBoxState_READY |};
                        vm := vm;
                        vmState := lvm.VMRunning;
                        vmStateLastChecked := lastChecked |}]> (vmMap v)) v) ;;
        emit env (Insert name) ;;
        ret (Ok {| kubeapi.RunPodSandboxResponse.PodSandboxId := Some name |}))
  end end end end end.

Definition StopPodSandbox (req : kubeapi.PodSandboxIdRequest.t)
    : M St (Result kubeapi.StopPodSandboxResponse) :=
  vmMapLock_RLock ;;
  defer vmMapLock_RUnlock (
    found <- getPodData (kubeapi.PodSandboxIdRequest.GetPodSandboxId req) ;;
    match found with
    | Err err => ret (Err ("StopPodSandbox: " ++ err))
    | Ok podData =>
        StateLock_Lock podData ;;
        defer (StateLock_Unlock podData) (
          err <- embedded podData common.StopPod ;;
          ret (returns kubeapi.mkStopPodSandboxResponse err))
    end).

Definition RemovePodSandbox (req : kubeapi.PodSandboxIdRequest.t)
    : M St (Result kubeapi.RemovePodSandboxResponse) :=
  vmMapLock_Lock ;;
  defer vmMapLock_Unlock (
    found <- getPodData (kubeapi.PodSandboxIdRequest.GetPodSandboxId req) ;;
    match found with
    | Err err => ret (Err ("RemovePodSandbox: " ++ err))
    | Ok podData =>
        StateLock_Lock podData ;;
        defer (StateLock_Unlock podData) (
          d <- load podData ;;
          destroyed <- Destroy_ env (InstanceID (vm d)) ;;
          match destroyed with
          | Some err => ret (Err ("RemovePodSandbox: " ++ err))
          | None =>
              err <- common.RemovePod env (PodData d) ;;
              v <- getP ;;
              setP (set_vmMap
                      (delete (kubeapi.PodSandboxIdRequest.GetPodSandboxId req) (vmMap v)) v) ;;
              emit env (Delete (kubeapi.PodSandboxIdRequest.GetPodSandboxId req)) ;;
              ret (returns kubeapi.mkRemovePodSandboxResponse err)
          end)
    end).

Definition updateVMState (podData : ptr) : M St string :=
  d <- load podData ;;
  let ret0 := vmState d in
  t <- time_Now ;;
  if Time_After t (Time_Add (vmStateLastChecked d) (30 * time_Second))
  then
    queried <- GetState_ env (InstanceID (vm d)) ;;
    match queried with
    | Ok vmState =>
        t' <- time_Now ;;
        store podData (set_vmState vmState t' d) ;;
        ret vmState
    | Err _ => ret ret0
    end
  else ret ret0.

(** [if vmState != lvm.VMRunning { podData.PodState = NOTREADY }] *)
Definition downgrade (podData : ptr) (vmState : string) : M St unit :=
  if negb (String.eqb vmState lvm.VMRunning)
  then
    d <- load podData ;;
    store podData
      (set_PodData (common.set_PodState kubeapi.PodSandBoxState_NOTREADY (PodData d)) d)
  else ret tt.

Definition PodSandboxStatus (req : kubeapi.PodSandboxIdRequest.t)
    : M St (Result kubeapi.PodSandboxStatusResponse.t) :=
  vmMapLock_RLock ;;
  defer vmMapLock_RUnlock (
    found <- getPodData (kubeapi.PodSandboxIdRequest.GetPodSandboxId req) ;;
    match found with
    | Err err => ret (Err ("PodSandboxStatus: " ++ err))
    | Ok podData =>
        StateLock_Lock podData ;;
        defer (StateLock_Unlock podData) (
          vmState <- updateVMState podData ;;
          downgrade podData vmState ;;
          d <- load podData ;;
          status <- common.PodStatus (PodData d) ;;
          ret (Ok {| kubeapi.PodSandboxStatusResponse.Status := Some status |}))
    end).

Definition filter (podData : ptr) (reqFilter : option kubeapi.PodSandboxFilter.t)
    : M St (option kubeapi.PodSandbox.t) :=
  StateLock_Lock podData ;;
  defer (StateLock_Unlock podData) (
    vmState <- updateVMState podData ;;
    downgrade podData vmState ;;
    d <- load podData ;;
    if fst (common.Filter (PodData d) reqFilter)
    then ret None
    else ret (Some (common.GetSandbox (PodData d)))).

Definition ListPodSandbox (req : kubeapi.ListPodSandboxRequest.t)
    : M St (Result kubeapi.ListPodSandboxResponse.t) :=
  vmMapLock_RLock ;;
  defer vmMapLock_RUnlock (
    v <- getP ;;
    sandboxes <-
      range (map_to_list (vmMap v))
        (fun entry sandboxes =>
           (* podData lock is taken and released in filter *)
           kept <- filter (fst entry) (kubeapi.ListPodSandboxRequest.Filter req) ;;
           match kept with
           | Some sandbox => ret (sandboxes ++ [sandbox])%list
           | None => ret sandboxes
           end)
        [] ;;
    ret (Ok {| kubeapi.ListPodSandboxResponse.Items := sandboxes |})).

Definition GetClientLocked (podName : string) : M St (Result (option Client)) :=
  found <- getPodData podName ;;
  match found with
  | Err _ => ret (Err (podName ++ " unknown pod name"))
  | Ok podData => d <- load podData ;; ret (Ok (common.Client (PodData d)))
  end.

Definition GetClient (podName : string) : M St (Result (option Client)) :=
  vmMapLock_RLock ;;
  defer vmMapLock_RUnlock (GetClientLocked podName).

Definition GetVMList : M St (list string) :=
  v <- getP ;;
  range (map_to_list (vmMap v)) (fun entry r => ret (r ++ [fst entry])%list) [].

Definition RLockMap : M St unit := vmMapLock_RLock.
Definition RUnlockMap : M St unit := vmMapLock_RUnlock.

End Provider.

End aws.

(** ** provider/virtualbox/virtualbox.go *)

Module virtualbox.

(** [virtualbox.VM] of libretto; [Name_] is what [GetName] gives once
    the machine is provisioned. *)
Record VM := { Src : string; BackingDevice : string; Name_ : string }.

Record podData := { PodData : common.PodData; vm : VM }.

Record vboxProvider := {
    netDevice : string;
    vmSrc : string;
    vmMap : gmap string podData;
    vmMapLock : sync.Mutex
  }.

Definition set_PodData (p : common.PodData) (d : podData) : podData :=
  {| PodData := p; vm := vm d |}.

Definition set_vmMap (m : gmap string podData) (v : vboxProvider) : vboxProvider :=
  {| netDevice := netDevice v; vmSrc := vmSrc v; vmMap := m;
     vmMapLock := vmMapLock v |}.

Definition set_vmMapLock (l : sync.Mutex) (v : vboxProvider) : vboxProvider :=
  {| netDevice := netDevice v; vmSrc := vmSrc v; vmMap := vmMap v;
     vmMapLock := l |}.

Abbreviation ptr := string (only parsing).
Abbreviation St := (State vboxProvider).

Definition at_ (p : ptr) (v : vboxProvider) : option podData := vmMap v !! p.
Definition store_ (p : ptr) (d : podData) (v : vboxProvider) : vboxProvider :=
  set_vmMap (<[p := d]> (vmMap v)) v.

Definition load (p : ptr) : M St podData :=
  fun s => match at_ p (prov s) with
           | Some d => Return d s
           | None => Panic nil_dereference s
           end.

Definition embedded {A} (p : ptr) (m : M (State common.PodData) A) : M St A :=
  through (at_ p) (store_ p) (through (fun d => Some (PodData d)) set_PodData m).

Definition vmMapLock_Lock : M St unit :=
  sync.acquire (fun s => vmMapLock (prov s))
               (fun l s => with_prov (set_vmMapLock l (prov s)) s)
               sync.Mutex_Lock.
Definition vmMapLock_Unlock : M St unit :=
  sync.release (fun s => vmMapLock (prov s))
               (fun l s => with_prov (set_vmMapLock l (prov s)) s)
               sync.Mutex_Unlock "sync: unlock of unlocked mutex".

Definition StateLock_Lock (p : ptr) : M St unit := embedded p common.StateLock_Lock.
Definition StateLock_Unlock (p : ptr) : M St unit := embedded p common.StateLock_Unlock.

Section Provider.
Context (env : Env).

Definition getPodData (id : string) : M St (Result ptr) :=
  vmMapLock_Lock ;;
  defer vmMapLock_Unlock (
    v <- getP ;;
    match vmMap v !! id with
    | None => ret (Err ("Invalid PodSandboxId (" ++ id ++ ")"))
    | Some _ => ret (Ok id)
    end).

Definition RunPodSandbox (req : kubeapi.RunPodSandboxRequest.t)
    : M St (Result kubeapi.RunPodSandboxResponse.t) :=
  v <- getP ;;
  provisioned <- Provision_ env (vmSrc v) ;;
  match provisioned with
  | Err err => ret (Err ("Failed to Provision: " ++ err))
  | Ok assigned =>
  let vm := {| Src := vmSrc v; BackingDevice := netDevice v; Name_ := assigned |} in
  ips <- GetIPs_ env (Name_ vm) ;;
  match ips with
  | Err err => ret (Err ("CreatePodSandbox: error in GetIPs(): " ++ err))
  | Ok ips =>
  ip <- index0 ips ;;
  client <- CreateClient_ env ip ;;
  match client with
  | Err err => ret (Err ("CreatePodSandbox: error in createClient(): " ++ err))
  | Ok client =>
  let name := Name_ vm in
  vmMapLock_Lock ;;
  defer vmMapLock_Unlock (
    match kubeapi.RunPodSandboxRequest.Config req with
    | None => panic nil_dereference
    | Some req_Config =>
        createdAt <- time_Now ;;
        v <- getP ;;
        setP (set_vmMap
                (<[name :=
                     {| PodData :=
                          {| common.Id := name;
                             common.Metadata := kubeapi.PodSandboxConfig.Metadata req_Config;
                             common.Annotations := kubeapi.PodSandboxConfig.Annotations req_Config;
                             common.CreatedAt := Time_Unix createdAt;
                             common.Ip := ip;
                             common.Labels := kubeapi.PodSandboxConfig.Labels req_Config;
                             common.Linux := kubeapi.PodSandboxConfig.Linux req_Config;
                             common.StateLock := sync.free;
                             common.Client := client;
                             common.PodState := kubeapi.PodSandBoxState_READY |};
                        vm := vm |}]> (vmMap v)) v) ;;
        emit env (Insert name) ;;
        ret (Ok {| kubeapi.RunPodSandboxResponse.PodSandboxId := Some name |})
    end)
  end end end.

Definition StopPodSandbox (req : kubeapi.PodSandboxIdRequest.t)
    : M St (Result kubeapi.StopPodSandboxResponse) :=
  found <- getPodData (kubeapi.PodSandboxIdRequest.GetPodSandboxId req) ;;
  match found with
  | Err err => ret (Err ("StopPodSandbox: " ++ err))
  | Ok podData =>
      embedded podData common.StopPod ;;
      ret (Ok kubeapi.mkStopPodSandboxResponse)
  end.

Definition RemovePodSandbox (req : kubeapi.PodSandboxIdRequest.t)
    : M St (Result kubeapi.RemovePodSandboxResponse) :=
  found <- getPodData (kubeapi.PodSandboxIdRequest.GetPodSandboxId req) ;;
  match found with
  | Err err => ret (Err ("RemovePodSandbox: " ++ err))
  | Ok podData =>
      d <- load podData ;;
      destroyed <- Destroy_ env (Name_ (vm d)) ;;
      match destroyed with
      | Some err => ret (Err ("RemovePodSandbox: " ++ err))
      | None =>
          common.RemovePod env (PodData d) ;;
          vmMapLock_Lock ;;
          v <- getP ;;
          setP (set_vmMap
                  (delete (kubeapi.PodSandboxIdRequest.GetPodSandboxId req) (vmMap v)) v) ;;
          emit env (Delete (kubeapi.PodSandboxIdRequest.GetPodSandboxId req)) ;;
          vmMapLock_Unlock ;;
          ret (Ok kubeapi.mkRemovePodSandboxResponse)
      end
  end.

Definition with_State (st : kubeapi.PodSandBoxState) (status : kubeapi.PodSandboxStatus.t)
    : kubeapi.PodSandboxStatus.t :=
  {| kubeapi.PodSandboxStatus.Id := kubeapi.PodSandboxStatus.Id status;
     kubeapi.PodSandboxStatus.Metadata := kubeapi.PodSandboxStatus.Metadata status;
     kubeapi.PodSandboxStatus.State := Some st;
     kubeapi.PodSandboxStatus.CreatedAt := kubeapi.PodSandboxStatus.CreatedAt status;
     kubeapi.PodSandboxStatus.Network := kubeapi.PodSandboxStatus.Network status;
     kubeapi.PodSandboxStatus.Linux := kubeapi.PodSandboxStatus.Linux status;
     kubeapi.PodSandboxStatus.Labels := kubeapi.PodSandboxStatus.Labels status;
     kubeapi.PodSandboxStatus.Annotations := kubeapi.PodSandboxStatus.Annotations status |}.

Definition PodSandboxStatus (req : kubeapi.PodSandboxIdRequest.t)
    : M St (Result kubeapi.PodSandboxStatusResponse.t) :=
  found <- getPodData (kubeapi.PodSandboxIdRequest.GetPodSandboxId req) ;;
  match found with
  | Err err => ret (Err ("PodSandboxStatus: " ++ err))
  | Ok podData =>
      StateLock_Lock podData ;;
      defer (StateLock_Unlock podData) (
        d <- load podData ;;
        status <- common2.PodStatus (PodData d) ;;
        match status with
        | Err err => ret (Err ("PodSandboxStatus: " ++ err))
        | Ok status =>
            queried <- GetState_ env (Name_ (vm d)) ;;
            match queried with
            | Err err => ret (Err ("PodSandboxStatus: error in GetState(): " ++ err))
            | Ok vmState =>
                let state :=
                  if negb (String.eqb vmState lvm.VMRunning)
                  then kubeapi.PodSandBoxState_NOTREADY
                  else common.PodState (PodData d) in
                ret (Ok {| kubeapi.PodSandboxStatusResponse.Status :=
                             Some (with_State state status) |})
            end
        end)
  end.

Definition with_sandbox_State (st : kubeapi.PodSandBoxState) (sb : kubeapi.PodSandbox.t)
    : kubeapi.PodSandbox.t :=
  {| kubeapi.PodSandbox.Id := kubeapi.PodSandbox.Id sb;
     kubeapi.PodSandbox.Metadata := kubeapi.PodSandbox.Metadata sb;
     kubeapi.PodSandbox.State := Some st;
     kubeapi.PodSandbox.CreatedAt := kubeapi.PodSandbox.CreatedAt sb;
     kubeapi.PodSandbox.Labels := kubeapi.PodSandbox.Labels sb;
     kubeapi.PodSandbox.Annotations := kubeapi.PodSandbox.Annotations sb |}.

(** The body of the loop of [ListPodSandbox] for one entry; [None]
    stands for [continue]. *)
Definition examine (id : string) (d : podData) (req_Filter : option kubeapi.PodSandboxFilter.t)
    : M St (option kubeapi.PodSandbox.t) :=
  queried <- GetState_ env (Name_ (vm d)) ;;
  match queried with
  | Err _ => ret None
  | Ok vmState =>
      let podState :=
        if negb (String.eqb vmState lvm.VMRunning)
        then kubeapi.PodSandBoxState_NOTREADY
        else common.PodState (PodData d) in
      let dropped :=
        match req_Filter with
        | Some f =>
            if negb (String.eqb (kubeapi.PodSandboxFilter.GetId f) "")
               && negb (String.eqb (kubeapi.PodSandboxFilter.GetId f) id)
            then true
            else if negb (kubeapi.PodSandBoxState_eqb
                            (kubeapi.PodSandboxFilter.GetState f) podState)
            then true
            else fst (common2.FilterByLabels (PodData d)
                        (kubeapi.PodSandboxFilter.GetLabelSelector f))
        | None => false
        end in
      if dropped then ret None
      else ret (Some (with_sandbox_State podState (common2.GetSandbox (PodData d))))
  end.

Definition ListPodSandbox (req : kubeapi.ListPodSandboxRequest.t)
    : M St (Result kubeapi.ListPodSandboxResponse.t) :=
  vmMapLock_Lock ;;
  defer vmMapLock_Unlock (
    v <- getP ;;
    sandboxes <-
      range (map_to_list (vmMap v))
        (fun entry sandboxes =>
           kept <- examine (fst entry) (snd entry)
                     (kubeapi.ListPodSandboxRequest.Filter req) ;;
           match kept with
           | Some sandbox => ret (sandboxes ++ [sandbox])%list
           | None => ret sandboxes
           end)
        [] ;;
    ret (Ok {| kubeapi.ListPodSandboxResponse.Items := sandboxes |})).

Definition GetIP (podName : string) : M St (Result string) :=
  found <- getPodData podName ;;
  match found with
  | Err _ => ret (Err (podName ++ " unknown pod name"))
  | Ok podData => d <- load podData ;; ret (Ok (common.Ip (PodData d)))
  end.

Definition GetClient (podName : string) : M St (Result (option Client)) :=
  found <- getPodData podName ;;
  match found with
  | Err _ => ret (Err (podName ++ " unknown pod name"))
  | Ok podData => d <- load podData ;; ret (Ok (common.Client (PodData d)))
  end.

Definition GetVMList : M St (list string) :=
  vmMapLock_Lock ;;
  defer vmMapLock_Unlock (
    v <- getP ;;
    range (map_to_list (vmMap v)) (fun entry r => ret (r ++ [fst entry])%list) []).

End Provider.

End virtualbox.

(** ** provider/aws/aws.go, the listing that guards the directory with a
    plain [sync.Mutex] and takes the record lock inside [updateVMState].
    [podData], [awsConfig] and [RunPodSandbox] read as in [aws]. *)

Module aws0.

Record awsProvider := {
    vmMap : gmap string aws.podData;
    vmMapLock : sync.Mutex;
    config : aws.awsConfig
  }.

Definition set_vmMap (m : gmap string aws.podData) (v : awsProvider) : awsProvider :=
  {| vmMap := m; vmMapLock := vmMapLock v; config := config v |}.

Definition set_vmMapLock (l : sync.Mutex) (v : awsProvider) : awsProvider :=
  {| vmMap := vmMap v; vmMapLock := l; config := config v |}.

Abbreviation ptr := string (only parsing).
Abbreviation St := (State awsProvider).

Definition at_ (p : ptr) (v : awsProvider) : option aws.podData := vmMap v !! p.
Definition store_ (p : ptr) (d : aws.podData) (v : awsProvider) : awsProvider :=
  set_vmMap (<[p := d]> (vmMap v)) v.

Definition load (p : ptr) : M St aws.podData :=
  fun s => match at_ p (prov s) with
           | Some d => Return d s
           | None => Panic nil_dereference s
           end.
Definition store (p : ptr) (d : aws.podData) : M St unit :=
  through (at_ p) (store_ p) (setP d).

Definition embedded {A} (p : ptr) (m : M (State common.PodData) A) : M St A :=
  through (at_ p) (store_ p) (through (fun d => Some (aws.PodData d)) aws.set_PodData m).

Definition vmMapLock_Lock : M St unit :=
  sync.acquire (fun s => vmMapLock (prov s))
               (fun l s => with_prov (set_vmMapLock l (prov s)) s)
               sync.Mutex_Lock.
Definition vmMapLock_Unlock : M St unit :=
  sync.release (fun s => vmMapLock (prov s))
               (fun l s => with_prov (set_vmMapLock l (prov s)) s)
               sync.Mutex_Unlock "sync: unlock of unlocked mutex".

Definition StateLock_Lock (p : ptr) : M St unit := embedded p common.StateLock_Lock.
Definition StateLock_Unlock (p : ptr) : M St unit := embedded p common.StateLock_Unlock.

Section Provider.
Context (env : Env).

Definition getPodData (id : string) : M St (Result ptr) :=
  vmMapLock_Lock ;;
  defer vmMapLock_Unlock (
    v <- getP ;;
    match vmMap v !! id with
    | None => ret (Err ("Invalid PodSandboxId (" ++ id ++ ")"))
    | Some _ => ret (Ok id)
    end).

Definition StopPodSandbox (req : kubeapi.PodSandboxIdRequest.t)
    : M St (Result kubeapi.StopPodSandboxResponse) :=
  found <- getPodData (kubeapi.PodSandboxIdRequest.GetPodSandboxId req) ;;
  match found with
  | Err err => ret (Err ("StopPodSandbox: " ++ err))
  | Ok podData =>
      err <- embedded podData common.StopPod ;;
      ret (returns kubeapi.mkStopPodSandboxResponse err)
  end.

Definition RemovePodSandbox (req : kubeapi.PodSandboxIdRequest.t)
    : M St (Result kubeapi.RemovePodSandboxResponse) :=
  found <- getPodData (kubeapi.PodSandboxIdRequest.GetPodSandboxId req) ;;
  match found with
  | Err err => ret (Err ("RemovePodSandbox: " ++ err))
  | Ok podData =>
      d <- load podData ;;
      destroyed <- Destroy_ env (aws.InstanceID (aws.vm d)) ;;
      match destroyed with
      | Some err => ret (Err ("RemovePodSandbox: " ++ err))
      | None =>
          err <- common.RemovePod env (aws.PodData d) ;;
          vmMapLock_Lock ;;
          v <- getP ;;
          setP (set_vmMap
                  (delete (kubeapi.PodSandboxIdRequest.GetPodSandboxId req) (vmMap v)) v) ;;
          emit env (Delete (kubeapi.PodSandboxIdRequest.GetPodSandboxId req)) ;;
          vmMapLock_Unlock ;;
          ret (returns kubeapi.mkRemovePodSandboxResponse err)
      end
  end.

Definition updateVMState (podData : ptr) : M St string :=
  StateLock_Lock podData ;;
  d <- load podData ;;
  let ret0 := aws.vmState d in
  t <- time_Now ;;
  r <- (if Time_After t (Time_Add (aws.vmStateLastChecked d) (30 * time_Second))
        then
          queried <- GetState_ env (aws.InstanceID (aws.vm d)) ;;
          match queried with
          | Ok vmState =>
              t' <- time_Now ;;
              store podData (aws.set_vmState vmState t' d) ;;
              ret vmState
          | Err _ => ret ret0
          end
        else ret ret0) ;;
  StateLock_Unlock podData ;;
  ret r.

Definition PodSandboxStatus (req : kubeapi.PodSandboxIdRequest.t)
    : M St (Result kubeapi.PodSandboxStatusResponse.t) :=
  found <- getPodData (kubeapi.PodSandboxIdRequest.GetPodSandboxId req) ;;
  match found with
  | Err err => ret (Err ("PodSandboxStatus: " ++ err))
  | Ok podData =>
      StateLock_Lock podData ;;
      defer (StateLock_Unlock podData) (
        vmState <- updateVMState podData ;;
        (if negb (String.eqb vmState lvm.VMRunning)
         then
           d <- load podData ;;
           store podData
             (aws.set_PodData
                (common.set_PodState kubeapi.PodSandBoxState_NOTREADY (aws.PodData d)) d)
         else ret tt) ;;
        d <- load podData ;;
        status <- common.PodStatus (aws.PodData d) ;;
        ret (Ok {| kubeapi.PodSandboxStatusResponse.Status := Some status |}))
  end.

Definition ListPodSandbox (req : kubeapi.ListPodSandboxRequest.t)
    : M St (Result kubeapi.ListPodSandboxResponse.t) :=
  vmMapLock_Lock ;;
  defer vmMapLock_Unlock (
    v <- getP ;;
    sandboxes <-
      range (map_to_list (vmMap v))
        (fun entry sandboxes =>
           let podData := fst entry in
           StateLock_Lock podData ;;
           vmState <- updateVMState podData ;;
           (if negb (String.eqb vmState lvm.VMRunning)
            then
              d <- load podData ;;
              store podData
                (aws.set_PodData
                   (common.set_PodState kubeapi.PodSandBoxState_NOTREADY (aws.PodData d)) d)
            else ret tt) ;;
           d <- load podData ;;
           if fst (common.Filter (aws.PodData d) (kubeapi.ListPodSandboxRequest.Filter req))
           then StateLock_Unlock podData ;; ret sandboxes
           else
             let sandbox := common.GetSandbox (aws.PodData d) in
             StateLock_Unlock podData ;;
             ret (sandboxes ++ [sandbox])%list)
        [] ;;
    ret (Ok {| kubeapi.ListPodSandboxResponse.Items := sandboxes |})).

Definition GetIP (podName : string) : M St (Result string) :=
  found <- getPodData podName ;;
  match found with
  | Err _ => ret (Err (podName ++ " unknown pod name"))
  | Ok podData => d <- load podData ;; ret (Ok (common.Ip (aws.PodData d)))
  end.

Definition GetClient (podName : string) : M St (Result (option Client)) :=
  found <- getPodData podName ;;
  match found with
  | Err _ => ret (Err (podName ++ " unknown pod name"))
  | Ok podData => d <- load podData ;; ret (Ok (common.Client (aws.PodData d)))
  end.

(** The lock is released by hand before [return] and once more by the
    deferred call. *)
Definition GetVMList : M St (list string) :=
  vmMapLock_Lock ;;
  defer vmMapLock_Unlock (
    v <- getP ;;
    r <- range (map_to_list (vmMap v)) (fun entry r => ret (r ++ [fst entry])%list) [] ;;
    vmMapLock_Unlock ;;
    ret r).

End Provider.

End aws0.

(** ** provider/gcp/gcp_image.go *)

Module gcp.

Record GceConfig := { SourceImage : string; Zone : string; Project : string;
  Scope : string; AuthFile : string; Network : string;
  Subnet : string }.

Record gcpImageProvider := {
    lock : sync.RWMutex;
    config : GceConfig;
    imageMap : gmap string kubeapi.Image.t
  }.

Definition set_lock (l : sync.RWMutex) (p : gcpImageProvider) : gcpImageProvider :=
  {| lock := l; config := config p; imageMap := imageMap p |}.

Definition set_imageMap (m : gmap string kubeapi.Image.t) (p : gcpImageProvider)
    : gcpImageProvider :=
  {| lock := lock p; config := config p; imageMap := m |}.

Abbreviation St := (State gcpImageProvider).

Definition lock_Lock : M St unit :=
  sync.acquire (fun s => lock (prov s))
               (fun l s => with_prov (set_lock l (prov s)) s)
               sync.RWMutex_Lock.
Definition lock_Unlock : M St unit :=
  sync.release (fun s => lock (prov s))
               (fun l s => with_prov (set_lock l (prov s)) s)
               sync.RWMutex_Unlock "sync: Unlock of unlocked RWMutex".
Definition lock_RLock : M St unit :=
  sync.acquire (fun s => lock (prov s))
               (fun l s => with_prov (set_lock l (prov s)) s)
               sync.RWMutex_RLock.
Definition lock_RUnlock : M St unit :=
  sync.release (fun s => lock (prov s))
               (fun l s => with_prov (set_lock l (prov s)) s)
               sync.RWMutex_RUnlock "sync: RUnlock of unlocked RWMutex".

Definition ListImages (req : kubeapi.ListImagesRequest.t)
    : M St (Result kubeapi.ListImagesResponse.t) :=
  lock_RLock ;;
  defer lock_RUnlock (
    p <- getP ;;
    let result :=
      match kubeapi.ListImagesRequest.Filter req with
      | Some {| kubeapi.ImageFilter.Image := Some req_Filter_Image |} =>
          match imageMap p !! kubeapi.ImageSpec.Image req_Filter_Image with
          | Some image => [image]
          | None => []
          end
      | _ => snd <$> map_to_list (imageMap p)
      end in
    ret (Ok {| kubeapi.ListImagesResponse.Images := result |})).

(** [req] is a pointer: next to the answer, the call gives back the
    request as the caller finds it afterwards. *)
Definition ImageStatus (req : kubeapi.ImageStatusRequest.t)
    : M St (Result kubeapi.ImageStatusResponse.t * kubeapi.ImageStatusRequest.t) :=
  match kubeapi.ImageStatusRequest.Image req with
  | None => panic nil_dereference
  | Some req_Image =>
      let name := kubeapi.ImageSpec.Image req_Image in
      let req_Image :=
        if (length (strings_Split name ":") =? 1)%nat
        then {| kubeapi.ImageSpec.Image := name ++ ":latest" |}
        else req_Image in
      let req := {| kubeapi.ImageStatusRequest.Image := Some req_Image |} in
      let newreq :=
        {| kubeapi.ListImagesRequest.Filter :=
             Some {| kubeapi.ImageFilter.Image := kubeapi.ImageStatusRequest.Image req |} |} in
      listresp <- ListImages newreq ;;
      match listresp with
      | Err err => ret (Err err, req)
      | Ok listresp =>
          match kubeapi.ListImagesResponse.Images listresp with
          | [] => ret (Ok {| kubeapi.ImageStatusResponse.Image := None |}, req)
          | [image] => ret (Ok {| kubeapi.ImageStatusResponse.Image := Some image |}, req)
          | _ => ret (Err "ImageStatus returned more than one image: ...", req)
          end
      end
  end.

Definition RemoveImage (req : kubeapi.RemoveImageRequest.t) : M St (Result unit) :=
  lock_Lock ;;
  defer lock_Unlock (
    match kubeapi.RemoveImageRequest.Image req with
    | None => panic nil_dereference
    | Some req_Image =>
        p <- getP ;;
        setP (set_imageMap (delete (kubeapi.ImageSpec.Image req_Image) (imageMap p)) p) ;;
        ret (Ok tt)
    end).

End gcp.

(** ** The request router (the [Manager] of package infranetes) *)

Module infranetes.

Section Manager.
Context {P : Type} (env : Env).

(** [m.getClient] is declared outside the files at hand: it is a
    parameter of the handlers. *)
Context (getClient : string -> M (State P) (Result (option Client))).

Definition podIdOf (containerId : string) : M (State P) string :=
  let splits := strings_Split containerId ":" in
  index0 splits.

Definition CreateContainer (req : kubeapi.CreateContainerRequest.t)
    : M (State P) (Result AgentResponse) :=
  let podId := kubeapi.CreateContainerRequest.GetPodSandboxId req in
  client <- getClient podId ;;
  match client with
  | Err err => ret (Err ("Failed to get client for sandbox " ++ podId ++ ": " ++ err))
  | Ok client => Do_ env client (world.CreateContainer req)
  end.

Definition StartContainer (req : kubeapi.ContainerRequest.t)
    : M (State P) (Result AgentResponse) :=
  podId <- podIdOf (kubeapi.ContainerRequest.GetContainerId req) ;;
  client <- getClient podId ;;
  match client with
  | Err err => ret (Err ("Failed to get client for sandbox " ++ podId ++ ": " ++ err))
  | Ok client => Do_ env client (world.StartContainer req)
  end.

Definition StopContainer (req : kubeapi.ContainerRequest.t)
    : M (State P) (Result AgentResponse) :=
  podId <- podIdOf (kubeapi.ContainerRequest.GetContainerId req) ;;
  client <- getClient podId ;;
  match client with
  | Err err => ret (Err ("Failed to get client for sandbox " ++ podId ++ ": " ++ err))
  | Ok client => Do_ env client (world.StopContainer req)
  end.

Definition RemoveContainer (req : kubeapi.ContainerRequest.t)
    : M (State P) (Result AgentResponse) :=
  podId <- podIdOf (kubeapi.ContainerRequest.GetContainerId req) ;;
  client <- getClient podId ;;
  match client with
  | Err err => ret (Err ("Failed to get client for sandbox " ++ podId ++ ": " ++ err))
  | Ok client => Do_ env client (world.RemoveContainer req)
  end.

Definition ContainerStatus (req : kubeapi.ContainerRequest.t)
    : M (State P) (Result AgentResponse) :=
  podId <- podIdOf (kubeapi.ContainerRequest.GetContainerId req) ;;
  client <- getClient podId ;;
  match client with
  | Err _ => ret (Err ("failed to get client for sandbox " ++ podId))
  | Ok client => Do_ env client (world.ContainerStatus req)
  end.

Definition Exec : M (State P) (option string) :=
  let err := "Unimplemented" in
  ret (Some err).

End Manager.

End infranetes.


(** ** The gcp image provider: pulling an image (gcp_image.go) *)

(** google.golang.org/api/compute/v1 *)
Module compute.
Module Image.
Record t := { Name : string; ArchiveSizeBytes : Z (* int64 *) }.
End Image.
End compute.

Module gcp_image.
Import gcp.

Module PullImageRequest.
Record t := { Image : option kubeapi.ImageSpec.t }.
(** The request to pull the image [reference]. *)
Definition naming (reference : string) : t :=
  {| Image := Some {| kubeapi.ImageSpec.Image := reference |} |}.
End PullImageRequest.

(** What [GetService] hands back: the handle of the compute API and the
    project it was opened for. *)
Record gcpSvc := { project : string }.

(** The answers of the compute API during one call: the pointer
    [GetService(authFile, project, zone, scopes)] returns (its error is
    dropped by the caller), and what [call.Do()] answers for the images
    of a project under a filter; an item can be a nil pointer. *)
Record Cloud := {
    GetService : string -> string -> string -> list string -> option gcpSvc;
    ImagesListCall_Do : string -> string -> Result (list (option compute.Image.t))
  }.

Definition uint64 (n : Z) : Z := n mod 2 ^ 64.

Definition toRuntimeAPIImage (image : option compute.Image.t) : Result kubeapi.Image.t :=
  match image with
  | None => Err "unable to convert a nil pointer to a runtime API image"
  | Some image =>
      let size := uint64 (compute.Image.ArchiveSizeBytes image) in
      let name := compute.Image.Name image in
      Ok {| kubeapi.Image.Id := name;
            kubeapi.Image.RepoTags := [name];
            kubeapi.Image.RepoDigests := [name];
            kubeapi.Image.Size_ := size |}
  end.

Section Provider.
Context (cloud : Cloud).

(** [call] is the project and the filter of the listing that [call.Do()]
    runs; the [default] branch of the first switch returns before there
    is a call. *)
Definition PullImage (req : PullImageRequest.t) : M St (Result unit) :=
  p <- getP ;;
  let s := GetService cloud (AuthFile (config p)) (Project (config p)) (Zone (config p))
                      [Scope (config p)] in
  match PullImageRequest.Image req with
  | None => panic nil_dereference
  | Some req_Image =>
      let reference := kubeapi.ImageSpec.Image req_Image in
      let splits := strings_Split reference "/" in
      call <- match splits with
              | [name] =>
                  match s with
                  | None => panic nil_dereference
                  | Some s => ret (Some (project s, "name eq " ++ name))
                  end
              | [proj; name] =>
                  match s with
                  | None => panic nil_dereference
                  | Some _ => ret (Some (proj, "name eq " ++ name))
                  end
              | _ => ret None
              end ;;
      match call with
      | None => ret (Err ("PullImage: can't parse " ++ reference))
      | Some (proj, flt) =>
          match ImagesListCall_Do cloud proj flt with
          | Err err => ret (Err ("PullImage: ec2 DescribeImages failed: " ++ err))
          | Ok results_Items =>
              match results_Items with
              | [] => ret (Err ("PullImage: couldn't find any image matching " ++ reference))
              | [item] =>
                  lock_Lock ;;
                  defer lock_Unlock (
                    match toRuntimeAPIImage item with
                    | Err err => ret (Err ("PullImage: toRuntimeAPIImage failed: " ++ err))
                    | Ok image =>
                        p <- getP ;;
                        setP (set_imageMap (<[reference := image]> (imageMap p)) p) ;;
                        ret (Ok tt)
                    end)
              | _ => ret (Err "PullImage: ec2.DescribeImages returned more than one image: ...")
              end
          end
      end
  end.

End Provider.

Definition Translate (spec : option kubeapi.ImageSpec.t) : M St (Result string) :=
  match spec with
  | None => panic nil_dereference
  | Some spec => ret (Ok (kubeapi.ImageSpec.Image spec))
  end.

End gcp_image.
(** ** What a refresh does to one aws record

    The state refresh of the aws provider, read off [updateVMState] and
    the test that follows it, as functions of the record: they name the
    record that a status query or a listing leaves behind. *)

Module record.

(** The cached sample of [d] is older than 30 seconds at time [t]. *)
Definition stale (t : Z) (d : aws.podData) : bool :=
  Time_After t (Time_Add (aws.vmStateLastChecked d) (30 * time_Second)).

(** The backend query for the machine of [d]. *)
Definition query (d : aws.podData) : Event := GetState (aws.InstanceID (aws.vm d)).

Definition refreshed (env : Env) (t : Z) (d : aws.podData) : aws.podData :=
  if stale t d then
    match vm_GetState env (aws.InstanceID (aws.vm d)) with
    | Ok st => aws.set_vmState st (t + Z.of_N (elapsed env (query d))) d
    | Err _ => d
    end
  else d.

Definition downgraded (d : aws.podData) : aws.podData :=
  if negb (String.eqb (aws.vmState d) lvm.VMRunning)
  then aws.set_PodData (common.set_PodState kubeapi.PodSandBoxState_NOTREADY (aws.PodData d)) d
  else d.

(** The state after the record [d] under [id] has been examined. *)
Definition examined (env : Env) (id : string) (d : aws.podData) (s : aws.St) : aws.St :=
  {| prov := aws.store_ id (downgraded (refreshed env (now s) d)) (prov s);
     now := if stale (now s) d then now s + Z.of_N (elapsed env (query d)) else now s;
     trace := if stale (now s) d then trace s ++ [query d] else trace s |}.

End record.


(** ** The provider between two calls *)

Module rest.

(** The aws provider is at rest: nobody holds the lock of the directory,
    and every record is filed under its own id with its lock free. *)
Definition aws_at_rest (v : aws.awsProvider) : Prop :=
  aws.vmMapLock v = sync.rwfree /\
  forall id d, aws.vmMap v !! id = Some d ->
    common.Id (aws.PodData d) = id /\ common.StateLock (aws.PodData d) = sync.free.

Definition vbox_at_rest (v : virtualbox.vboxProvider) : Prop :=
  virtualbox.vmMapLock v = sync.free /\
  forall id d, virtualbox.vmMap v !! id = Some d ->
    common.Id (virtualbox.PodData d) = id /\
    common.StateLock (virtualbox.PodData d) = sync.free.

(** The outcome is a return or a panic, not a wait. *)
Definition comes_back {S A} (o : Outcome S A) : Prop :=
  match o with
  | Blocked _ => False
  | _ => True
  end.

End rest.

(** ** The listing of the aws provider, entry by entry *)

Module listing.

(** The state after the entries [l] have been examined in turn. *)
Definition examined_all (env : Env) (l : list (string * aws.podData)) (s : aws.St) : aws.St :=
  fold_left (fun s entry => record.examined env (fst entry) (snd entry) s) l s.

(** What the listing shows of the entry [entry] once the directory is as
    in [s']: the sandbox of its record, unless [Filter] drops it. *)
Definition shown (f : option kubeapi.PodSandboxFilter.t) (s' : aws.St)
    (entry : string * aws.podData) : option kubeapi.PodSandbox.t :=
  d' ← aws.vmMap (prov s') !! fst entry;
  if fst (common.Filter (aws.PodData d') f) then None
  else Some (common.GetSandbox (aws.PodData d')).

End listing.
(** ** Concrete providers and collaborators, for the examples *)

Module scenario.

(** Collaborators that answer every call without an error. *)
Definition env_ok : Env := {|
    ioutil_ReadFile := fun _ => Ok "key";
    vm_Provision := fun _ => Ok "i-1";
    vm_GetIPs := fun _ => Ok ["10.0.0.1"];
    vm_Destroy := fun _ => None;
    vm_GetState := fun _ => Ok lvm.VMRunning;
    common_CreateClient := fun _ => Ok (Some 7%nat);
    client_Do := fun _ _ => Ok "agent response";
    elapsed := fun _ => 1%N
  |}.

(** The backend refuses to destroy machines. *)
Definition env_destroy_fails : Env := {|
  ioutil_ReadFile := fun _ => Ok "key";
  vm_Provision := fun _ => Ok "i-1";
  vm_GetIPs := fun _ => Ok ["10.0.0.1"];
  vm_Destroy := fun _ => Some "backend says no";
  vm_GetState := fun _ => Ok lvm.VMRunning;
  common_CreateClient := fun _ => Ok (Some 7%nat);
  client_Do := fun _ _ => Ok "agent response";
  elapsed := fun _ => 1%N
|}.

(** The backend reports every machine as halted. *)
Definition env_halted : Env := {|
  ioutil_ReadFile := fun _ => Ok "key";
  vm_Provision := fun _ => Ok "i-1";
  vm_GetIPs := fun _ => Ok ["10.0.0.1"];
  vm_Destroy := fun _ => None;
  vm_GetState := fun _ => Ok lvm.VMHalted;
  common_CreateClient := fun _ => Ok (Some 7%nat);
  client_Do := fun _ _ => Ok "agent response";
  elapsed := fun _ => 1%N
|}.

(** The backend fails to report the state of machines. *)
Definition env_no_state : Env := {|
  ioutil_ReadFile := fun _ => Ok "key";
  vm_Provision := fun _ => Ok "i-1";
  vm_GetIPs := fun _ => Ok ["10.0.0.1"];
  vm_Destroy := fun _ => None;
  vm_GetState := fun _ => Err "timeout";
  common_CreateClient := fun _ => Ok (Some 7%nat);
  client_Do := fun _ _ => Ok "agent response";
  elapsed := fun _ => 1%N
|}.

(** The agent cannot be reached: the client factory returns an error. *)
Definition env_no_agent : Env := {|
  ioutil_ReadFile := fun _ => Ok "key";
  vm_Provision := fun _ => Ok "i-1";
  vm_GetIPs := fun _ => Ok ["10.0.0.1"];
  vm_Destroy := fun _ => None;
  vm_GetState := fun _ => Ok lvm.VMRunning;
  common_CreateClient := fun _ => Err "connection refused";
  client_Do := fun _ _ => Ok "agent response";
  elapsed := fun _ => 1%N
|}.

(** The client factory reports no error and hands back no client. *)
Definition env_nil_client : Env := {|
  ioutil_ReadFile := fun _ => Ok "key";
  vm_Provision := fun _ => Ok "i-1";
  vm_GetIPs := fun _ => Ok ["10.0.0.1"];
  vm_Destroy := fun _ => None;
  vm_GetState := fun _ => Ok lvm.VMRunning;
  common_CreateClient := fun _ => Ok None;
  client_Do := fun _ _ => Ok "agent response";
  elapsed := fun _ => 1%N
|}.

Definition web_config : kubeapi.PodSandboxConfig.t :=
  {| kubeapi.PodSandboxConfig.Metadata :=
       Some {| kubeapi.PodSandboxMetadata.Name := Some "web";
               kubeapi.PodSandboxMetadata.Uid := Some "uid-1";
               kubeapi.PodSandboxMetadata.Namespace := Some "default";
               kubeapi.PodSandboxMetadata.Attempt := Some 0 |};
     kubeapi.PodSandboxConfig.Labels := {[ "app" := "web" ]};
     kubeapi.PodSandboxConfig.Annotations := ∅;
     kubeapi.PodSandboxConfig.Linux :=
       Some {| kubeapi.LinuxPodSandboxConfig.CgroupParent := None;
               kubeapi.LinuxPodSandboxConfig.NamespaceOptions := None |} |}.

Definition run_web : kubeapi.RunPodSandboxRequest.t :=
  {| kubeapi.RunPodSandboxRequest.Config := Some web_config |}.

Definition conf : aws.awsConfig :=
  {| aws.Ami := "ami-1"; aws.Region_ := "us-west-2"; aws.SecurityGroup := "sg";
     aws.Vpc := "vpc"; aws.Subnet := "subnet"; aws.SshKey := "id.pem" |}.

Definition aws_empty : aws.St :=
  {| prov := {| aws.vmMap := ∅; aws.vmMapLock := sync.rwfree; aws.config := conf |};
     now := 0; trace := [] |}.

Definition vbox_empty : virtualbox.St :=
  {| prov := {| virtualbox.netDevice := "en0"; virtualbox.vmSrc := "box.ova";
                virtualbox.vmMap := ∅; virtualbox.vmMapLock := sync.free |};
     now := 0; trace := [] |}.

(** One sandbox, ["i-1"], created at second 0 with label [app=web]. *)
Definition pod (state : kubeapi.PodSandBoxState) : common.PodData :=
  {| common.Id := "i-1";
     common.Metadata := None;
     common.Annotations := ∅;
     common.CreatedAt := 0;
     common.Ip := "10.0.0.1";
     common.Labels := {[ "app" := "web" ]};
     common.Linux :=
       Some {| kubeapi.LinuxPodSandboxConfig.CgroupParent := None;
               kubeapi.LinuxPodSandboxConfig.NamespaceOptions := None |};
     common.StateLock := sync.free;
     common.Client := Some 7%nat;
     common.PodState := state |}.

Definition machine : aws.VM :=
  {| aws.Name := "default:web"; aws.AMI := "ami-1"; aws.Region := "us-west-2";
     aws.SecurityGroup_ := "sg"; aws.VPC := "vpc"; aws.Subnet_ := "subnet";
     aws.InstanceID := "i-1" |}.

(** The record of ["i-1"] with the cached sample [sample] taken at [at_ns]. *)
Definition aws_record (state : kubeapi.PodSandBoxState) (sample : string) (at_ns : Z)
    : aws.podData :=
  {| aws.PodData := pod state; aws.vm := machine;
     aws.vmState := sample; aws.vmStateLastChecked := at_ns |}.

Definition aws_with (d : aws.podData) (clock : Z) : aws.St :=
  {| prov := {| aws.vmMap := {[ "i-1" := d ]}; aws.vmMapLock := sync.rwfree;
                aws.config := conf |};
     now := clock; trace := [] |}.

Definition aws0_with (d : aws.podData) (clock : Z) : aws0.St :=
  {| prov := {| aws0.vmMap := {[ "i-1" := d ]}; aws0.vmMapLock := sync.free;
                aws0.config := conf |};
     now := clock; trace := [] |}.

Definition vbox_record (state : kubeapi.PodSandBoxState) : virtualbox.podData :=
  {| virtualbox.PodData := pod state;
     virtualbox.vm := {| virtualbox.Src := "box.ova"; virtualbox.BackingDevice := "en0";
                         virtualbox.Name_ := "i-1" |} |}.

Definition vbox_with (d : virtualbox.podData) (clock : Z) : virtualbox.St :=
  {| prov := {| virtualbox.netDevice := "en0"; virtualbox.vmSrc := "box.ova";
                virtualbox.vmMap := {[ "i-1" := d ]}; virtualbox.vmMapLock := sync.free |};
     now := clock; trace := [] |}.

Definition the_sandbox : kubeapi.PodSandboxIdRequest.t :=
  {| kubeapi.PodSandboxIdRequest.PodSandboxId := Some "i-1" |}.

Definition busybox : kubeapi.Image.t :=
  {| kubeapi.Image.Id := "busybox"; kubeapi.Image.RepoTags := ["busybox"];
     kubeapi.Image.RepoDigests := ["busybox"]; kubeapi.Image.Size_ := 1024 |}.

Definition images : gcp.St :=
  {| prov := {| gcp.lock := sync.rwfree;
                gcp.config := {| gcp.SourceImage := "img"; gcp.Zone := "z";
                                 gcp.Project := "p"; gcp.Scope := "s";
                                 gcp.AuthFile := "auth.json"; gcp.Network := "n";
                                 gcp.Subnet := "sn" |};
                gcp.imageMap := {[ "busybox:latest" := busybox ]} |};
     now := 0; trace := [] |}.


(** A filter that is there but names no id, no state and no label. *)
Definition no_constraint : kubeapi.PodSandboxFilter.t :=
  {| kubeapi.PodSandboxFilter.Id := None;
     kubeapi.PodSandboxFilter.State := None;
     kubeapi.PodSandboxFilter.LabelSelector := ∅ |}.

Definition list_request (f : option kubeapi.PodSandboxFilter.t)
    : kubeapi.ListPodSandboxRequest.t :=
  {| kubeapi.ListPodSandboxRequest.Filter := f |}.

Definition missing : kubeapi.PodSandboxIdRequest.t :=
  {| kubeapi.PodSandboxIdRequest.PodSandboxId := Some "sbx-missing" |}.

End scenario.


(** ** More examples *)

Module cases.

(** The aws provider after ["i-1"] has been created in an empty
    directory. *)
Definition created : aws.St :=
  state_of (aws.RunPodSandbox scenario.env_ok scenario.run_web scenario.aws_empty).

(** The backend provisions machines that report no address. *)
Definition env_no_address : Env := {|
  ioutil_ReadFile := fun _ => Ok "key";
  vm_Provision := fun _ => Ok "i-1";
  vm_GetIPs := fun _ => Ok [];
  vm_Destroy := fun _ => None;
  vm_GetState := fun _ => Ok lvm.VMRunning;
  common_CreateClient := fun _ => Ok (Some 7%nat);
  client_Do := fun _ _ => Ok "agent response";
  elapsed := fun _ => 1%N
|}.

Definition sandbox (id : string) : kubeapi.PodSandboxIdRequest.t :=
  {| kubeapi.PodSandboxIdRequest.PodSandboxId := Some id |}.

(** The compute API of project ["infra"], which holds one image,
    ["busybox"]; project ["mirror"] holds two images of that name. *)
Definition cloud : gcp_image.Cloud :=
  {| gcp_image.GetService := fun _ _ _ _ => Some {| gcp_image.project := "infra" |};
     gcp_image.ImagesListCall_Do := fun proj flt =>
       if String.eqb flt "name eq busybox" then
         if String.eqb proj "infra" then
           Ok [Some {| compute.Image.Name := "busybox";
                       compute.Image.ArchiveSizeBytes := 1024 |}]
         else if String.eqb proj "mirror" then
           Ok [Some {| compute.Image.Name := "busybox";
                       compute.Image.ArchiveSizeBytes := 1024 |};
               Some {| compute.Image.Name := "busybox";
                       compute.Image.ArchiveSizeBytes := 2048 |}]
         else Ok []
       else Ok [] |}.

(** An image provider that has pulled nothing yet. *)
Definition no_images : gcp.St :=
  {| prov := {| gcp.lock := sync.rwfree;
                gcp.config := gcp.config (prov scenario.images);
                gcp.imageMap := ∅ |};
     now := 0; trace := [] |}.

Definition remove_request (reference : string) : kubeapi.RemoveImageRequest.t :=
  {| kubeapi.RemoveImageRequest.Image := Some {| kubeapi.ImageSpec.Image := reference |} |}.

(** A listing request that names the image [reference]. *)
Definition images_named (reference : string) : kubeapi.ListImagesRequest.t :=
  {| kubeapi.ListImagesRequest.Filter :=
       Some {| kubeapi.ImageFilter.Image :=
                 Some {| kubeapi.ImageSpec.Image := reference |} |} |}.

End cases.
(** * Properties *)

(** ** Running the embedding *)

Ltac go_unfold :=
  unfold bind, ret, defer, panic, index0,
    sync.acquire, sync.release, emit, time_Now, getP, setP, through,
    with_prov, ReadFile_, Provision_, GetIPs_, Destroy_, GetState_,
    CreateClient_, Close_, Do_, returns in *.

Ltac go := repeat (go_unfold; cbn in * ).

Ltac maps :=
  rewrite ?lookup_insert_eq, ?insert_insert_eq, ?lookup_delete_eq, ?delete_insert_eq.


Lemma bind_Return {S A B} (m : M S A) (k : A -> M S B) s a s' :
  m s = Return a s' -> bind m k s = k a s'.
Proof. unfold bind. now intros ->. Qed.

Lemma defer_Return {S A} (d : M S unit) (body : M S A) s a s1 s2 :
  body s = Return a s1 -> d s1 = Return tt s2 -> defer d body s = Return a s2.
Proof. unfold defer. now intros -> ->. Qed.

(** ** Looking up an id that the directory does not hold *)

Section NotFound.
Context (env : Env).

Lemma aws_Stop_absent req (s : aws.St) :
  aws.vmMap (prov s) !! kubeapi.PodSandboxIdRequest.GetPodSandboxId req = None ->
  aws.vmMapLock (prov s) = sync.rwfree ->
  aws.StopPodSandbox req s =
    Return (Err ("StopPodSandbox: Invalid PodSandboxId ("
                 ++ kubeapi.PodSandboxIdRequest.GetPodSandboxId req ++ ")")) s.
Proof.
  destruct s as [[m l c] t tr]; cbn; intros Hm ->.
  unfold aws.StopPodSandbox, aws.vmMapLock_RLock, aws.vmMapLock_RUnlock, aws.getPodData.
  go. rewrite Hm. reflexivity.
Qed.

Lemma aws_Remove_absent req (s : aws.St) :
  aws.vmMap (prov s) !! kubeapi.PodSandboxIdRequest.GetPodSandboxId req = None ->
  aws.vmMapLock (prov s) = sync.rwfree ->
  aws.RemovePodSandbox env req s =
    Return (Err ("RemovePodSandbox: Invalid PodSandboxId ("
                 ++ kubeapi.PodSandboxIdRequest.GetPodSandboxId req ++ ")")) s.
Proof.
  destruct s as [[m l c] t tr]; cbn; intros Hm ->.
  unfold aws.RemovePodSandbox, aws.vmMapLock_Lock, aws.vmMapLock_Unlock, aws.getPodData.
  go. rewrite Hm. reflexivity.
Qed.

Lemma aws_Status_absent req (s : aws.St) :
  aws.vmMap (prov s) !! kubeapi.PodSandboxIdRequest.GetPodSandboxId req = None ->
  aws.vmMapLock (prov s) = sync.rwfree ->
  aws.PodSandboxStatus env req s =
    Return (Err ("PodSandboxStatus: Invalid PodSandboxId ("
                 ++ kubeapi.PodSandboxIdRequest.GetPodSandboxId req ++ ")")) s.
Proof.
  destruct s as [[m l c] t tr]; cbn; intros Hm ->.
  unfold aws.PodSandboxStatus, aws.vmMapLock_RLock, aws.vmMapLock_RUnlock, aws.getPodData.
  go. rewrite Hm. reflexivity.
Qed.

Lemma vbox_getPodData_absent id (s : virtualbox.St) :
  virtualbox.vmMap (prov s) !! id = None ->
  virtualbox.vmMapLock (prov s) = sync.free ->
  virtualbox.getPodData id s = Return (Err ("Invalid PodSandboxId (" ++ id ++ ")")) s.
Proof.
  destruct s as [[nd src m l] t tr]; cbn; intros Hm ->.
  unfold virtualbox.getPodData, virtualbox.vmMapLock_Lock, virtualbox.vmMapLock_Unlock.
  go. rewrite Hm. reflexivity.
Qed.

Lemma vbox_getPodData_present id d (s : virtualbox.St) :
  virtualbox.vmMap (prov s) !! id = Some d ->
  virtualbox.vmMapLock (prov s) = sync.free ->
  virtualbox.getPodData id s = Return (Ok id) s.
Proof.
  destruct s as [[nd src m l] t tr]; cbn; intros Hm ->.
  unfold virtualbox.getPodData, virtualbox.vmMapLock_Lock, virtualbox.vmMapLock_Unlock.
  go. rewrite Hm. reflexivity.
Qed.

Lemma vbox_Stop_absent req (s : virtualbox.St) :
  virtualbox.vmMap (prov s) !! kubeapi.PodSandboxIdRequest.GetPodSandboxId req = None ->
  virtualbox.vmMapLock (prov s) = sync.free ->
  virtualbox.StopPodSandbox req s =
    Return (Err ("StopPodSandbox: Invalid PodSandboxId ("
                 ++ kubeapi.PodSandboxIdRequest.GetPodSandboxId req ++ ")")) s.
Proof.
  intros Hm Hl. unfold virtualbox.StopPodSandbox, bind.
  rewrite (vbox_getPodData_absent _ _ Hm Hl). reflexivity.
Qed.

Lemma vbox_Remove_absent req (s : virtualbox.St) :
  virtualbox.vmMap (prov s) !! kubeapi.PodSandboxIdRequest.GetPodSandboxId req = None ->
  virtualbox.vmMapLock (prov s) = sync.free ->
  virtualbox.RemovePodSandbox env req s =
    Return (Err ("RemovePodSandbox: Invalid PodSandboxId ("
                 ++ kubeapi.PodSandboxIdRequest.GetPodSandboxId req ++ ")")) s.
Proof.
  intros Hm Hl. unfold virtualbox.RemovePodSandbox, bind.
  rewrite (vbox_getPodData_absent _ _ Hm Hl). reflexivity.
Qed.

Lemma vbox_Status_absent req (s : virtualbox.St) :
  virtualbox.vmMap (prov s) !! kubeapi.PodSandboxIdRequest.GetPodSandboxId req = None ->
  virtualbox.vmMapLock (prov s) = sync.free ->
  virtualbox.PodSandboxStatus env req s =
    Return (Err ("PodSandboxStatus: Invalid PodSandboxId ("
                 ++ kubeapi.PodSandboxIdRequest.GetPodSandboxId req ++ ")")) s.
Proof.
  intros Hm Hl. unfold virtualbox.PodSandboxStatus, bind.
  rewrite (vbox_getPodData_absent _ _ Hm Hl). reflexivity.
Qed.

(** C7.  For an id that the directory of the provider does not hold,
    Stop, Remove and Status each return the not-found error of
    [getPodData], and the state they return in is the state they were
    called in: the directory, every record, the locks, the clock and
    the trace are as before (aws and virtualbox). *)
Theorem unknown_id_is_not_found_and_changes_nothing
    req (sa : aws.St) (sv : virtualbox.St) :
  aws.vmMap (prov sa) !! kubeapi.PodSandboxIdRequest.GetPodSandboxId req = None ->
  aws.vmMapLock (prov sa) = sync.rwfree ->
  virtualbox.vmMap (prov sv) !! kubeapi.PodSandboxIdRequest.GetPodSandboxId req = None ->
  virtualbox.vmMapLock (prov sv) = sync.free ->
  let not_found :=
    "Invalid PodSandboxId (" ++ kubeapi.PodSandboxIdRequest.GetPodSandboxId req ++ ")" in
  aws.StopPodSandbox req sa = Return (Err ("StopPodSandbox: " ++ not_found)) sa /\
  aws.RemovePodSandbox env req sa = Return (Err ("RemovePodSandbox: " ++ not_found)) sa /\
  aws.PodSandboxStatus env req sa = Return (Err ("PodSandboxStatus: " ++ not_found)) sa /\
  virtualbox.StopPodSandbox req sv = Return (Err ("StopPodSandbox: " ++ not_found)) sv /\
  virtualbox.RemovePodSandbox env req sv = Return (Err ("RemovePodSandbox: " ++ not_found)) sv /\
  virtualbox.PodSandboxStatus env req sv = Return (Err ("PodSandboxStatus: " ++ not_found)) sv.
Proof.
  intros Ha La Hv Lv. cbv zeta.
  repeat split;
    auto using aws_Stop_absent, aws_Remove_absent, aws_Status_absent,
               vbox_Stop_absent, vbox_Remove_absent, vbox_Status_absent.
Qed.

End NotFound.

Lemma unknown_id_witness :
  (aws.vmMap (prov scenario.aws_empty) !! "sbx-missing" = None /\
   virtualbox.vmMap (prov scenario.vbox_empty) !! "sbx-missing" = None) /\
  aws.StopPodSandbox scenario.missing scenario.aws_empty
    = Return (Err "StopPodSandbox: Invalid PodSandboxId (sbx-missing)") scenario.aws_empty /\
  virtualbox.PodSandboxStatus scenario.env_ok scenario.missing scenario.vbox_empty
    = Return (Err "PodSandboxStatus: Invalid PodSandboxId (sbx-missing)") scenario.vbox_empty.
Proof.
  pose proof (unknown_id_is_not_found_and_changes_nothing scenario.env_ok
                scenario.missing scenario.aws_empty scenario.vbox_empty
                eq_refl eq_refl eq_refl eq_refl) as H.
  cbv zeta in H. destruct H as (H1 & _ & _ & _ & _ & H6).
  split; [split; reflexivity|]. split; [exact H1 | exact H6].
Defined.

(** ** Listing the machine names *)

Lemma range_pure {S A B} (f : A -> B -> B) (l : list A) (acc : B) (s : S) :
  range l (fun x r => ret (f x r)) acc s = Return (fold_left (fun r x => f x r) l acc) s.
Proof.
  revert acc. induction l as [|x l IH]; intros acc; [reflexivity|].
  cbn [range fold_left]. unfold bind, ret at 1. apply IH.
Qed.

(** The listing of aws.go that takes no lock hands back the keys. *)
Lemma aws_GetVMList_returns (s : aws.St) :
  aws.GetVMList s =
    Return (fold_left (fun r entry => r ++ [fst entry])%list
              (map_to_list (aws.vmMap (prov s))) []) s.
Proof.
  unfold aws.GetVMList, bind, getP. apply range_pure.
Qed.

Lemma vbox_GetVMList_returns (s : virtualbox.St) :
  virtualbox.vmMapLock (prov s) = sync.free ->
  virtualbox.GetVMList s =
    Return (fold_left (fun r entry => r ++ [fst entry])%list
              (map_to_list (virtualbox.vmMap (prov s))) []) s.
Proof.
  destruct s as [[nd src m l] t tr]; cbn; intros ->.
  unfold virtualbox.GetVMList, virtualbox.vmMapLock_Lock, virtualbox.vmMapLock_Unlock.
  unfold defer, bind, sync.acquire, getP. cbn.
  rewrite range_pure. reflexivity.
Qed.

(** C8 (the code departs from it).  [GetVMList] of the listing of aws.go
    that locks the directory with a [sync.Mutex] releases the lock by
    hand and then again through its deferred call: called with the lock
    free, whatever the directory holds, it ends in the runtime panic
    "sync: unlock of unlocked mutex" and returns no list. *)
Theorem aws0_GetVMList_unlocks_twice (s : aws0.St) :
  aws0.vmMapLock (prov s) = sync.free ->
  aws0.GetVMList s = Panic "sync: unlock of unlocked mutex" s /\
  value_of (aws0.GetVMList s) = None.
Proof.
  destruct s as [[m l c] t tr]; cbn; intros ->.
  assert (aws0.GetVMList
            {| prov := {| aws0.vmMap := m; aws0.vmMapLock := sync.free; aws0.config := c |};
               now := t; trace := tr |}
          = Panic "sync: unlock of unlocked mutex"
              {| prov := {| aws0.vmMap := m; aws0.vmMapLock := sync.free; aws0.config := c |};
                 now := t; trace := tr |}) as E.
  { unfold aws0.GetVMList, aws0.vmMapLock_Lock, aws0.vmMapLock_Unlock.
    unfold defer, bind, sync.acquire, getP. cbn.
    rewrite range_pure. reflexivity. }
  rewrite E. split; reflexivity.
Qed.

Lemma aws0_GetVMList_witness :
  aws0.vmMapLock (prov (scenario.aws0_with
                          (scenario.aws_record kubeapi.PodSandBoxState_READY lvm.VMRunning 0) 0))
    = sync.free /\
  value_of (aws0.GetVMList
              (scenario.aws0_with
                 (scenario.aws_record kubeapi.PodSandBoxState_READY lvm.VMRunning 0) 0))
    = None.
Proof.
  split; [reflexivity|].
  exact (proj2 (aws0_GetVMList_unlocks_twice
                  (scenario.aws0_with
                     (scenario.aws_record kubeapi.PodSandBoxState_READY lvm.VMRunning 0) 0)
                  eq_refl)).
Defined.

(** ** The image directory *)

Lemma Split_nonempty s c : strings_Split s c <> [].
Proof.
  induction s as [|a s IH]; cbn; [discriminate|].
  destruct (Ascii.eqb a c); [discriminate|].
  destruct (strings_Split s c); [contradiction | discriminate].
Qed.

(** [len(strings.Split(name, ":")) == 1] says that [name] has no colon. *)
Lemma Split_single_iff s c :
  (length (strings_Split s c) =? 1)%nat = negb (occurs c s).
Proof.
  induction s as [|a s IH]; cbn; [reflexivity|].
  destruct (Ascii.eqb a c); cbn.
  - pose proof (Split_nonempty s c) as Hne.
    destruct (strings_Split s c); [contradiction | reflexivity].
  - rewrite <- IH. pose proof (Split_nonempty s c) as Hne.
    destruct (strings_Split s c); [contradiction | reflexivity].
Qed.

(** What [ImageStatus] does with a request that names an image. *)
Lemma gcp_ImageStatus_run reference (s : gcp.St) :
  gcp.lock (prov s) = sync.rwfree ->
  gcp.ImageStatus (kubeapi.ImageStatusRequest.naming reference) s =
    let name := if occurs ":" reference then reference else reference ++ ":latest" in
    Return (Ok {| kubeapi.ImageStatusResponse.Image := gcp.imageMap (prov s) !! name |},
            kubeapi.ImageStatusRequest.naming name) s.
Proof.
  destruct s as [[l c m] t tr]; cbn; intros ->.
  unfold gcp.ImageStatus, kubeapi.ImageStatusRequest.naming; cbn.
  rewrite Split_single_iff.
  unfold gcp.ListImages, gcp.lock_RLock, gcp.lock_RUnlock.
  destruct (occurs ":" reference); go;
    match goal with |- context [m !! ?k] => destruct (m !! k) end; reflexivity.
Qed.

(** C9.  [ImageStatus] looks the reference up in the image directory
    after appending ":latest" to a reference that has no ":"; the call
    leaves the provider (and so the directory) as it was; when the
    directory holds the normalised reference the answer carries that
    record, and when it does not the answer is empty. *)
Theorem ImageStatus_looks_up_the_normalised_reference reference (s : gcp.St) :
  gcp.lock (prov s) = sync.rwfree ->
  let name := if occurs ":" reference then reference else reference ++ ":latest" in
  let out := gcp.ImageStatus (kubeapi.ImageStatusRequest.naming reference) s in
  state_of out = s /\
  fst <$> value_of out =
    Some (Ok {| kubeapi.ImageStatusResponse.Image := gcp.imageMap (prov s) !! name |}) /\
  (forall image, gcp.imageMap (prov s) !! name = Some image ->
     fst <$> value_of out = Some (Ok {| kubeapi.ImageStatusResponse.Image := Some image |})) /\
  (gcp.imageMap (prov s) !! name = None ->
     fst <$> value_of out = Some (Ok {| kubeapi.ImageStatusResponse.Image := None |})).
Proof.
  intros Hl. cbv zeta. rewrite (gcp_ImageStatus_run _ _ Hl). cbn.
  repeat split.
  - intros image ->. reflexivity.
  - intros ->. reflexivity.
Qed.

Lemma ImageStatus_lookup_witness :
  gcp.lock (prov scenario.images) = sync.rwfree /\
  fst <$> value_of (gcp.ImageStatus (kubeapi.ImageStatusRequest.naming "busybox") scenario.images)
    = Some (Ok {| kubeapi.ImageStatusResponse.Image := Some scenario.busybox |}) /\
  fst <$> value_of (gcp.ImageStatus (kubeapi.ImageStatusRequest.naming "alpine") scenario.images)
    = Some (Ok {| kubeapi.ImageStatusResponse.Image := None |}).
Proof.
  split; [reflexivity|]. split.
  - exact (proj1 (proj2 (proj2
      (ImageStatus_looks_up_the_normalised_reference "busybox" scenario.images eq_refl)))
      scenario.busybox eq_refl).
  - exact (proj2 (proj2 (proj2
      (ImageStatus_looks_up_the_normalised_reference "alpine" scenario.images eq_refl)))
      eq_refl).
Defined.

(** C10.  The request is a pointer and [ImageStatus] writes through it:
    for a reference without ":" the caller finds its request naming
    reference + ":latest" afterwards; for a reference with a ":" the
    request is as it was handed in. *)
Theorem ImageStatus_rewrites_the_request reference (s : gcp.St) :
  gcp.lock (prov s) = sync.rwfree ->
  let out := gcp.ImageStatus (kubeapi.ImageStatusRequest.naming reference) s in
  (occurs ":" reference = false ->
     snd <$> value_of out = Some (kubeapi.ImageStatusRequest.naming (reference ++ ":latest"))) /\
  (occurs ":" reference = true ->
     snd <$> value_of out = Some (kubeapi.ImageStatusRequest.naming reference)).
Proof.
  intros Hl. cbv zeta. rewrite (gcp_ImageStatus_run _ _ Hl). cbn.
  split; intros ->; reflexivity.
Qed.

Lemma ImageStatus_request_witness :
  gcp.lock (prov scenario.images) = sync.rwfree /\
  snd <$> value_of (gcp.ImageStatus (kubeapi.ImageStatusRequest.naming "busybox") scenario.images)
    = Some (kubeapi.ImageStatusRequest.naming "busybox:latest") /\
  snd <$> value_of (gcp.ImageStatus (kubeapi.ImageStatusRequest.naming "busybox:1.0") scenario.images)
    = Some (kubeapi.ImageStatusRequest.naming "busybox:1.0").
Proof.
  split; [reflexivity|]. split.
  - exact (proj1 (ImageStatus_rewrites_the_request "busybox" scenario.images eq_refl) eq_refl).
  - exact (proj2 (ImageStatus_rewrites_the_request "busybox:1.0" scenario.images eq_refl) eq_refl).
Defined.

(** ** Routing container requests *)

Lemma append_cons a (s r : string) : String a s ++ r = String a (s ++ r).
Proof. reflexivity. Qed.


Section Router.
Context {P : Type} (env : Env).
Context (getClient : string -> M (State P) (Result (option Client))).


(** What handing [r] to the agent behind [c] leaves behind. *)
Lemma Do_run c r (s : State P) :
  Do_ env c r s =
    Return (client_Do env c r)
      {| prov := prov s; now := now s + Z.of_N (elapsed env (Forward c r));
         trace := trace s ++ [Forward c r] |}.
Proof. reflexivity. Qed.


End Router.

Lemma aws_GetClient_present id d (s : aws.St) :
  aws.vmMap (prov s) !! id = Some d ->
  aws.vmMapLock (prov s) = sync.rwfree ->
  aws.GetClient id s = Return (Ok (common.Client (aws.PodData d))) s.
Proof.
  destruct s as [[m l c] t tr]; cbn; intros Hm ->.
  unfold aws.GetClient, aws.GetClientLocked, aws.vmMapLock_RLock, aws.vmMapLock_RUnlock,
    aws.getPodData, aws.load, aws.at_.
  repeat (go; rewrite ?Hm). reflexivity.
Qed.

Lemma aws_GetClient_absent id (s : aws.St) :
  aws.vmMap (prov s) !! id = None ->
  aws.vmMapLock (prov s) = sync.rwfree ->
  aws.GetClient id s = Return (Err (id ++ " unknown pod name")) s.
Proof.
  destruct s as [[m l c] t tr]; cbn; intros Hm ->.
  unfold aws.GetClient, aws.GetClientLocked, aws.vmMapLock_RLock, aws.vmMapLock_RUnlock,
    aws.getPodData.
  go. rewrite Hm. reflexivity.
Qed.


(** ** Filtering the listing *)

Lemma PodSandBoxState_eqb_eq a b :
  kubeapi.PodSandBoxState_eqb a b = true <-> a = b.
Proof. destruct a, b; cbn; split; congruence. Qed.

Lemma matchLabels_keeps_iff labels selector :
  fst (common.matchLabels labels selector) = false <->
  (forall key filterVal, (key, filterVal) ∈ selector -> labels !! key = Some filterVal).
Proof.
  induction selector as [|[k v] rest IH]; cbn.
  - split; [|reflexivity]. intros _ key filterVal Hin. inversion Hin.
  - destruct (labels !! k) as [podVal|] eqn:Hk; cbn.
    + destruct (String.eqb podVal v) eqn:Hv; cbn.
      * apply String.eqb_eq in Hv as ->. rewrite IH. split.
        -- intros H key filterVal Hin. apply elem_of_cons in Hin as [[= -> ->]|Hin]; auto.
        -- intros H key filterVal Hin. apply H. now right.
      * split; [discriminate|]. intros H.
        specialize (H k v (list_elem_of_here _ _)). rewrite Hk in H.
        injection H as ->. rewrite String.eqb_refl in Hv. discriminate.
    + split; [discriminate|]. intros H.
      specialize (H k v (list_elem_of_here _ _)). rewrite Hk in H. discriminate.
Qed.

(** The records that [Filter] keeps. *)
Lemma Filter_keeps_iff p f :
  fst (common.Filter p (Some f)) = false <->
  (kubeapi.PodSandboxFilter.GetId f = "" \/ kubeapi.PodSandboxFilter.GetId f = common.Id p) /\
  kubeapi.PodSandboxFilter.GetState f = common.PodState p /\
  (forall key filterVal,
     kubeapi.PodSandboxFilter.GetLabelSelector f !! key = Some filterVal ->
     common.Labels p !! key = Some filterVal).
Proof.
  unfold common.Filter.
  destruct (String.eqb (kubeapi.PodSandboxFilter.GetId f) "") eqn:E1;
  destruct (String.eqb (kubeapi.PodSandboxFilter.GetId f) (common.Id p)) eqn:E2;
  destruct (kubeapi.PodSandBoxState_eqb (kubeapi.PodSandboxFilter.GetState f)
              (common.PodState p)) eqn:E3; cbn;
  rewrite ?String.eqb_eq, ?String.eqb_neq in *;
  try apply PodSandBoxState_eqb_eq in E3;
  try (assert (kubeapi.PodSandboxFilter.GetState f <> common.PodState p)
         by (intros HE; apply PodSandBoxState_eqb_eq in HE; congruence));
  try (rewrite matchLabels_keeps_iff;
       split; [intros H; repeat split; auto;
               intros key filterVal Hl; apply H, elem_of_map_to_list, Hl
              |intros (_ & _ & H) key filterVal Hin;
               apply H, elem_of_map_to_list, Hin]);
  try (split; [discriminate | intros (? & ? & ?); tauto]).
  all: try (split; [discriminate | intros ([?|?] & ? & ?); tauto]).
Qed.

Lemma Filter_nil_keeps p : common.Filter p None = (false, common.NoMsg).
Proof. reflexivity. Qed.

(** C4 (the code departs from it).  A filter that is present but names
    no state is read as asking for [READY], because the getter gives the
    zero value of the enumeration: whatever its id and labels, a record
    that is [NOTREADY] is dropped, by [Filter] of the aws provider and by
    the loop of the virtualbox provider alike. *)
Theorem filter_without_state_drops_not_ready env p f id (d : virtualbox.podData)
    (s : virtualbox.St) :
  kubeapi.PodSandboxFilter.State f = None ->
  common.PodState p = kubeapi.PodSandBoxState_NOTREADY ->
  common.PodState (virtualbox.PodData d) = kubeapi.PodSandBoxState_NOTREADY ->
  fst (common.Filter p (Some f)) = true /\
  value_of (virtualbox.examine env id d (Some f) s) = Some None.
Proof.
  intros Hf Hp Hd. split.
  - unfold common.Filter, kubeapi.PodSandboxFilter.GetState. rewrite Hf, Hp. cbn.
    destruct (_ && _); reflexivity.
  - unfold virtualbox.examine, kubeapi.PodSandboxFilter.GetState. rewrite Hf, Hd. go.
    destruct (vm_GetState env _) as [st|]; [|reflexivity].
    destruct (negb (String.eqb st lvm.VMRunning)); cbn;
      destruct (_ && _); reflexivity.
Qed.

Lemma filter_without_state_witness :
  fst (common.Filter (scenario.pod kubeapi.PodSandBoxState_NOTREADY)
         (Some scenario.no_constraint)) = true /\
  value_of (virtualbox.examine scenario.env_ok "i-1"
              (scenario.vbox_record kubeapi.PodSandBoxState_NOTREADY)
              (Some scenario.no_constraint) scenario.vbox_empty) = Some None.
Proof.
  exact (filter_without_state_drops_not_ready scenario.env_ok
           (scenario.pod kubeapi.PodSandBoxState_NOTREADY) scenario.no_constraint "i-1"
           (scenario.vbox_record kubeapi.PodSandBoxState_NOTREADY) scenario.vbox_empty
           eq_refl eq_refl eq_refl).
Defined.

(** The same on a whole listing: the directory holds one sandbox that
    was stopped; a listing whose filter asks for nothing comes back
    empty, while a listing without a filter shows the sandbox. *)
Example listing_with_an_empty_filter_hides_a_stopped_sandbox :
  let s := scenario.aws_with
             (scenario.aws_record kubeapi.PodSandBoxState_NOTREADY lvm.VMRunning 0) 0 in
  value_of (aws.ListPodSandbox scenario.env_ok
              (scenario.list_request (Some scenario.no_constraint)) s)
    = Some (Ok {| kubeapi.ListPodSandboxResponse.Items := [] |}) /\
  value_of (aws.ListPodSandbox scenario.env_ok (scenario.list_request None) s)
    = Some (Ok {| kubeapi.ListPodSandboxResponse.Items :=
                    [common.GetSandbox (scenario.pod kubeapi.PodSandBoxState_NOTREADY)] |}).
Proof. cbv zeta. split; vm_compute; reflexivity. Qed.

(** ** The aws provider on a sandbox that the directory holds *)

Lemma aws_store_same id d (v : aws.awsProvider) :
  aws.vmMap v !! id = Some d -> aws.store_ id d v = v.
Proof.
  destruct v as [m l c]; cbn; intros Hm. unfold aws.store_, aws.set_vmMap; cbn.
  now rewrite (insert_id m id d Hm).
Qed.

Lemma vbox_store_same id d (v : virtualbox.vboxProvider) :
  virtualbox.vmMap v !! id = Some d -> virtualbox.store_ id d v = v.
Proof.
  destruct v as [nd src m l]; cbn; intros Hm.
  unfold virtualbox.store_, virtualbox.set_vmMap; cbn.
  now rewrite (insert_id m id d Hm).
Qed.

Ltac aws_unfold :=
  unfold aws.PodSandboxStatus, aws.RemovePodSandbox, aws.StopPodSandbox, aws.filter,
    aws.vmMapLock_RLock, aws.vmMapLock_RUnlock, aws.vmMapLock_Lock, aws.vmMapLock_Unlock,
    aws.getPodData, aws.StateLock_Lock, aws.StateLock_Unlock, aws.embedded,
    aws.updateVMState, aws.downgrade, aws.load, aws.store, aws.at_, aws.store_,
    common.StateLock_Lock, common.StateLock_Unlock, common.PodStatus, common.RemovePod,
    common.StopPod, common.GetSandbox,
    record.examined, record.downgraded, record.refreshed, record.stale, record.query in *.

Ltac vbox_unfold :=
  unfold virtualbox.PodSandboxStatus, virtualbox.RemovePodSandbox, virtualbox.StopPodSandbox,
    virtualbox.getPodData, virtualbox.vmMapLock_Lock, virtualbox.vmMapLock_Unlock,
    virtualbox.StateLock_Lock, virtualbox.StateLock_Unlock, virtualbox.embedded,
    virtualbox.load, virtualbox.at_, virtualbox.store_,
    common.StateLock_Lock, common.StateLock_Unlock, common2.PodStatus, common.RemovePod,
    common.StopPod in *.

(** [Filter] reads the id, the state and the labels of a record, not its lock. *)
Lemma Filter_set_StateLock l p f :
  common.Filter (common.set_StateLock l p) f = common.Filter p f.
Proof. reflexivity. Qed.

Lemma Filter_set_PodState_StateLock st l p f :
  common.Filter (common.set_PodState st (common.set_StateLock l p)) f
  = common.Filter (common.set_PodState st p) f.
Proof. reflexivity. Qed.

Ltac filter_cases f :=
  rewrite ?Filter_set_PodState_StateLock, ?Filter_set_StateLock;
  match goal with |- context [fst (common.Filter ?p f)] =>
    destruct (fst (common.Filter p f)) end.

Section Present.
Context (env : Env).

(** [PodSandboxStatus] of aws.go on a sandbox of the directory. *)
Lemma aws_Status_run req d (s : aws.St) :
  let id := kubeapi.PodSandboxIdRequest.GetPodSandboxId req in
  aws.vmMap (prov s) !! id = Some d ->
  aws.vmMapLock (prov s) = sync.rwfree ->
  common.StateLock (aws.PodData d) = sync.free ->
  aws.PodSandboxStatus env req s =
    let d' := record.downgraded (record.refreshed env (now s) d) in
    match common.PodStatus (aws.PodData d') (record.examined env id d s) with
    | Return status s' =>
        Return (Ok {| kubeapi.PodSandboxStatusResponse.Status := Some status |}) s'
    | Panic msg s' => Panic msg s'
    | Blocked s' => Blocked s'
    end.
Proof.
  destruct s as [[m l c] t tr], d as [[i md an ca ip lb lx sl cl ps] v vs lc].
  cbn. intros Hm -> ->. aws_unfold.
  repeat (go; rewrite ?Hm; maps).
  destruct (Time_After _ _).
  - repeat (go; rewrite ?Hm; maps).
    destruct (vm_GetState env _) as [st|e].
    + repeat (go; rewrite ?Hm; maps).
      destruct (negb (String.eqb st lvm.VMRunning)); repeat (go; rewrite ?Hm; maps);
        destruct lx; repeat (go; rewrite ?Hm; maps); reflexivity.
    + repeat (go; rewrite ?Hm; maps).
      destruct (negb (String.eqb vs lvm.VMRunning)); repeat (go; rewrite ?Hm; maps);
        destruct lx; repeat (go; rewrite ?Hm; maps); reflexivity.
  - repeat (go; rewrite ?Hm; maps).
    destruct (negb (String.eqb vs lvm.VMRunning)); repeat (go; rewrite ?Hm; maps);
        destruct lx; repeat (go; rewrite ?Hm; maps); reflexivity.
Qed.

(** [filter] of aws.go, the step of the listing for one record. *)
Lemma aws_filter_run id f d (s : aws.St) :
  aws.vmMap (prov s) !! id = Some d ->
  common.StateLock (aws.PodData d) = sync.free ->
  aws.filter env id f s =
    let d' := record.downgraded (record.refreshed env (now s) d) in
    Return (if fst (common.Filter (aws.PodData d') f) then None
            else Some (common.GetSandbox (aws.PodData d')))
           (record.examined env id d s).
Proof.
  destruct s as [[m l c] t tr], d as [[i md an ca ip lb lx sl cl ps] v vs lc].
  cbn. intros Hm ->. aws_unfold.
  repeat (go; rewrite ?Hm; maps).
  destruct (Time_After _ _).
  - repeat (go; rewrite ?Hm; maps).
    destruct (vm_GetState env _) as [st|e].
    + repeat (go; rewrite ?Hm; maps).
      destruct (negb (String.eqb st lvm.VMRunning)); repeat (go; rewrite ?Hm; maps);
      filter_cases f; repeat (go; rewrite ?Hm; maps); reflexivity.
    + repeat (go; rewrite ?Hm; maps).
      destruct (negb (String.eqb vs lvm.VMRunning)); repeat (go; rewrite ?Hm; maps);
      filter_cases f; repeat (go; rewrite ?Hm; maps); reflexivity.
  - repeat (go; rewrite ?Hm; maps).
    destruct (negb (String.eqb vs lvm.VMRunning)); repeat (go; rewrite ?Hm; maps);
      filter_cases f; repeat (go; rewrite ?Hm; maps); reflexivity.
Qed.

(** [RemovePodSandbox] of aws.go on a sandbox of the directory. *)
Lemma aws_Remove_run req d (s : aws.St) :
  let id := kubeapi.PodSandboxIdRequest.GetPodSandboxId req in
  let iid := aws.InstanceID (aws.vm d) in
  aws.vmMap (prov s) !! id = Some d ->
  aws.vmMapLock (prov s) = sync.rwfree ->
  common.StateLock (aws.PodData d) = sync.free ->
  aws.RemovePodSandbox env req s =
    match vm_Destroy env iid with
    | Some err =>
        Return (Err ("RemovePodSandbox: " ++ err))
          {| prov := prov s;
             now := now s + Z.of_N (elapsed env (Destroy iid));
             trace := trace s ++ [Destroy iid] |}
    | None =>
        Return (Ok kubeapi.mkRemovePodSandboxResponse)
          {| prov := aws.set_vmMap (delete id (aws.vmMap (prov s))) (prov s);
             now := now s + Z.of_N (elapsed env (Destroy iid))
                    + Z.of_N (elapsed env (Close (common.Client (aws.PodData d))))
                    + Z.of_N (elapsed env (Delete id));
             trace := trace s ++ [Destroy iid; Close (common.Client (aws.PodData d)); Delete id] |}
    end.
Proof.
  destruct s as [[m l c] t tr], d as [[i md an ca ip lb lx sl cl ps] v vs lc].
  cbn. intros Hm -> ->. aws_unfold.
  repeat (go; rewrite ?Hm; maps).
  destruct (vm_Destroy env _) as [e|].
  - repeat (go; rewrite ?Hm; maps). rewrite (insert_id m _ _ Hm). reflexivity.
  - repeat (go; rewrite ?Hm; maps). rewrite <- !app_assoc. reflexivity.
Qed.

End Present.

(** ** The virtualbox provider on a sandbox that the directory holds *)

Section PresentVbox.
Context (env : Env).

Lemma vbox_Status_run req d (s : virtualbox.St) :
  let id := kubeapi.PodSandboxIdRequest.GetPodSandboxId req in
  let name := virtualbox.Name_ (virtualbox.vm d) in
  virtualbox.vmMap (prov s) !! id = Some d ->
  virtualbox.vmMapLock (prov s) = sync.free ->
  common.StateLock (virtualbox.PodData d) = sync.free ->
  virtualbox.PodSandboxStatus env req s =
    match common2.PodStatus (virtualbox.PodData d) s with
    | Return (Ok status) _ =>
        let s' := {| prov := prov s;
                     now := now s + Z.of_N (elapsed env (GetState name));
                     trace := trace s ++ [GetState name] |} in
        match vm_GetState env name with
        | Err err => Return (Err ("PodSandboxStatus: error in GetState(): " ++ err)) s'
        | Ok vmState =>
            Return (Ok {| kubeapi.PodSandboxStatusResponse.Status :=
                            Some (virtualbox.with_State
                                    (if negb (String.eqb vmState lvm.VMRunning)
                                     then kubeapi.PodSandBoxState_NOTREADY
                                     else common.PodState (virtualbox.PodData d))
                                    status) |}) s'
        end
    | Return (Err err) s' => Return (Err ("PodSandboxStatus: " ++ err)) s'
    | Panic msg s' => Panic msg s'
    | Blocked s' => Blocked s'
    end.
Proof.
  destruct s as [[nd src m l] t tr], d as [[i md an ca ip lb lx sl cl ps] v].
  cbn. intros Hm -> ->. vbox_unfold.
  repeat (go; rewrite ?Hm; maps).
  destruct lx as [lx|].
  - repeat (go; rewrite ?Hm; maps).
    destruct (vm_GetState env _) as [st|e];
      repeat (go; rewrite ?Hm; maps); rewrite (insert_id m _ _ Hm); reflexivity.
  - repeat (go; rewrite ?Hm; maps). rewrite (insert_id m _ _ Hm). reflexivity.
Qed.

Lemma vbox_Remove_run req d (s : virtualbox.St) :
  let id := kubeapi.PodSandboxIdRequest.GetPodSandboxId req in
  let name := virtualbox.Name_ (virtualbox.vm d) in
  virtualbox.vmMap (prov s) !! id = Some d ->
  virtualbox.vmMapLock (prov s) = sync.free ->
  virtualbox.RemovePodSandbox env req s =
    match vm_Destroy env name with
    | Some err =>
        Return (Err ("RemovePodSandbox: " ++ err))
          {| prov := prov s;
             now := now s + Z.of_N (elapsed env (Destroy name));
             trace := trace s ++ [Destroy name] |}
    | None =>
        Return (Ok kubeapi.mkRemovePodSandboxResponse)
          {| prov := virtualbox.set_vmMap (delete id (virtualbox.vmMap (prov s))) (prov s);
             now := now s + Z.of_N (elapsed env (Destroy name))
                    + Z.of_N (elapsed env (Close (common.Client (virtualbox.PodData d))))
                    + Z.of_N (elapsed env (Delete id));
             trace := trace s ++ [Destroy name; Close (common.Client (virtualbox.PodData d));
                                  Delete id] |}
    end.
Proof.
  destruct s as [[nd src m l] t tr], d as [[i md an ca ip lb lx sl cl ps] v].
  cbn. intros Hm ->. vbox_unfold.
  repeat (go; rewrite ?Hm; maps).
  destruct (vm_Destroy env _) as [e|].
  - repeat (go; rewrite ?Hm; maps). reflexivity.
  - repeat (go; rewrite ?Hm; maps). rewrite <- !app_assoc. reflexivity.
Qed.
End PresentVbox.

(** ** Removing a sandbox *)

(** A refresh touches the cached sample and the state, nothing else. *)
Lemma examined_record_fields env t d :
  let d' := record.downgraded (record.refreshed env t d) in
  common.Id (aws.PodData d') = common.Id (aws.PodData d) /\
  common.Linux (aws.PodData d') = common.Linux (aws.PodData d) /\
  common.Labels (aws.PodData d') = common.Labels (aws.PodData d) /\
  common.StateLock (aws.PodData d') = common.StateLock (aws.PodData d) /\
  aws.vm d' = aws.vm d.
Proof.
  cbv zeta. unfold record.downgraded, record.refreshed.
  destruct (record.stale t d); [destruct (vm_GetState env _)|];
    cbn; destruct (negb _); cbn; auto.
Qed.

Section Removal.
Context (env : Env).

(** A status query on a sandbox of the aws directory that carries a
    Linux configuration returns a status for that sandbox. *)
Lemma aws_Status_returns req d lx (s : aws.St) :
  aws.vmMap (prov s) !! kubeapi.PodSandboxIdRequest.GetPodSandboxId req = Some d ->
  aws.vmMapLock (prov s) = sync.rwfree ->
  common.StateLock (aws.PodData d) = sync.free ->
  common.Linux (aws.PodData d) = Some lx ->
  exists status s',
    aws.PodSandboxStatus env req s =
      Return (Ok {| kubeapi.PodSandboxStatusResponse.Status := Some status |}) s' /\
    kubeapi.PodSandboxStatus.Id status = Some (common.Id (aws.PodData d)).
Proof.
  intros Hm Hl Hs Hlx. rewrite (aws_Status_run env req d s Hm Hl Hs). cbv zeta.
  destruct (examined_record_fields env (now s) d) as (Hi & Hx & _).
  unfold common.PodStatus. rewrite Hx, Hlx, Hi. go. eauto.
Qed.

Lemma vbox_Status_returns req d lx st (s : virtualbox.St) :
  virtualbox.vmMap (prov s) !! kubeapi.PodSandboxIdRequest.GetPodSandboxId req = Some d ->
  virtualbox.vmMapLock (prov s) = sync.free ->
  common.StateLock (virtualbox.PodData d) = sync.free ->
  common.Linux (virtualbox.PodData d) = Some lx ->
  vm_GetState env (virtualbox.Name_ (virtualbox.vm d)) = Ok st ->
  exists status s',
    virtualbox.PodSandboxStatus env req s =
      Return (Ok {| kubeapi.PodSandboxStatusResponse.Status := Some status |}) s' /\
    kubeapi.PodSandboxStatus.Id status = Some (common.Id (virtualbox.PodData d)).
Proof.
  intros Hm Hl Hs Hlx Hst. rewrite (vbox_Status_run env req d s Hm Hl Hs). cbv zeta.
  unfold common2.PodStatus. rewrite Hlx, Hst. go. eauto.
Qed.

End Removal.

(** C2.  Removing a sandbox that the directory holds (aws and
    virtualbox): the machine is destroyed, then the agent connection is
    closed, then the entry leaves the directory, in this order and with
    nothing in between.  When the backend refuses to destroy the
    machine its error is returned after that one call, the provider is
    as it was, and a status query still finds the sandbox.  After a
    removal that succeeded, removing the same id again fails with the
    not-found error. *)
Theorem remove_destroys_closes_deletes
    env req (sa : aws.St) (da : aws.podData) (sv : virtualbox.St) (dv : virtualbox.podData) :
  let id := kubeapi.PodSandboxIdRequest.GetPodSandboxId req in
  let not_found := "RemovePodSandbox: Invalid PodSandboxId (" ++ id ++ ")" in
  let ma := aws.InstanceID (aws.vm da) in
  let mv := virtualbox.Name_ (virtualbox.vm dv) in
  let outa := aws.RemovePodSandbox env req sa in
  let outv := virtualbox.RemovePodSandbox env req sv in
  aws.vmMap (prov sa) !! id = Some da ->
  aws.vmMapLock (prov sa) = sync.rwfree ->
  common.StateLock (aws.PodData da) = sync.free ->
  virtualbox.vmMap (prov sv) !! id = Some dv ->
  virtualbox.vmMapLock (prov sv) = sync.free ->
  common.StateLock (virtualbox.PodData dv) = sync.free ->
  (vm_Destroy env ma = None ->
     value_of outa = Some (Ok kubeapi.mkRemovePodSandboxResponse) /\
     trace (state_of outa)
       = (trace sa ++ [Destroy ma; Close (common.Client (aws.PodData da)); Delete id])%list /\
     aws.vmMap (prov (state_of outa)) = delete id (aws.vmMap (prov sa)) /\
     forall env', aws.RemovePodSandbox env' req (state_of outa)
                  = Return (Err not_found) (state_of outa)) /\
  (forall err, vm_Destroy env ma = Some err ->
     value_of outa = Some (Err ("RemovePodSandbox: " ++ err)) /\
     trace (state_of outa) = (trace sa ++ [Destroy ma])%list /\
     prov (state_of outa) = prov sa /\
     forall env' lx, common.Linux (aws.PodData da) = Some lx ->
       exists status s',
         aws.PodSandboxStatus env' req (state_of outa)
           = Return (Ok {| kubeapi.PodSandboxStatusResponse.Status := Some status |}) s' /\
         kubeapi.PodSandboxStatus.Id status = Some (common.Id (aws.PodData da))) /\
  (vm_Destroy env mv = None ->
     value_of outv = Some (Ok kubeapi.mkRemovePodSandboxResponse) /\
     trace (state_of outv)
       = (trace sv ++ [Destroy mv; Close (common.Client (virtualbox.PodData dv)); Delete id])%list /\
     virtualbox.vmMap (prov (state_of outv)) = delete id (virtualbox.vmMap (prov sv)) /\
     forall env', virtualbox.RemovePodSandbox env' req (state_of outv)
                  = Return (Err not_found) (state_of outv)) /\
  (forall err, vm_Destroy env mv = Some err ->
     value_of outv = Some (Err ("RemovePodSandbox: " ++ err)) /\
     trace (state_of outv) = (trace sv ++ [Destroy mv])%list /\
     prov (state_of outv) = prov sv /\
     forall env' lx st, common.Linux (virtualbox.PodData dv) = Some lx ->
       vm_GetState env' mv = Ok st ->
       exists status s',
         virtualbox.PodSandboxStatus env' req (state_of outv)
           = Return (Ok {| kubeapi.PodSandboxStatusResponse.Status := Some status |}) s' /\
         kubeapi.PodSandboxStatus.Id status = Some (common.Id (virtualbox.PodData dv))).
Proof.
  cbv zeta. intros Ha La Sa Hv Lv Sv.
  rewrite (aws_Remove_run env req da sa Ha La Sa).
  rewrite (vbox_Remove_run env req dv sv Hv Lv). cbv zeta.
  split; [|split; [|split]].
  - intros Hd. rewrite Hd. cbn. repeat split.
    intros env'. apply aws_Remove_absent; cbn; [apply lookup_delete_eq | exact La].
  - intros err Hd. rewrite Hd. cbn. repeat split.
    intros env' lx Hlx. eapply aws_Status_returns; eauto.
  - intros Hd. rewrite Hd. cbn. repeat split.
    intros env'. apply vbox_Remove_absent; cbn; [apply lookup_delete_eq | exact Lv].
  - intros err Hd. rewrite Hd. cbn. repeat split.
    intros env' lx st Hlx Hst. eapply vbox_Status_returns; eauto.
Qed.

Lemma remove_witness :
  let da := scenario.aws_record kubeapi.PodSandBoxState_READY lvm.VMRunning 0 in
  let dv := scenario.vbox_record kubeapi.PodSandBoxState_READY in
  let sa := scenario.aws_with da 0 in
  let sv := scenario.vbox_with dv 0 in
  (aws.vmMap (prov sa) !! "i-1" = Some da /\
   virtualbox.vmMap (prov sv) !! "i-1" = Some dv) /\
  trace (state_of (aws.RemovePodSandbox scenario.env_ok scenario.the_sandbox sa))
    = [Destroy "i-1"; Close (Some 7%nat); Delete "i-1"] /\
  prov (state_of (virtualbox.RemovePodSandbox scenario.env_destroy_fails
                    scenario.the_sandbox sv)) = prov sv.
Proof.
  cbv zeta.
  pose proof (remove_destroys_closes_deletes scenario.env_ok scenario.the_sandbox
                (scenario.aws_with
                   (scenario.aws_record kubeapi.PodSandBoxState_READY lvm.VMRunning 0) 0)
                (scenario.aws_record kubeapi.PodSandBoxState_READY lvm.VMRunning 0)
                (scenario.vbox_with (scenario.vbox_record kubeapi.PodSandBoxState_READY) 0)
                (scenario.vbox_record kubeapi.PodSandBoxState_READY)
                eq_refl eq_refl eq_refl eq_refl eq_refl eq_refl) as Hok.
  pose proof (remove_destroys_closes_deletes scenario.env_destroy_fails scenario.the_sandbox
                (scenario.aws_with
                   (scenario.aws_record kubeapi.PodSandBoxState_READY lvm.VMRunning 0) 0)
                (scenario.aws_record kubeapi.PodSandBoxState_READY lvm.VMRunning 0)
                (scenario.vbox_with (scenario.vbox_record kubeapi.PodSandBoxState_READY) 0)
                (scenario.vbox_record kubeapi.PodSandBoxState_READY)
                eq_refl eq_refl eq_refl eq_refl eq_refl eq_refl) as Hno.
  cbv zeta in Hok, Hno.
  destruct Hok as (Hok & _). destruct (Hok eq_refl) as (_ & Htrace & _).
  destruct Hno as (_ & _ & _ & Hno). destruct (Hno _ eq_refl) as (_ & _ & Hprov & _).
  split; [split; reflexivity|]. split; [exact Htrace | exact Hprov].
Defined.

(** ** The listing of the aws provider *)

Section Listing.
Context (env : Env) (f : option kubeapi.PodSandboxFilter.t).

Lemma examined_prov id d (s : aws.St) :
  aws.vmMap (prov (record.examined env id d s))
    = <[id := record.downgraded (record.refreshed env (now s) d)]> (aws.vmMap (prov s)) /\
  aws.vmMapLock (prov (record.examined env id d s)) = aws.vmMapLock (prov s) /\
  aws.config (prov (record.examined env id d s)) = aws.config (prov s).
Proof. repeat split. Qed.

Lemma aws_listing_loop (l : list (string * aws.podData)) :
  forall acc (s : aws.St),
  NoDup (l.*1) ->
  (forall k d, (k, d) ∈ l ->
     aws.vmMap (prov s) !! k = Some d /\ common.StateLock (aws.PodData d) = sync.free) ->
  exists items s',
    range l
      (fun entry sandboxes =>
         bind (aws.filter env (fst entry) f)
           (fun kept => match kept with
                        | Some sandbox => ret (sandboxes ++ [sandbox])%list
                        | None => ret sandboxes
                        end)) acc s
      = Return (acc ++ items)%list s' /\
    aws.vmMapLock (prov s') = aws.vmMapLock (prov s) /\
    aws.config (prov s') = aws.config (prov s) /\
    (forall k, k ∉ l.*1 -> aws.vmMap (prov s') !! k = aws.vmMap (prov s) !! k) /\
    (forall k d, (k, d) ∈ l ->
       exists t, aws.vmMap (prov s') !! k
                 = Some (record.downgraded (record.refreshed env t d)) /\
         (fst (common.Filter (aws.PodData (record.downgraded (record.refreshed env t d))) f)
            = false ->
          common.GetSandbox (aws.PodData (record.downgraded (record.refreshed env t d)))
            ∈ items)) /\
    (forall item, item ∈ items ->
       exists k d', aws.vmMap (prov s') !! k = Some d' /\
         fst (common.Filter (aws.PodData d') f) = false /\
         item = common.GetSandbox (aws.PodData d')).
Proof.
  induction l as [|[k d] l IH]; intros acc s Hnd Hl.
  - exists [], s. cbn. rewrite app_nil_r. repeat split; auto.
    + intros k d Hin. inversion Hin.
    + intros item Hin. inversion Hin.
  - cbn in Hnd. apply NoDup_cons in Hnd as [Hk Hnd].
    destruct (Hl k d (list_elem_of_here _ _)) as [Hm Hfree].
    cbn [range]. unfold bind at 1. unfold bind at 1. cbn [fst].
    rewrite (aws_filter_run env k f d s Hm Hfree). cbv zeta.
    set (d' := record.downgraded (record.refreshed env (now s) d)).
    set (s1 := record.examined env k d s).
    assert (Hrest : forall k0 d0, (k0, d0) ∈ l ->
              aws.vmMap (prov s1) !! k0 = Some d0 /\
              common.StateLock (aws.PodData d0) = sync.free).
    { intros k0 d0 Hin. destruct (Hl k0 d0) as [H1 H2]; [now right|]. split; [|exact H2].
      subst s1. cbn. rewrite lookup_insert_ne; [exact H1|].
      intros ->. apply Hk. apply list_elem_of_fmap. exists (k0, d0). auto. }
    destruct (fst (common.Filter (aws.PodData d') f)) eqn:Hf.
    + destruct (IH acc s1 Hnd Hrest) as (items & s' & Hrun & Hlock & Hconf & Hout & Hin & Hit).
      exists items, s'. unfold ret at 1. rewrite Hrun. repeat split; auto.
      * intros k0 Hk0. rewrite Hout.
        -- subst s1. cbn. apply lookup_insert_ne. intros ->. apply Hk0. now left.
        -- intros ?. apply Hk0. now right.
      * intros k0 d0 Hin0. apply elem_of_cons in Hin0 as [[= -> ->]|Hin0].
        -- exists (now s). fold d'. split.
           ++ rewrite Hout; [|exact Hk]. subst s1. cbn. apply lookup_insert_eq.
           ++ rewrite Hf. discriminate.
        -- apply Hin, Hin0.
    + destruct (IH (acc ++ [common.GetSandbox (aws.PodData d')])%list s1 Hnd Hrest)
        as (items & s' & Hrun & Hlock & Hconf & Hout & Hin & Hit).
      exists (common.GetSandbox (aws.PodData d') :: items), s'.
      unfold ret at 1. rewrite Hrun. rewrite <- app_assoc. repeat split; auto.
      * intros k0 Hk0. rewrite Hout.
        -- subst s1. cbn. apply lookup_insert_ne. intros ->. apply Hk0. now left.
        -- intros ?. apply Hk0. now right.
      * intros k0 d0 Hin0. apply elem_of_cons in Hin0 as [[= -> ->]|Hin0].
        -- exists (now s). fold d'. split.
           ++ rewrite Hout; [|exact Hk]. subst s1. cbn. apply lookup_insert_eq.
           ++ intros _. now left.
        -- destruct (Hin _ _ Hin0) as (t & H1 & H2). exists t. split; [exact H1|].
           intros H3. right. auto.
      * intros item Hitem. apply elem_of_cons in Hitem as [->|Hitem].
        -- exists k, d'. repeat split; auto.
           rewrite Hout; [|exact Hk]. subst s1. cbn. apply lookup_insert_eq.
        -- apply Hit, Hitem.
Qed.
(** [ListPodSandbox] of aws.go examines every record of the directory
    once and shows the ones that [Filter] keeps. *)
Lemma aws_List_run req (s : aws.St) :
  f = kubeapi.ListPodSandboxRequest.Filter req ->
  aws.vmMapLock (prov s) = sync.rwfree ->
  (forall k d, aws.vmMap (prov s) !! k = Some d ->
     common.StateLock (aws.PodData d) = sync.free) ->
  exists items s',
    aws.ListPodSandbox env req s
      = Return (Ok {| kubeapi.ListPodSandboxResponse.Items := items |}) s' /\
    aws.vmMapLock (prov s') = sync.rwfree /\
    aws.config (prov s') = aws.config (prov s) /\
    (forall k, aws.vmMap (prov s) !! k = None -> aws.vmMap (prov s') !! k = None) /\
    (forall k d, aws.vmMap (prov s) !! k = Some d ->
       exists t, aws.vmMap (prov s') !! k
                 = Some (record.downgraded (record.refreshed env t d)) /\
         (fst (common.Filter (aws.PodData (record.downgraded (record.refreshed env t d))) f)
            = false ->
          common.GetSandbox (aws.PodData (record.downgraded (record.refreshed env t d)))
            ∈ items)) /\
    (forall item, item ∈ items ->
       exists k d', aws.vmMap (prov s') !! k = Some d' /\
         fst (common.Filter (aws.PodData d') f) = false /\
         item = common.GetSandbox (aws.PodData d')).
Proof.
  intros Hf Hl Hfree.
  destruct s as [[m l c] t tr]; cbn in *; subst l.
  set (s0 := {| prov := {| aws.vmMap := m;
                           aws.vmMapLock := {| sync.writer := false; sync.readers := 1 |};
                           aws.config := c |};
                now := t; trace := tr |} : aws.St).
  destruct (aws_listing_loop (map_to_list m) [] s0) as
    (items & s' & Hrun & Hlock & Hconf & Hout & Hin & Hit).
  { apply NoDup_fst_map_to_list. }
  { intros k d Hkd. apply elem_of_map_to_list in Hkd. split; [exact Hkd | eauto]. }
  exists items.
  destruct s' as [[m' l' c'] t' tr']; cbn in Hlock, Hconf, Hout, Hin, Hit; subst l' c'.
  exists {| prov := {| aws.vmMap := m'; aws.vmMapLock := sync.rwfree; aws.config := c |};
            now := t'; trace := tr' |}.
  split.
  { unfold aws.ListPodSandbox.
    rewrite (bind_Return _ _ _ tt s0) by reflexivity.
    eapply defer_Return.
    - rewrite (bind_Return _ _ _ (prov s0) s0) by reflexivity.
      rewrite <- Hf. cbn [prov aws.vmMap s0].
      erewrite bind_Return by exact Hrun. reflexivity.
    - reflexivity. }
  cbn. repeat split; auto.
  - intros k Hk. rewrite Hout; [exact Hk|].
    intros Hin'. apply list_elem_of_fmap in Hin' as ([k0 d0] & -> & Hin').
    apply elem_of_map_to_list in Hin'. cbn in Hk. congruence.
  - intros k d Hkd. apply Hin, elem_of_map_to_list, Hkd.
Qed.

End Listing.

(** ** When the listing examines a record *)

Section ListingClock.
Context (env : Env) (f : option kubeapi.PodSandboxFilter.t).

Lemma examined_now id d (s : aws.St) : now s <= now (record.examined env id d s).
Proof. cbn. destruct (record.stale (now s) d); lia. Qed.

(** The loop of [ListPodSandbox] examines every entry at a time of the
    clock between the start and the end of the loop. *)
Lemma aws_listing_loop_clock (l : list (string * aws.podData)) :
  forall acc (s : aws.St),
  NoDup (l.*1) ->
  (forall k d, (k, d) ∈ l ->
     aws.vmMap (prov s) !! k = Some d /\ common.StateLock (aws.PodData d) = sync.free) ->
  exists items s',
    range l
      (fun entry sandboxes =>
         bind (aws.filter env (fst entry) f)
           (fun kept => match kept with
                        | Some sandbox => ret (sandboxes ++ [sandbox])%list
                        | None => ret sandboxes
                        end)) acc s
      = Return (acc ++ items)%list s' /\
    now s <= now s' /\
    aws.vmMapLock (prov s') = aws.vmMapLock (prov s) /\
    aws.config (prov s') = aws.config (prov s) /\
    (forall k, k ∉ l.*1 -> aws.vmMap (prov s') !! k = aws.vmMap (prov s) !! k) /\
    (forall k d, (k, d) ∈ l ->
       exists t, now s <= t <= now s' /\
         aws.vmMap (prov s') !! k = Some (record.downgraded (record.refreshed env t d)) /\
         (fst (common.Filter (aws.PodData (record.downgraded (record.refreshed env t d))) f)
            = false ->
          common.GetSandbox (aws.PodData (record.downgraded (record.refreshed env t d)))
            ∈ items)) /\
    (forall item, item ∈ items ->
       exists k d', aws.vmMap (prov s') !! k = Some d' /\
         fst (common.Filter (aws.PodData d') f) = false /\
         item = common.GetSandbox (aws.PodData d')).
Proof.
  induction l as [|[k d] l IH]; intros acc s Hnd Hl.
  - exists [], s. cbn. rewrite app_nil_r. repeat split; auto; try lia.
    + intros k d Hin. inversion Hin.
    + intros item Hin. inversion Hin.
  - cbn in Hnd. apply NoDup_cons in Hnd as [Hk Hnd].
    destruct (Hl k d (list_elem_of_here _ _)) as [Hm Hfree].
    cbn [range]. unfold bind at 1. unfold bind at 1. cbn [fst].
    rewrite (aws_filter_run env k f d s Hm Hfree). cbv zeta.
    set (d' := record.downgraded (record.refreshed env (now s) d)).
    pose proof (examined_now k d s) as Hclock.
    set (s1 := record.examined env k d s) in *.
    assert (Hrest : forall k0 d0, (k0, d0) ∈ l ->
              aws.vmMap (prov s1) !! k0 = Some d0 /\
              common.StateLock (aws.PodData d0) = sync.free).
    { intros k0 d0 Hin. destruct (Hl k0 d0) as [H1 H2]; [now right|]. split; [|exact H2].
      subst s1. cbn. rewrite lookup_insert_ne; [exact H1|].
      intros ->. apply Hk. apply list_elem_of_fmap. exists (k0, d0). auto. }
    assert (Hfirst : forall s', (forall k0, k0 ∉ l.*1 ->
                aws.vmMap (prov s') !! k0 = aws.vmMap (prov s1) !! k0) ->
              aws.vmMap (prov s') !! k = Some d').
    { intros s' Hout. rewrite Hout; [|exact Hk]. subst s1. cbn. apply lookup_insert_eq. }
    destruct (fst (common.Filter (aws.PodData d') f)) eqn:Hf.
    + destruct (IH acc s1 Hnd Hrest)
        as (items & s' & Hrun & Hnow & Hlock & Hconf & Hout & Hin & Hit).
      exists items, s'. unfold ret at 1. rewrite Hrun.
      split; [reflexivity|]. split; [lia|]. split; [exact Hlock|]. split; [exact Hconf|].
      split; [|split].
      * intros k0 Hk0. rewrite Hout.
        -- subst s1. cbn. apply lookup_insert_ne. intros ->. apply Hk0. now left.
        -- intros ?. apply Hk0. now right.
      * intros k0 d0 Hin0. apply elem_of_cons in Hin0 as [[= -> ->]|Hin0].
        -- exists (now s). fold d'. split; [lia|]. split; [now apply Hfirst|].
           rewrite Hf. discriminate.
        -- destruct (Hin _ _ Hin0) as (t & Ht & H1 & H2). exists t. split; [lia|]. auto.
      * exact Hit.
    + destruct (IH (acc ++ [common.GetSandbox (aws.PodData d')])%list s1 Hnd Hrest)
        as (items & s' & Hrun & Hnow & Hlock & Hconf & Hout & Hin & Hit).
      exists (common.GetSandbox (aws.PodData d') :: items), s'.
      unfold ret at 1. rewrite Hrun. rewrite <- app_assoc.
      split; [reflexivity|]. split; [lia|]. split; [exact Hlock|]. split; [exact Hconf|].
      split; [|split].
      * intros k0 Hk0. rewrite Hout.
        -- subst s1. cbn. apply lookup_insert_ne. intros ->. apply Hk0. now left.
        -- intros ?. apply Hk0. now right.
      * intros k0 d0 Hin0. apply elem_of_cons in Hin0 as [[= -> ->]|Hin0].
        -- exists (now s). fold d'. split; [lia|]. split; [now apply Hfirst|].
           intros _. now left.
        -- destruct (Hin _ _ Hin0) as (t & Ht & H1 & H2). exists t. split; [lia|].
           split; [exact H1|]. intros H3. right. auto.
      * intros item Hitem. apply elem_of_cons in Hitem as [->|Hitem].
        -- exists k, d'. repeat split; auto.
        -- apply Hit, Hitem.
Qed.

(** [ListPodSandbox] of aws.go: every record of the directory is
    examined once, at a time of the clock during the call; the records
    that [Filter] keeps are shown. *)
Lemma aws_List_clock req (s : aws.St) :
  f = kubeapi.ListPodSandboxRequest.Filter req ->
  aws.vmMapLock (prov s) = sync.rwfree ->
  (forall k d, aws.vmMap (prov s) !! k = Some d ->
     common.StateLock (aws.PodData d) = sync.free) ->
  exists items s',
    aws.ListPodSandbox env req s
      = Return (Ok {| kubeapi.ListPodSandboxResponse.Items := items |}) s' /\
    now s <= now s' /\
    aws.vmMapLock (prov s') = sync.rwfree /\
    aws.config (prov s') = aws.config (prov s) /\
    (forall k, aws.vmMap (prov s) !! k = None -> aws.vmMap (prov s') !! k = None) /\
    (forall k d, aws.vmMap (prov s) !! k = Some d ->
       exists t, now s <= t <= now s' /\
         aws.vmMap (prov s') !! k = Some (record.downgraded (record.refreshed env t d)) /\
         (fst (common.Filter (aws.PodData (record.downgraded (record.refreshed env t d))) f)
            = false ->
          common.GetSandbox (aws.PodData (record.downgraded (record.refreshed env t d)))
            ∈ items)) /\
    (forall item, item ∈ items ->
       exists k d', aws.vmMap (prov s') !! k = Some d' /\
         fst (common.Filter (aws.PodData d') f) = false /\
         item = common.GetSandbox (aws.PodData d')).
Proof.
  intros Hf Hl Hfree.
  destruct s as [[m l c] t tr]; cbn in *; subst l.
  set (s0 := {| prov := {| aws.vmMap := m;
                           aws.vmMapLock := {| sync.writer := false; sync.readers := 1 |};
                           aws.config := c |};
                now := t; trace := tr |} : aws.St).
  destruct (aws_listing_loop_clock (map_to_list m) [] s0) as
    (items & s' & Hrun & Hnow & Hlock & Hconf & Hout & Hin & Hit).
  { apply NoDup_fst_map_to_list. }
  { intros k d Hkd. apply elem_of_map_to_list in Hkd. split; [exact Hkd | eauto]. }
  exists items.
  destruct s' as [[m' l' c'] t' tr']; cbn in Hnow, Hlock, Hconf, Hout, Hin, Hit; subst l' c'.
  exists {| prov := {| aws.vmMap := m'; aws.vmMapLock := sync.rwfree; aws.config := c |};
            now := t'; trace := tr' |}.
  split.
  { unfold aws.ListPodSandbox.
    rewrite (bind_Return _ _ _ tt s0) by reflexivity.
    eapply defer_Return.
    - rewrite (bind_Return _ _ _ (prov s0) s0) by reflexivity.
      rewrite <- Hf. cbn [prov aws.vmMap s0].
      erewrite bind_Return by exact Hrun. reflexivity.
    - reflexivity. }
  cbn. split; [exact Hnow|]. repeat split; auto.
  - intros k Hk. rewrite Hout; [exact Hk|].
    intros Hin'. apply list_elem_of_fmap in Hin' as ([k0 d0] & -> & Hin').
    apply elem_of_map_to_list in Hin'. cbn in Hk. congruence.
  - intros k d Hkd. apply Hin, elem_of_map_to_list, Hkd.
Qed.

End ListingClock.

(** ** The listing of the aws provider, entry by entry *)

Section ListingExact.
Context (env : Env) (f : option kubeapi.PodSandboxFilter.t).

Lemma examined_all_app l1 l2 (s : aws.St) :
  listing.examined_all env (l1 ++ l2) s
  = listing.examined_all env l2 (listing.examined_all env l1 s).
Proof. apply fold_left_app. Qed.

Lemma examined_all_now l (s : aws.St) : now s <= now (listing.examined_all env l s).
Proof.
  revert s. induction l as [|[k d] l IH]; intros s; cbn; [lia|].
  etransitivity; [|apply IH]. apply examined_now.
Qed.

Lemma examined_all_keeps l (s : aws.St) :
  aws.vmMapLock (prov (listing.examined_all env l s)) = aws.vmMapLock (prov s) /\
  aws.config (prov (listing.examined_all env l s)) = aws.config (prov s) /\
  forall k, k ∉ l.*1 ->
    aws.vmMap (prov (listing.examined_all env l s)) !! k = aws.vmMap (prov s) !! k.
Proof.
  revert s. induction l as [|[k d] l IH]; intros s; cbn; [auto|].
  destruct (IH (record.examined env k d s)) as (Hl & Hc & Hout).
  split; [exact Hl|]. split; [exact Hc|].
  intros k0 Hk0. rewrite Hout.
  - cbn. apply lookup_insert_ne. intros ->. apply Hk0. now left.
  - intros ?. apply Hk0. now right.
Qed.

Lemma examined_all_lock lk l (s : aws.St) :
  listing.examined_all env l (with_prov (aws.set_vmMapLock lk (prov s)) s)
  = with_prov (aws.set_vmMapLock lk (prov (listing.examined_all env l s)))
      (listing.examined_all env l s).
Proof.
  revert s. induction l as [|[k d] l IH]; intros s.
  - destruct s as [[m l0 c] t tr]. reflexivity.
  - cbn [listing.examined_all fold_left fst snd].
    change (fold_left _ l ?x) with (listing.examined_all env l x).
    rewrite <- IH. f_equal.
Qed.

Lemma shown_lock lk (s' : aws.St) entry :
  listing.shown f (with_prov (aws.set_vmMapLock lk (prov s')) s') entry
  = listing.shown f s' entry.
Proof. reflexivity. Qed.

(** The loop of [ListPodSandbox], exactly. *)
Lemma aws_listing_loop_exact (l : list (string * aws.podData)) :
  forall acc (s : aws.St),
  NoDup (l.*1) ->
  (forall k d, (k, d) ∈ l ->
     aws.vmMap (prov s) !! k = Some d /\ common.StateLock (aws.PodData d) = sync.free) ->
  range l
    (fun entry sandboxes =>
       bind (aws.filter env (fst entry) f)
         (fun kept => match kept with
                      | Some sandbox => ret (sandboxes ++ [sandbox])%list
                      | None => ret sandboxes
                      end)) acc s
  = Return (acc ++ omap (listing.shown f (listing.examined_all env l s)) l)%list
      (listing.examined_all env l s).
Proof.
  induction l as [|[k d] l IH]; intros acc s Hnd Hl.
  - cbn. now rewrite app_nil_r.
  - cbn in Hnd. apply NoDup_cons in Hnd as [Hk Hnd].
    destruct (Hl k d (list_elem_of_here _ _)) as [Hm Hfree].
    cbn [range]. unfold bind at 1. unfold bind at 1. cbn [fst].
    rewrite (aws_filter_run env k f d s Hm Hfree). cbv zeta.
    set (d' := record.downgraded (record.refreshed env (now s) d)).
    set (s1 := record.examined env k d s).
    assert (Hrest : forall k0 d0, (k0, d0) ∈ l ->
              aws.vmMap (prov s1) !! k0 = Some d0 /\
              common.StateLock (aws.PodData d0) = sync.free).
    { intros k0 d0 Hin. destruct (Hl k0 d0) as [H1 H2]; [now right|]. split; [|exact H2].
      subst s1. cbn. rewrite lookup_insert_ne; [exact H1|].
      intros ->. apply Hk. apply list_elem_of_fmap. exists (k0, d0). auto. }
    change (listing.examined_all env ((k, d) :: l) s) with (listing.examined_all env l s1).
    set (s' := listing.examined_all env l s1).
    assert (Hfirst : aws.vmMap (prov s') !! k = Some d').
    { subst s'. destruct (examined_all_keeps l s1) as (_ & _ & Hout).
      rewrite Hout; [|exact Hk]. subst s1. cbn. apply lookup_insert_eq. }
    cbn [omap list_omap]. unfold listing.shown at 1. cbn [fst]. rewrite Hfirst. cbn [mbind option_bind].
    destruct (fst (common.Filter (aws.PodData d') f)) eqn:Hf.
    + unfold ret at 1. rewrite (IH acc s1 Hnd Hrest). reflexivity.
    + unfold ret at 1. rewrite (IH _ s1 Hnd Hrest). fold s'. now rewrite <- app_assoc.
Qed.

(** [ListPodSandbox] of aws.go, exactly. *)
Lemma aws_List_exact req (s : aws.St) :
  f = kubeapi.ListPodSandboxRequest.Filter req ->
  aws.vmMapLock (prov s) = sync.rwfree ->
  (forall k d, aws.vmMap (prov s) !! k = Some d ->
     common.StateLock (aws.PodData d) = sync.free) ->
  let entries := map_to_list (aws.vmMap (prov s)) in
  let s' := listing.examined_all env entries s in
  aws.ListPodSandbox env req s
    = Return (Ok {| kubeapi.ListPodSandboxResponse.Items := omap (listing.shown f s') entries |})
        s'.
Proof.
  intros Hf Hl Hfree entries s'.
  set (lk := {| sync.writer := false; sync.readers := 1 |}).
  set (s0 := with_prov (aws.set_vmMapLock lk (prov s)) s).
  assert (Hloop := aws_listing_loop_exact entries [] s0 (NoDup_fst_map_to_list _)).
  assert (Hent : forall k d, (k, d) ∈ entries ->
            aws.vmMap (prov s0) !! k = Some d /\ common.StateLock (aws.PodData d) = sync.free).
  { intros k d Hkd. apply elem_of_map_to_list in Hkd. split; [exact Hkd | eauto]. }
  specialize (Hloop Hent). cbn [app] in Hloop.
  subst s0. rewrite examined_all_lock in Hloop. fold s' in Hloop.
  assert (Hitems : omap (listing.shown f
                           (with_prov (aws.set_vmMapLock lk (prov s')) s')) entries
                   = omap (listing.shown f s') entries) by reflexivity.
  rewrite Hitems in Hloop.
  destruct (examined_all_keeps entries s) as (Hl' & _). fold s' in Hl'. rewrite Hl in Hl'.
  unfold aws.ListPodSandbox.
  rewrite (bind_Return _ _ _ tt (with_prov (aws.set_vmMapLock lk (prov s)) s)).
  2:{ unfold aws.vmMapLock_RLock, sync.acquire. rewrite Hl. reflexivity. }
  eapply defer_Return.
  - rewrite (bind_Return _ _ _ (aws.set_vmMapLock lk (prov s))
               (with_prov (aws.set_vmMapLock lk (prov s)) s)) by reflexivity.
    rewrite <- Hf.
    change (aws.vmMap (aws.set_vmMapLock lk (prov s))) with (aws.vmMap (prov s)).
    fold entries. erewrite bind_Return by exact Hloop. reflexivity.
  - unfold aws.vmMapLock_RUnlock, sync.release. cbn.
    destruct s' as [[m' l' c'] t' tr']. cbn in Hl'. subst l'. reflexivity.
Qed.

End ListingExact.

(** ** A machine that is not running *)

Lemma downgraded_PodState x :
  aws.vmState (record.downgraded x) = aws.vmState x /\
  common.PodState (aws.PodData (record.downgraded x))
    = if String.eqb (aws.vmState x) lvm.VMRunning
      then common.PodState (aws.PodData x)
      else kubeapi.PodSandBoxState_NOTREADY.
Proof.
  unfold record.downgraded. destruct (String.eqb (aws.vmState x) lvm.VMRunning); cbn; auto.
Qed.

Lemma refreshed_PodState env t d :
  common.PodState (aws.PodData (record.refreshed env t d)) = common.PodState (aws.PodData d).
Proof.
  unfold record.refreshed. destruct (record.stale t d); [|reflexivity].
  destruct (vm_GetState env _); reflexivity.
Qed.

(** The record that an examination leaves behind has the state that the
    backend sample dictates. *)
Lemma examined_PodState env t d :
  let d' := record.downgraded (record.refreshed env t d) in
  common.PodState (aws.PodData d')
    = if String.eqb (aws.vmState d') lvm.VMRunning
      then common.PodState (aws.PodData d)
      else kubeapi.PodSandBoxState_NOTREADY.
Proof.
  cbv zeta. destruct (downgraded_PodState (record.refreshed env t d)) as [-> ->].
  now rewrite refreshed_PodState.
Qed.

(** What an examination at time [t] sees of the machine of [d], and the
    record it leaves. *)
Lemma examined_sample env t d :
  let seen :=
    if Time_After t (Time_Add (aws.vmStateLastChecked d) (30 * time_Second))
    then match vm_GetState env (aws.InstanceID (aws.vm d)) with
         | Ok st => st
         | Err _ => aws.vmState d
         end
    else aws.vmState d in
  let d' := record.downgraded (record.refreshed env t d) in
  aws.vmState d' = seen /\
  common.PodState (aws.PodData d')
    = if String.eqb seen lvm.VMRunning
      then common.PodState (aws.PodData d)
      else kubeapi.PodSandBoxState_NOTREADY.
Proof.
  cbv zeta. destruct (downgraded_PodState (record.refreshed env t d)) as [-> ->].
  rewrite refreshed_PodState.
  assert (Hs : aws.vmState (record.refreshed env t d) =
            if Time_After t (Time_Add (aws.vmStateLastChecked d) (30 * time_Second))
            then match vm_GetState env (aws.InstanceID (aws.vm d)) with
                 | Ok st => st
                 | Err _ => aws.vmState d
                 end
            else aws.vmState d).
  { unfold record.refreshed, record.stale.
    destruct (Time_After _ _); [|reflexivity].
    destruct (vm_GetState env _); reflexivity. }
  rewrite Hs. auto.
Qed.

(** C5.  In the aws provider, a status query for a sandbox of the
    directory and a listing both act on the backend state of its
    machine as the call sees it: the answer of the backend when the
    cached sample is older than 30 seconds at the time the record is
    examined and the query succeeds, the cached sample otherwise.  The
    status query examines the record at the start of the call, the
    listing at some time of the clock during the call.  The record is
    left with that sample, and with the state [NOTREADY] when the sample
    is not "running", whatever its state was, and with the state it had
    when the sample is "running".  The status returned carries the id
    and that state.  The listing shows an item for the sandbox exactly
    when the filter keeps the record with that state, and the item
    carries that state.  (A status query returns unless the record has
    no Linux configuration to report, in which case [PodStatus] panics;
    it never fails for a sandbox of the directory.) *)
Theorem backend_state_decides_readiness env req lreq (s : aws.St) d :
  let id := kubeapi.PodSandboxIdRequest.GetPodSandboxId req in
  let f := kubeapi.ListPodSandboxRequest.Filter lreq in
  let seen (t : Z) :=
    if Time_After t (Time_Add (aws.vmStateLastChecked d) (30 * time_Second))
    then match vm_GetState env (aws.InstanceID (aws.vm d)) with
         | Ok st => st
         | Err _ => aws.vmState d
         end
    else aws.vmState d in
  let decided (t : Z) :=
    if String.eqb (seen t) lvm.VMRunning
    then common.PodState (aws.PodData d)
    else kubeapi.PodSandBoxState_NOTREADY in
  let kept (t : Z) :=
    match f with
    | None => True
    | Some f =>
        (kubeapi.PodSandboxFilter.GetId f = "" \/ kubeapi.PodSandboxFilter.GetId f = id) /\
        kubeapi.PodSandboxFilter.GetState f = decided t /\
        (forall key filterVal,
           kubeapi.PodSandboxFilter.GetLabelSelector f !! key = Some filterVal ->
           common.Labels (aws.PodData d) !! key = Some filterVal)
    end in
  let status_out := aws.PodSandboxStatus env req s in
  let list_out := aws.ListPodSandbox env lreq s in
  aws.vmMap (prov s) !! id = Some d ->
  aws.vmMapLock (prov s) = sync.rwfree ->
  (forall k d0, aws.vmMap (prov s) !! k = Some d0 ->
     common.StateLock (aws.PodData d0) = sync.free /\ common.Id (aws.PodData d0) = k) ->
  (exists d', aws.vmMap (prov (state_of status_out)) !! id = Some d' /\
     aws.vmState d' = seen (now s) /\
     common.PodState (aws.PodData d') = decided (now s) /\
     match value_of status_out with
     | Some (Ok resp) =>
         exists status,
           kubeapi.PodSandboxStatusResponse.Status resp = Some status /\
           kubeapi.PodSandboxStatus.Id status = Some id /\
           kubeapi.PodSandboxStatus.State status = Some (decided (now s))
     | Some (Err _) => False
     | None => common.Linux (aws.PodData d) = None
     end) /\
  (exists t d' resp,
     now s <= t <= now (state_of list_out) /\
     aws.vmMap (prov (state_of list_out)) !! id = Some d' /\
     aws.vmState d' = seen t /\
     common.PodState (aws.PodData d') = decided t /\
     value_of list_out = Some (Ok resp) /\
     (kept t ->
      exists item, item ∈ kubeapi.ListPodSandboxResponse.Items resp /\
        kubeapi.PodSandbox.Id item = Some id /\
        kubeapi.PodSandbox.State item = Some (decided t)) /\
     (forall item, item ∈ kubeapi.ListPodSandboxResponse.Items resp ->
        kubeapi.PodSandbox.Id item = Some id ->
        kubeapi.PodSandbox.State item = Some (decided t) /\ kept t)).
Proof.
  cbv zeta. intros Hm Hl Hall. destruct (Hall _ _ Hm) as [Hfree Hid]. split.
  - rewrite (aws_Status_run env req d s Hm Hl Hfree). cbv zeta.
    set (d' := record.downgraded (record.refreshed env (now s) d)).
    destruct (examined_record_fields env (now s) d) as (Hid' & Hx & _).
    fold d' in Hx, Hid'.
    destruct (examined_sample env (now s) d) as [Hseen Hdec]. fold d' in Hseen, Hdec.
    exists d'. unfold common.PodStatus. rewrite Hx.
    destruct (common.Linux (aws.PodData d)) as [lx|]; cbn.
    + split; [apply lookup_insert_eq|]. split; [exact Hseen|]. split; [exact Hdec|].
      eexists. split; [reflexivity|]. cbn. rewrite Hid', Hid, Hdec. auto.
    + split; [apply lookup_insert_eq|]. split; [exact Hseen|]. split; [exact Hdec|].
      reflexivity.
  - destruct (aws_List_clock env _ lreq s eq_refl Hl) as
      (items & s' & Hrun & _ & _ & _ & Hnone & Hin & Hit).
    { intros k d0 Hk. apply (Hall k d0 Hk). }
    destruct (Hin _ _ Hm) as (t & Ht & Hd' & Hshown).
    set (d' := record.downgraded (record.refreshed env t d)) in *.
    destruct (examined_record_fields env t d) as (Hid' & _ & Hlb & _).
    fold d' in Hid', Hlb.
    destruct (examined_sample env t d) as [Hseen Hdec]. fold d' in Hseen, Hdec.
    assert (Hkept : fst (common.Filter (aws.PodData d')
                           (kubeapi.ListPodSandboxRequest.Filter lreq)) = false <->
              match kubeapi.ListPodSandboxRequest.Filter lreq with
              | None => True
              | Some f =>
                  (kubeapi.PodSandboxFilter.GetId f = "" \/
                   kubeapi.PodSandboxFilter.GetId f
                     = kubeapi.PodSandboxIdRequest.GetPodSandboxId req) /\
                  kubeapi.PodSandboxFilter.GetState f = common.PodState (aws.PodData d') /\
                  (forall key filterVal,
                     kubeapi.PodSandboxFilter.GetLabelSelector f !! key = Some filterVal ->
                     common.Labels (aws.PodData d) !! key = Some filterVal)
              end).
    { destruct (kubeapi.ListPodSandboxRequest.Filter lreq) as [flt|]; [|cbn; tauto].
      rewrite Filter_keeps_iff, Hid', Hid, Hlb. reflexivity. }
    rewrite Hdec in Hkept.
    exists t, d', {| kubeapi.ListPodSandboxResponse.Items := items |}.
    rewrite Hrun. cbn [state_of value_of kubeapi.ListPodSandboxResponse.Items].
    split; [exact Ht|]. split; [exact Hd'|]. split; [exact Hseen|]. split; [exact Hdec|].
    split; [reflexivity|]. split.
    + intros Hk. apply Hkept in Hk. exists (common.GetSandbox (aws.PodData d')).
      split; [apply Hshown, Hk|]. cbn. rewrite Hid', Hid, Hdec. auto.
    + intros item Hitem Hitemid. destruct (Hit item Hitem) as (k & d'' & Hk & Hf & ->).
      cbn in Hitemid |- *. injection Hitemid as Hitemid.
      assert (k = kubeapi.PodSandboxIdRequest.GetPodSandboxId req) as ->.
      { destruct (aws.vmMap (prov s) !! k) as [d0|] eqn:Hk0.
        - destruct (Hin _ _ Hk0) as (t0 & _ & Hk' & _). rewrite Hk in Hk'. injection Hk' as ->.
          destruct (examined_record_fields env t0 d0) as (Hi & _). cbv zeta in Hi.
          rewrite Hi in Hitemid. destruct (Hall _ _ Hk0) as [_ Hid0]. congruence.
        - rewrite (Hnone _ Hk0) in Hk. discriminate. }
      rewrite Hd' in Hk. injection Hk as <-. rewrite Hdec. split; [reflexivity|].
      apply Hkept, Hf.
Qed.

(** A directory that holds only ["i-1"] is as the theorems want it. *)
Lemma scenario_aws_with_kept d clock k d0 :
  common.StateLock (aws.PodData d) = sync.free ->
  common.Id (aws.PodData d) = "i-1" ->
  aws.vmMap (prov (scenario.aws_with d clock)) !! k = Some d0 ->
  common.StateLock (aws.PodData d0) = sync.free /\ common.Id (aws.PodData d0) = k.
Proof.
  intros Hl Hid Hk. cbn in Hk. apply lookup_singleton_Some in Hk as [<- <-]. auto.
Defined.

(** The record of ["i-1"] is [READY] with a sample "running" that is
    40 s old; the backend now says "halted": the status query and the
    listing store "halted", leave the record [NOTREADY] and report it
    as [NOTREADY]. *)
Lemma readiness_witness :
  let d := scenario.aws_record kubeapi.PodSandBoxState_READY lvm.VMRunning 0 in
  let s := scenario.aws_with d (40 * time_Second) in
  let status_out := aws.PodSandboxStatus scenario.env_halted scenario.the_sandbox s in
  let list_out := aws.ListPodSandbox scenario.env_halted (scenario.list_request None) s in
  aws.vmMap (prov s) !! "i-1" = Some d /\
  (exists d', aws.vmMap (prov (state_of status_out)) !! "i-1" = Some d' /\
     aws.vmState d' = lvm.VMHalted /\
     common.PodState (aws.PodData d') = kubeapi.PodSandBoxState_NOTREADY) /\
  (exists status,
     value_of status_out
       = Some (Ok {| kubeapi.PodSandboxStatusResponse.Status := Some status |}) /\
     kubeapi.PodSandboxStatus.State status = Some kubeapi.PodSandBoxState_NOTREADY) /\
  (exists item resp,
     value_of list_out = Some (Ok resp) /\
     item ∈ kubeapi.ListPodSandboxResponse.Items resp /\
     kubeapi.PodSandbox.Id item = Some "i-1" /\
     kubeapi.PodSandbox.State item = Some kubeapi.PodSandBoxState_NOTREADY).
Proof.
  cbv zeta. split; [reflexivity|].
  destruct (backend_state_decides_readiness scenario.env_halted scenario.the_sandbox
              (scenario.list_request None)
              (scenario.aws_with
                 (scenario.aws_record kubeapi.PodSandBoxState_READY lvm.VMRunning 0)
                 (40 * time_Second))
              (scenario.aws_record kubeapi.PodSandBoxState_READY lvm.VMRunning 0)
              eq_refl eq_refl
              (fun k d0 =>
                 scenario_aws_with_kept
                   (scenario.aws_record kubeapi.PodSandBoxState_READY lvm.VMRunning 0)
                   (40 * time_Second) k d0 eq_refl eq_refl))
    as [(d' & Hd' & Hseen & Hdec & Hstatus) (t & d'' & resp & Ht & _ & _ & _ & Hresp & Hshown & _)].
  split; [|split].
  - exists d'. split; [exact Hd'|]. split; [exact Hseen | exact Hdec].
  - destruct (value_of (aws.PodSandboxStatus scenario.env_halted scenario.the_sandbox
                (scenario.aws_with
                   (scenario.aws_record kubeapi.PodSandBoxState_READY lvm.VMRunning 0)
                   (40 * time_Second)))) as [[r|e]|] eqn:Hv.
    + destruct Hstatus as (status & Hst & _ & Hstate).
      exists status. destruct r as [st]. cbn in Hst. subst st.
      split; [reflexivity | exact Hstate].
    + contradiction.
    + discriminate Hstatus.
  - destruct (Hshown I) as (item & Hitem & Hid & Hstate).
    exists item, resp. split; [exact Hresp|]. split; [exact Hitem|]. split; [exact Hid|].
    rewrite Hstate. clear - Ht. destruct Ht as [Ht _]. cbn in Ht.
    unfold Time_After, Time_Add. cbn [aws.vmStateLastChecked scenario.aws_record].
    assert (Hlt : (0 + 30 * time_Second <? t) = true)
      by (apply Z.ltb_lt; unfold time_Second in *; lia).
    rewrite Hlt. reflexivity.
Defined.

(** ** The cached backend state *)

Lemma aws_Status_state env req d (s : aws.St) :
  let id := kubeapi.PodSandboxIdRequest.GetPodSandboxId req in
  aws.vmMap (prov s) !! id = Some d ->
  aws.vmMapLock (prov s) = sync.rwfree ->
  common.StateLock (aws.PodData d) = sync.free ->
  state_of (aws.PodSandboxStatus env req s) = record.examined env id d s.
Proof.
  cbv zeta. intros Hm Hl Hf. rewrite (aws_Status_run env req d s Hm Hl Hf). cbv zeta.
  unfold common.PodStatus. destruct (common.Linux _); reflexivity.
Qed.

Lemma aws_filter_state env id f d (s : aws.St) :
  aws.vmMap (prov s) !! id = Some d ->
  common.StateLock (aws.PodData d) = sync.free ->
  state_of (aws.filter env id f s) = record.examined env id d s.
Proof.
  intros Hm Hf. rewrite (aws_filter_run env id f d s Hm Hf). reflexivity.
Qed.

(** What a refresh does to the sample and its timestamp. *)
Lemma refreshed_sample env t d :
  let d' := record.downgraded (record.refreshed env t d) in
  let m := aws.InstanceID (aws.vm d) in
  (record.stale t d = false ->
     aws.vmState d' = aws.vmState d /\
     aws.vmStateLastChecked d' = aws.vmStateLastChecked d) /\
  (record.stale t d = true -> forall err, vm_GetState env m = Err err ->
     aws.vmState d' = aws.vmState d /\
     aws.vmStateLastChecked d' = aws.vmStateLastChecked d) /\
  (record.stale t d = true -> forall st, vm_GetState env m = Ok st ->
     aws.vmState d' = st /\
     aws.vmStateLastChecked d' = t + Z.of_N (elapsed env (GetState m))).
Proof.
  cbv zeta. unfold record.downgraded, record.refreshed, record.query.
  split; [|split].
  - intros Hs. rewrite Hs. destruct (negb _); split; reflexivity.
  - intros Hs err Hx. rewrite Hs, Hx. destruct (negb _); split; reflexivity.
  - intros Hs st Hx. rewrite Hs, Hx. cbn. destruct (negb _); split; reflexivity.
Qed.

Lemma vbox_Status_queries env req d lx (s : virtualbox.St) :
  let name := virtualbox.Name_ (virtualbox.vm d) in
  virtualbox.vmMap (prov s) !! kubeapi.PodSandboxIdRequest.GetPodSandboxId req = Some d ->
  virtualbox.vmMapLock (prov s) = sync.free ->
  common.StateLock (virtualbox.PodData d) = sync.free ->
  common.Linux (virtualbox.PodData d) = Some lx ->
  trace (state_of (virtualbox.PodSandboxStatus env req s)) = (trace s ++ [GetState name])%list /\
  prov (state_of (virtualbox.PodSandboxStatus env req s)) = prov s /\
  (forall err, vm_GetState env name = Err err ->
     value_of (virtualbox.PodSandboxStatus env req s)
       = Some (Err ("PodSandboxStatus: error in GetState(): " ++ err))).
Proof.
  cbv zeta. intros Hm Hl Hf Hlx. rewrite (vbox_Status_run env req d s Hm Hl Hf). cbv zeta.
  unfold common2.PodStatus. rewrite Hlx. go.
  destruct (vm_GetState env _) as [st|e]; cbn; repeat split; intros err [= ->]; reflexivity.
Qed.

(** C3, as the code has it.  In the aws provider a status query for a
    sandbox of the directory, and the examination of its record by a
    listing, ask the backend for the machine state exactly when the
    clock reads more than 30 seconds past the timestamp of the cached
    sample.  An answer replaces the sample and moves the timestamp to
    the time after the query.  When the query fails, the sample and the
    timestamp stay as they were and the call goes on with the stale
    sample.  A later status query that starts no more than 30 seconds
    after the timestamp of the sample (so, no more than 30 seconds after
    the start of a query that refreshed it) asks the backend nothing and
    leaves the sample as it is.  The virtualbox provider keeps no
    sample: every status query for a sandbox of its directory asks the
    backend, and the query that fails makes the status query fail. *)
Theorem sample_is_refreshed_when_older_than_30s
    env env2 req f (s s2 : aws.St) (d d' : aws.podData)
    (sv : virtualbox.St) (dv : virtualbox.podData) lx :
  let id := kubeapi.PodSandboxIdRequest.GetPodSandboxId req in
  let m := aws.InstanceID (aws.vm d) in
  let mv := virtualbox.Name_ (virtualbox.vm dv) in
  let older := aws.vmStateLastChecked d + 30 * time_Second <? now s in
  let s' := state_of (aws.PodSandboxStatus env req s) in
  aws.vmMap (prov s) !! id = Some d ->
  aws.vmMapLock (prov s) = sync.rwfree ->
  common.StateLock (aws.PodData d) = sync.free ->
  aws.vmMap (prov s') !! id = Some d' ->
  virtualbox.vmMap (prov sv) !! id = Some dv ->
  virtualbox.vmMapLock (prov sv) = sync.free ->
  common.StateLock (virtualbox.PodData dv) = sync.free ->
  common.Linux (virtualbox.PodData dv) = Some lx ->
  trace s' = (if older then trace s ++ [GetState m] else trace s)%list /\
  state_of (aws.filter env id f s) = s' /\
  (older = false ->
     aws.vmState d' = aws.vmState d /\
     aws.vmStateLastChecked d' = aws.vmStateLastChecked d) /\
  (older = true -> forall err, vm_GetState env m = Err err ->
     aws.vmState d' = aws.vmState d /\
     aws.vmStateLastChecked d' = aws.vmStateLastChecked d /\
     common.PodState (aws.PodData d')
       = if String.eqb (aws.vmState d) lvm.VMRunning
         then common.PodState (aws.PodData d)
         else kubeapi.PodSandBoxState_NOTREADY) /\
  (older = true -> forall st, vm_GetState env m = Ok st ->
     aws.vmState d' = st /\
     aws.vmStateLastChecked d' = now s + Z.of_N (elapsed env (GetState m)) /\
     now s <= aws.vmStateLastChecked d') /\
  (prov s2 = prov s' ->
   now s2 <= aws.vmStateLastChecked d' + 30 * time_Second ->
   let s'' := state_of (aws.PodSandboxStatus env2 req s2) in
   trace s'' = trace s2 /\
   exists d'', aws.vmMap (prov s'') !! id = Some d'' /\
     aws.vmState d'' = aws.vmState d' /\
     aws.vmStateLastChecked d'' = aws.vmStateLastChecked d') /\
  trace (state_of (virtualbox.PodSandboxStatus env req sv))
    = (trace sv ++ [GetState mv])%list /\
  (forall err, vm_GetState env mv = Err err ->
     value_of (virtualbox.PodSandboxStatus env req sv)
       = Some (Err ("PodSandboxStatus: error in GetState(): " ++ err))).
Proof.
  cbv zeta. intros Hm Hl Hf Hd' Hmv Hlv Hfv Hlx.
  rewrite (aws_Status_state env req d s Hm Hl Hf) in *.
  rewrite (aws_filter_state env _ f d s Hm Hf).
  change (aws.vmStateLastChecked d + 30 * time_Second <? now s)
    with (record.stale (now s) d).
  cbn in Hd'. rewrite lookup_insert_eq in Hd'. injection Hd' as <-.
  destruct (refreshed_sample env (now s) d) as (Hfresh & Herr & Hok). cbv zeta in *.
  split; [reflexivity|]. split; [reflexivity|]. split; [exact Hfresh|].
  split.
  { intros Hs err He. destruct (Herr Hs err He) as [Hv Hc]. repeat split; auto.
    rewrite examined_PodState. now rewrite Hv. }
  split.
  { intros Hs st He. destruct (Hok Hs st He) as [Hv Hc]. repeat split; auto.
    rewrite Hc. lia. }
  split.
  { intros Hp Hnow.
    set (d1 := record.downgraded (record.refreshed env (now s) d)) in *.
    assert (Hm2 : aws.vmMap (prov s2) !! kubeapi.PodSandboxIdRequest.GetPodSandboxId req
                  = Some d1).
    { rewrite Hp. cbn. apply lookup_insert_eq. }
    assert (Hl2 : aws.vmMapLock (prov s2) = sync.rwfree) by (rewrite Hp; exact Hl).
    assert (Hf2 : common.StateLock (aws.PodData d1) = sync.free).
    { destruct (examined_record_fields env (now s) d) as (_ & _ & _ & Hk & _).
      cbv zeta in Hk. subst d1. now rewrite Hk. }
    rewrite (aws_Status_state env2 req d1 s2 Hm2 Hl2 Hf2).
    assert (Hst : record.stale (now s2) d1 = false).
    { unfold record.stale, Time_After, Time_Add. apply Z.ltb_ge. exact Hnow. }
    cbn. rewrite Hst. split; [reflexivity|].
    eexists. split; [apply lookup_insert_eq|].
    apply (proj1 (refreshed_sample env2 (now s2) d1)), Hst. }
  destruct (vbox_Status_queries env req dv lx sv Hmv Hlv Hfv Hlx) as (Ht & _ & He).
  split; [exact Ht | exact He].
Qed.

(** The sample of ["i-1"] is 40 s old; the backend says "halted".  The
    status query asks the backend once; a second one, 10 s later, asks
    nothing. *)
Lemma sample_refresh_witness :
  let d := scenario.aws_record kubeapi.PodSandBoxState_READY lvm.VMRunning 0 in
  let s := scenario.aws_with d (40 * time_Second) in
  let s' := state_of (aws.PodSandboxStatus scenario.env_halted scenario.the_sandbox s) in
  let s2 := later 10000000000 s' in
  (aws.vmMap (prov s) !! "i-1" = Some d /\
   aws.vmMap (prov s') !! "i-1"
     = Some (scenario.aws_record kubeapi.PodSandBoxState_NOTREADY lvm.VMHalted 40000000001) /\
   now s2 <= 40000000001 + 30 * time_Second) /\
  trace s' = [GetState "i-1"] /\
  trace (state_of (aws.PodSandboxStatus scenario.env_ok scenario.the_sandbox s2))
    = [GetState "i-1"].
Proof.
  cbv zeta.
  pose proof (sample_is_refreshed_when_older_than_30s
                scenario.env_halted scenario.env_ok scenario.the_sandbox None
                (scenario.aws_with
                   (scenario.aws_record kubeapi.PodSandBoxState_READY lvm.VMRunning 0)
                   (40 * time_Second))
                (later 10000000000
                   (state_of (aws.PodSandboxStatus scenario.env_halted scenario.the_sandbox
                      (scenario.aws_with
                         (scenario.aws_record kubeapi.PodSandBoxState_READY lvm.VMRunning 0)
                         (40 * time_Second)))))
                (scenario.aws_record kubeapi.PodSandBoxState_READY lvm.VMRunning 0)
                (scenario.aws_record kubeapi.PodSandBoxState_NOTREADY lvm.VMHalted 40000000001)
                (scenario.vbox_with (scenario.vbox_record kubeapi.PodSandBoxState_READY) 0)
                (scenario.vbox_record kubeapi.PodSandBoxState_READY)
                {| kubeapi.LinuxPodSandboxConfig.CgroupParent := None;
                   kubeapi.LinuxPodSandboxConfig.NamespaceOptions := None |}
                eq_refl eq_refl eq_refl
                ltac:(vm_compute; reflexivity)
                eq_refl eq_refl eq_refl eq_refl) as H.
  cbv zeta in H. destruct H as (Htrace & _ & _ & _ & _ & Hsecond & _).
  destruct (Hsecond eq_refl ltac:(vm_compute; discriminate)) as (Htrace2 & _).
  split; [repeat split; vm_compute; (reflexivity || discriminate)|].
  split; [exact Htrace | exact Htrace2].
Defined.

(** C3 as it was stated does not hold.  The virtualbox provider asks the
    backend at every status query, also right after the previous one,
    and fails when the query fails.  In the aws provider two status
    queries 20 s apart can still see a backend query at the second one:
    the sample was 20 s old at the first query, which used it as it was,
    and 40 s old at the second, which replaced it. *)
Lemma refresh_counterexample :
  let sv := scenario.vbox_with (scenario.vbox_record kubeapi.PodSandBoxState_READY) 0 in
  let sv1 := state_of (virtualbox.PodSandboxStatus scenario.env_ok scenario.the_sandbox sv) in
  let sa := scenario.aws_with
              (scenario.aws_record kubeapi.PodSandBoxState_READY lvm.VMRunning 0)
              (20 * time_Second) in
  let sa1 := state_of (aws.PodSandboxStatus scenario.env_halted scenario.the_sandbox sa) in
  let sa2 := state_of (aws.PodSandboxStatus scenario.env_halted scenario.the_sandbox
                         (later 20000000000 sa1)) in
  (trace sv1 = [GetState "i-1"] /\
   trace (state_of (virtualbox.PodSandboxStatus scenario.env_ok scenario.the_sandbox sv1))
     = [GetState "i-1"; GetState "i-1"] /\
   value_of (virtualbox.PodSandboxStatus scenario.env_no_state scenario.the_sandbox sv)
     = Some (Err "PodSandboxStatus: error in GetState(): timeout")) /\
  (trace sa1 = [] /\
   aws.vmState <$> aws.vmMap (prov sa1) !! "i-1" = Some "running" /\
   now (later 20000000000 sa1) - now sa = 20 * time_Second /\
   trace sa2 = [GetState "i-1"] /\
   aws.vmState <$> aws.vmMap (prov sa2) !! "i-1" = Some "halted").
Proof. cbv zeta. vm_compute. repeat split. Qed.

(** ** Creating a sandbox *)

Section Create.
Context (env : Env).

(** How [RunPodSandbox] of aws.go can end. *)
Lemma aws_Run_outcome req (s : aws.St) :
  aws.vmMapLock (prov s) = sync.rwfree ->
  let key := aws.SshKey (aws.config (prov s)) in
  match aws.RunPodSandbox env req s with
  | Return (Ok resp) s' =>
      exists cfg raw m ip ips c rec,
        kubeapi.RunPodSandboxRequest.Config req = Some cfg /\
        ioutil_ReadFile env key = Ok raw /\
        vm_Provision env (aws.awsName cfg) = Ok m /\
        vm_GetIPs env m = Ok (ip :: ips) /\
        common_CreateClient env ip = Ok (Some c) /\
        resp = {| kubeapi.RunPodSandboxResponse.PodSandboxId := Some m |} /\
        aws.vmMap (prov s') = <[m := rec]> (aws.vmMap (prov s)) /\
        aws.vmMapLock (prov s') = sync.rwfree /\
        common.Id (aws.PodData rec) = m /\
        common.Ip (aws.PodData rec) = ip /\
        common.Client (aws.PodData rec) = Some c /\
        common.PodState (aws.PodData rec) = kubeapi.PodSandBoxState_READY /\
        common.StateLock (aws.PodData rec) = sync.free /\
        aws.vmState rec = lvm.VMRunning /\
        trace s' = (trace s ++ [ReadFile key; Provision (aws.awsName cfg); GetIPs m;
                                CreateClient ip; Insert m])%list
  | Return (Err _) s' => prov s' = prov s
  | Panic _ s' => prov s' = prov s
  | Blocked _ => False
  end.
Proof.
  destruct s as [[m l c] t tr]; cbn; intros ->.
  unfold aws.RunPodSandbox, aws.vmMapLock_Lock, aws.vmMapLock_Unlock. go.
  destruct (ioutil_ReadFile env _) as [raw|e] eqn:Hraw; [|reflexivity].
  destruct (kubeapi.RunPodSandboxRequest.Config req) as [cfg|] eqn:Hcfg; [|reflexivity].
  go. destruct (vm_Provision env _) as [iid|e] eqn:Hprov; [|reflexivity].
  go. destruct (vm_GetIPs env _) as [ips|e] eqn:Hips; [|reflexivity].
  destruct ips as [|ip ips]; [reflexivity|].
  go. destruct (common_CreateClient env _) as [[cl|]|e] eqn:Hcl; [| reflexivity | reflexivity].
  go. eexists cfg, raw, iid, ip, ips, cl, _.
  repeat (split; [reflexivity || eassumption|]).
  rewrite <- !app_assoc. reflexivity.
Qed.

(** The step that fails decides the error that [RunPodSandbox] of aws.go
    returns; the machine is destroyed on the way out when the client
    factory reports no error and hands back no client. *)
Lemma aws_Run_failures req cfg raw (s : aws.St) :
  let key := aws.SshKey (aws.config (prov s)) in
  let name := aws.awsName cfg in
  let out := aws.RunPodSandbox env req s in
  kubeapi.RunPodSandboxRequest.Config req = Some cfg ->
  ioutil_ReadFile env key = Ok raw ->
  (forall err, vm_Provision env name = Err err ->
     value_of out = Some (Err ("failed to provision vm: " ++ err ++ nl)) /\
     trace (state_of out) = (trace s ++ [ReadFile key; Provision name])%list) /\
  (forall m err, vm_Provision env name = Ok m -> vm_GetIPs env m = Err err ->
     value_of out = Some (Err ("CreatePodSandbox: error in GetIPs(): " ++ err)) /\
     trace (state_of out) = (trace s ++ [ReadFile key; Provision name; GetIPs m])%list) /\
  (forall m ip ips err, vm_Provision env name = Ok m -> vm_GetIPs env m = Ok (ip :: ips) ->
     common_CreateClient env ip = Err err ->
     value_of out = Some (Err ("CreatePodSandbox: error in createClient(): " ++ err)) /\
     trace (state_of out)
       = (trace s ++ [ReadFile key; Provision name; GetIPs m; CreateClient ip])%list) /\
  (forall m ip ips, vm_Provision env name = Ok m -> vm_GetIPs env m = Ok (ip :: ips) ->
     common_CreateClient env ip = Ok None ->
     value_of out = Some (Err "returned a nil GRPC client") /\
     trace (state_of out)
       = (trace s ++ [ReadFile key; Provision name; GetIPs m; CreateClient ip; Destroy m])%list).
Proof.
  destruct s as [[m l c] t tr]; cbn; intros Hcfg Hraw.
  unfold aws.RunPodSandbox. go. rewrite Hraw, Hcfg. go.
  split; [|split; [|split]].
  - intros err ->. cbn. rewrite <- !app_assoc. split; reflexivity.
  - intros iid err -> . go. intros ->. cbn. rewrite <- !app_assoc. split; reflexivity.
  - intros iid ip ips err ->. go. intros ->. go. intros ->. cbn.
    rewrite <- !app_assoc. split; reflexivity.
  - intros iid ip ips ->. go. intros ->. go. intros ->. cbn.
    rewrite <- !app_assoc. split; reflexivity.
Qed.

(** How [RunPodSandbox] of virtualbox.go can end. *)
Lemma vbox_Run_outcome req (s : virtualbox.St) :
  virtualbox.vmMapLock (prov s) = sync.free ->
  let src := virtualbox.vmSrc (prov s) in
  match virtualbox.RunPodSandbox env req s with
  | Return (Ok resp) s' =>
      exists cfg m ip ips c rec,
        kubeapi.RunPodSandboxRequest.Config req = Some cfg /\
        vm_Provision env src = Ok m /\
        vm_GetIPs env m = Ok (ip :: ips) /\
        common_CreateClient env ip = Ok c /\
        resp = {| kubeapi.RunPodSandboxResponse.PodSandboxId := Some m |} /\
        virtualbox.vmMap (prov s') = <[m := rec]> (virtualbox.vmMap (prov s)) /\
        virtualbox.vmMapLock (prov s') = sync.free /\
        common.Id (virtualbox.PodData rec) = m /\
        common.Ip (virtualbox.PodData rec) = ip /\
        common.Client (virtualbox.PodData rec) = c /\
        common.PodState (virtualbox.PodData rec) = kubeapi.PodSandBoxState_READY /\
        common.StateLock (virtualbox.PodData rec) = sync.free /\
        trace s' = (trace s ++ [Provision src; GetIPs m; CreateClient ip; Insert m])%list
  | Return (Err _) s' => prov s' = prov s
  | Panic _ s' => prov s' = prov s
  | Blocked _ => False
  end.
Proof.
  destruct s as [[nd src m l] t tr]; cbn; intros ->.
  unfold virtualbox.RunPodSandbox, virtualbox.vmMapLock_Lock, virtualbox.vmMapLock_Unlock. go.
  destruct (vm_Provision env _) as [iid|e] eqn:Hprov; [|reflexivity].
  go. destruct (vm_GetIPs env _) as [ips|e] eqn:Hips; [|reflexivity].
  destruct ips as [|ip ips]; [reflexivity|].
  go. destruct (common_CreateClient env _) as [cl|e] eqn:Hcl; [| reflexivity].
  go. destruct (kubeapi.RunPodSandboxRequest.Config req) as [cfg|] eqn:Hcfg; [|reflexivity].
  go. eexists cfg, iid, ip, ips, cl, _.
  repeat (split; [reflexivity || eassumption|]).
  rewrite <- !app_assoc. reflexivity.
Qed.

(** No path of [RunPodSandbox] of virtualbox.go destroys the machine. *)
Lemma vbox_Run_failures req (s : virtualbox.St) :
  let src := virtualbox.vmSrc (prov s) in
  let out := virtualbox.RunPodSandbox env req s in
  (forall err, vm_Provision env src = Err err ->
     value_of out = Some (Err ("Failed to Provision: " ++ err)) /\
     trace (state_of out) = (trace s ++ [Provision src])%list) /\
  (forall m err, vm_Provision env src = Ok m -> vm_GetIPs env m = Err err ->
     value_of out = Some (Err ("CreatePodSandbox: error in GetIPs(): " ++ err)) /\
     trace (state_of out) = (trace s ++ [Provision src; GetIPs m])%list) /\
  (forall m ip ips err, vm_Provision env src = Ok m -> vm_GetIPs env m = Ok (ip :: ips) ->
     common_CreateClient env ip = Err err ->
     value_of out = Some (Err ("CreatePodSandbox: error in createClient(): " ++ err)) /\
     trace (state_of out) = (trace s ++ [Provision src; GetIPs m; CreateClient ip])%list).
Proof.
  destruct s as [[nd src m l] t tr]; cbn.
  unfold virtualbox.RunPodSandbox. go.
  split; [|split].
  - intros err ->. cbn. split; reflexivity.
  - intros iid err -> . go. intros ->. cbn. rewrite <- !app_assoc. split; reflexivity.
  - intros iid ip ips err ->. go. intros ->. go. intros ->. cbn.
    rewrite <- !app_assoc. split; reflexivity.
Qed.

End Create.

(** C1, as the code has it.  [RunPodSandbox] of the aws and of the
    virtualbox provider adds an entry to the directory only on the path
    on which provisioning, the address lookup and the client factory
    have all answered without an error (and, on aws, the factory has
    handed back a client); the entry is the last effect of the call.
    When one of the three steps returns an error, the call returns that
    error after that step and leaves the provider as it was; a call that
    returns an error or panics never changes the provider.  On aws, when
    the factory reports no error and hands back no client, the machine
    just provisioned is destroyed before the error is returned. *)
Theorem create_registers_after_all_steps env req (sa : aws.St) (sv : virtualbox.St) :
  let key := aws.SshKey (aws.config (prov sa)) in
  let src := virtualbox.vmSrc (prov sv) in
  let outa := aws.RunPodSandbox env req sa in
  let outv := virtualbox.RunPodSandbox env req sv in
  aws.vmMapLock (prov sa) = sync.rwfree ->
  virtualbox.vmMapLock (prov sv) = sync.free ->
  match outa with
  | Return (Ok resp) s' =>
      exists cfg raw m ip ips c rec,
        kubeapi.RunPodSandboxRequest.Config req = Some cfg /\
        ioutil_ReadFile env key = Ok raw /\
        vm_Provision env (aws.awsName cfg) = Ok m /\
        vm_GetIPs env m = Ok (ip :: ips) /\
        common_CreateClient env ip = Ok (Some c) /\
        resp = {| kubeapi.RunPodSandboxResponse.PodSandboxId := Some m |} /\
        aws.vmMap (prov s') = <[m := rec]> (aws.vmMap (prov sa)) /\
        common.Client (aws.PodData rec) = Some c /\
        trace s' = (trace sa ++ [ReadFile key; Provision (aws.awsName cfg); GetIPs m;
                                 CreateClient ip; Insert m])%list
  | Return (Err _) s' => prov s' = prov sa
  | Panic _ s' => prov s' = prov sa
  | Blocked _ => False
  end /\
  (forall cfg raw,
     kubeapi.RunPodSandboxRequest.Config req = Some cfg ->
     ioutil_ReadFile env key = Ok raw ->
     let name := aws.awsName cfg in
     (forall err, vm_Provision env name = Err err ->
        value_of outa = Some (Err ("failed to provision vm: " ++ err ++ nl)) /\
        trace (state_of outa) = (trace sa ++ [ReadFile key; Provision name])%list) /\
     (forall m err, vm_Provision env name = Ok m -> vm_GetIPs env m = Err err ->
        value_of outa = Some (Err ("CreatePodSandbox: error in GetIPs(): " ++ err)) /\
        trace (state_of outa) = (trace sa ++ [ReadFile key; Provision name; GetIPs m])%list) /\
     (forall m ip ips err,
        vm_Provision env name = Ok m -> vm_GetIPs env m = Ok (ip :: ips) ->
        common_CreateClient env ip = Err err ->
        value_of outa = Some (Err ("CreatePodSandbox: error in createClient(): " ++ err)) /\
        trace (state_of outa)
          = (trace sa ++ [ReadFile key; Provision name; GetIPs m; CreateClient ip])%list) /\
     (forall m ip ips,
        vm_Provision env name = Ok m -> vm_GetIPs env m = Ok (ip :: ips) ->
        common_CreateClient env ip = Ok None ->
        value_of outa = Some (Err "returned a nil GRPC client") /\
        trace (state_of outa)
          = (trace sa ++ [ReadFile key; Provision name; GetIPs m; CreateClient ip;
                          Destroy m])%list)) /\
  match outv with
  | Return (Ok resp) s' =>
      exists cfg m ip ips c rec,
        kubeapi.RunPodSandboxRequest.Config req = Some cfg /\
        vm_Provision env src = Ok m /\
        vm_GetIPs env m = Ok (ip :: ips) /\
        common_CreateClient env ip = Ok c /\
        resp = {| kubeapi.RunPodSandboxResponse.PodSandboxId := Some m |} /\
        virtualbox.vmMap (prov s') = <[m := rec]> (virtualbox.vmMap (prov sv)) /\
        common.Client (virtualbox.PodData rec) = c /\
        trace s' = (trace sv ++ [Provision src; GetIPs m; CreateClient ip; Insert m])%list
  | Return (Err _) s' => prov s' = prov sv
  | Panic _ s' => prov s' = prov sv
  | Blocked _ => False
  end /\
  (forall err, vm_Provision env src = Err err ->
     value_of outv = Some (Err ("Failed to Provision: " ++ err)) /\
     trace (state_of outv) = (trace sv ++ [Provision src])%list) /\
  (forall m err, vm_Provision env src = Ok m -> vm_GetIPs env m = Err err ->
     value_of outv = Some (Err ("CreatePodSandbox: error in GetIPs(): " ++ err)) /\
     trace (state_of outv) = (trace sv ++ [Provision src; GetIPs m])%list) /\
  (forall m ip ips err, vm_Provision env src = Ok m -> vm_GetIPs env m = Ok (ip :: ips) ->
     common_CreateClient env ip = Err err ->
     value_of outv = Some (Err ("CreatePodSandbox: error in createClient(): " ++ err)) /\
     trace (state_of outv) = (trace sv ++ [Provision src; GetIPs m; CreateClient ip])%list).
Proof.
  cbv zeta. intros La Lv.
  split.
  { pose proof (aws_Run_outcome env req sa La) as H. cbv zeta in H.
    destruct (aws.RunPodSandbox env req sa) as [[resp|e] s'|msg s'|s']; auto.
    destruct H as (cfg & raw & m & ip & ips & c & rec & H1 & H2 & H3 & H4 & H5 & H6 & H7
                   & _ & _ & _ & H8 & _ & _ & _ & H9).
    exists cfg, raw, m, ip, ips, c, rec. repeat split; assumption. }
  split.
  { intros cfg raw Hcfg Hraw. exact (aws_Run_failures env req cfg raw sa Hcfg Hraw). }
  split.
  { pose proof (vbox_Run_outcome env req sv Lv) as H. cbv zeta in H.
    destruct (virtualbox.RunPodSandbox env req sv) as [[resp|e] s'|msg s'|s']; auto.
    destruct H as (cfg & m & ip & ips & c & rec & H1 & H2 & H3 & H4 & H5 & H6
                   & _ & _ & _ & H7 & _ & _ & H8).
    exists cfg, m, ip, ips, c, rec. repeat split; assumption. }
  exact (vbox_Run_failures env req sv).
Qed.

(** The factory hands back no client: the machine ["i-1"] is destroyed
    and the directory stays empty. *)
Lemma create_witness :
  let out := aws.RunPodSandbox scenario.env_nil_client scenario.run_web scenario.aws_empty in
  (aws.vmMapLock (prov scenario.aws_empty) = sync.rwfree /\
   virtualbox.vmMapLock (prov scenario.vbox_empty) = sync.free) /\
  value_of out = Some (Err "returned a nil GRPC client") /\
  trace (state_of out)
    = [ReadFile "id.pem"; Provision "default:web"; GetIPs "i-1"; CreateClient "10.0.0.1";
       Destroy "i-1"].
Proof.
  cbv zeta. split; [split; reflexivity|].
  pose proof (create_registers_after_all_steps scenario.env_nil_client scenario.run_web
                scenario.aws_empty scenario.vbox_empty eq_refl eq_refl) as H.
  cbv zeta in H. destruct H as (_ & H & _).
  destruct (H scenario.web_config "key" eq_refl eq_refl) as (_ & _ & _ & Hnil).
  exact (Hnil "i-1" "10.0.0.1" [] eq_refl eq_refl eq_refl).
Defined.

(** C1 as it was stated does not hold.  The agent cannot be reached (the
    client factory returns an error): both providers return the error
    and add no entry, but the machine ["i-1"] that was provisioned is
    not destroyed. *)
Lemma create_counterexample :
  let outa := aws.RunPodSandbox scenario.env_no_agent scenario.run_web scenario.aws_empty in
  let outv := virtualbox.RunPodSandbox scenario.env_no_agent scenario.run_web
                scenario.vbox_empty in
  (value_of outa
     = Some (Err "CreatePodSandbox: error in createClient(): connection refused") /\
   trace (state_of outa)
     = [ReadFile "id.pem"; Provision "default:web"; GetIPs "i-1"; CreateClient "10.0.0.1"] /\
   Destroy "i-1" ∉ trace (state_of outa)) /\
  (value_of outv
     = Some (Err "CreatePodSandbox: error in createClient(): connection refused") /\
   trace (state_of outv) = [Provision "box.ova"; GetIPs "i-1"; CreateClient "10.0.0.1"] /\
   Destroy "i-1" ∉ trace (state_of outv)).
Proof.
  cbv zeta. vm_compute.
  repeat split; intros Hin;
    repeat (apply elem_of_cons in Hin as [Hin|Hin]; [discriminate|]);
    inversion Hin.
Qed.

(** ** Calls that do not come back

    Besides [GetVMList] above, some calls on a sandbox that the
    directory holds end in a panic or wait for ever. *)

Section Stuck.
Context (env : Env).

(** [StopPodSandbox] of aws.go takes the lock of the record and then
    calls [StopPod], which takes it again. *)
Lemma aws_Stop_present_blocks req d (s : aws.St) :
  aws.vmMap (prov s) !! kubeapi.PodSandboxIdRequest.GetPodSandboxId req = Some d ->
  aws.vmMapLock (prov s) = sync.rwfree ->
  common.StateLock (aws.PodData d) = sync.free ->
  exists s', aws.StopPodSandbox req s = Blocked s'.
Proof.
  destruct s as [[m l c] t tr], d as [[i md an ca ip lb lx sl cl ps] v vs lc].
  cbn. intros Hm -> ->. aws_unfold.
  repeat (go; rewrite ?Hm; maps). eauto.
Qed.

(** In the listing of aws.go with the plain mutex, [PodSandboxStatus]
    takes the lock of the record and [updateVMState] takes it again. *)
Lemma aws0_Status_present_blocks req d (s : aws0.St) :
  aws0.vmMap (prov s) !! kubeapi.PodSandboxIdRequest.GetPodSandboxId req = Some d ->
  aws0.vmMapLock (prov s) = sync.free ->
  common.StateLock (aws.PodData d) = sync.free ->
  exists s', aws0.PodSandboxStatus env req s = Blocked s'.
Proof.
  destruct s as [[m l c] t tr], d as [[i md an ca ip lb lx sl cl ps] v vs lc].
  cbn. intros Hm -> ->.
  repeat (unfold aws0.PodSandboxStatus, aws0.updateVMState, aws0.getPodData,
            aws0.vmMapLock_Lock, aws0.vmMapLock_Unlock,
            aws0.StateLock_Lock, aws0.StateLock_Unlock, aws0.embedded,
            aws0.load, aws0.store, aws0.at_, aws0.store_,
            common.StateLock_Lock, common.StateLock_Unlock;
          go; rewrite ?Hm; maps).
  eauto.
Qed.

(** [PodStatus] reads [p.Linux.NamespaceOptions]: a sandbox created
    without a Linux configuration makes the status query panic. *)
Lemma aws_Status_without_Linux_panics req d (s : aws.St) :
  aws.vmMap (prov s) !! kubeapi.PodSandboxIdRequest.GetPodSandboxId req = Some d ->
  aws.vmMapLock (prov s) = sync.rwfree ->
  common.StateLock (aws.PodData d) = sync.free ->
  common.Linux (aws.PodData d) = None ->
  exists s', aws.PodSandboxStatus env req s = Panic nil_dereference s'.
Proof.
  intros Hm Hl Hf Hx. rewrite (aws_Status_run env req d s Hm Hl Hf). cbv zeta.
  destruct (examined_record_fields env (now s) d) as (_ & Hx' & _). cbv zeta in Hx'.
  unfold common.PodStatus. rewrite Hx', Hx. cbn. eauto.
Qed.

(** [ips[0]] on an address list that came back empty. *)
Lemma aws_Run_without_address_panics req cfg raw m (s : aws.St) :
  kubeapi.RunPodSandboxRequest.Config req = Some cfg ->
  ioutil_ReadFile env (aws.SshKey (aws.config (prov s))) = Ok raw ->
  vm_Provision env (aws.awsName cfg) = Ok m ->
  vm_GetIPs env m = Ok [] ->
  exists s', aws.RunPodSandbox env req s = Panic "runtime error: index out of range" s' /\
             prov s' = prov s.
Proof.
  destruct s as [[mp l c] t tr]; cbn; intros Hcfg Hraw Hp Hi.
  unfold aws.RunPodSandbox. go. rewrite Hraw, Hcfg. go. rewrite Hp. go. rewrite Hi. go.
  eauto.
Qed.

(** The virtualbox provider reports a machine that is not running as
    [NOTREADY] without writing that into the record. *)
Lemma vbox_Status_reports_without_storing req d lx st (s : virtualbox.St) :
  virtualbox.vmMap (prov s) !! kubeapi.PodSandboxIdRequest.GetPodSandboxId req = Some d ->
  virtualbox.vmMapLock (prov s) = sync.free ->
  common.StateLock (virtualbox.PodData d) = sync.free ->
  common.Linux (virtualbox.PodData d) = Some lx ->
  vm_GetState env (virtualbox.Name_ (virtualbox.vm d)) = Ok st ->
  exists status s',
    virtualbox.PodSandboxStatus env req s
      = Return (Ok {| kubeapi.PodSandboxStatusResponse.Status := Some status |}) s' /\
    kubeapi.PodSandboxStatus.State status
      = Some (if String.eqb st lvm.VMRunning
              then common.PodState (virtualbox.PodData d)
              else kubeapi.PodSandBoxState_NOTREADY) /\
    prov s' = prov s.
Proof.
  intros Hm Hl Hf Hlx Hst. rewrite (vbox_Status_run env req d s Hm Hl Hf). cbv zeta.
  unfold common2.PodStatus. rewrite Hlx, Hst. go.
  destruct (String.eqb st lvm.VMRunning); cbn; eauto.
Qed.

End Stuck.

(** The router hands a create request to the agent of the sandbox that
    the request names. *)
Lemma CreateContainer_forwards {P} env
    (getClient : string -> M (State P) (Result (option Client))) req c (s s1 : State P) :
  getClient (kubeapi.CreateContainerRequest.GetPodSandboxId req) s = Return (Ok c) s1 ->
  infranetes.CreateContainer env getClient req s
    = Return (client_Do env c (CreateContainer req))
        {| prov := prov s1;
           now := now s1 + Z.of_N (elapsed env (Forward c (CreateContainer req)));
           trace := trace s1 ++ [Forward c (CreateContainer req)] |}.
Proof.
  intros H. unfold infranetes.CreateContainer, bind. rewrite H. reflexivity.
Qed.

(** * Further properties of the code *)

(** ** The filter of a listing *)

(** X1.  [Filter] keeps a record exactly when there is no filter, or
    when the filter's id is empty or equal to the record's id, the
    filter's state (READY when it names none) is the record's state, and
    the record carries every pair of the label selector. *)
Theorem Filter_keeps_exactly_the_matching_records p (filter : option kubeapi.PodSandboxFilter.t) :
  fst (common.Filter p filter) = false <->
  match filter with
  | None => True
  | Some f =>
      (kubeapi.PodSandboxFilter.GetId f = "" \/
       kubeapi.PodSandboxFilter.GetId f = common.Id p) /\
      default kubeapi.PodSandBoxState_READY (kubeapi.PodSandboxFilter.State f)
        = common.PodState p /\
      (forall key filterVal,
         kubeapi.PodSandboxFilter.LabelSelector f !! key = Some filterVal ->
         common.Labels p !! key = Some filterVal)
  end.
Proof.
  destruct filter as [f|].
  - rewrite Filter_keeps_iff. reflexivity.
  - cbn. tauto.
Qed.

Lemma matchLabels_drops_iff labels selector :
  fst (common.matchLabels labels selector) = true <->
  exists key filterVal, (key, filterVal) ∈ selector /\ labels !! key <> Some filterVal.
Proof.
  induction selector as [|[k v] rest IH]; cbn.
  - split; [discriminate|]. intros (key & filterVal & Hin & _). inversion Hin.
  - destruct (labels !! k) as [podVal|] eqn:Hk; cbn.
    + destruct (String.eqb podVal v) eqn:Hv; cbn.
      * apply String.eqb_eq in Hv as ->. rewrite IH. split.
        -- intros (key & filterVal & Hin & Hne). exists key, filterVal. split; [now right|auto].
        -- intros (key & filterVal & Hin & Hne).
           apply elem_of_cons in Hin as [[= -> ->]|Hin]; [congruence|]. eauto.
      * split; [|reflexivity]. intros _. exists k, v. split; [now left|].
        rewrite Hk. intros [= ->]. rewrite String.eqb_refl in Hv. discriminate.
    + split; [|reflexivity]. intros _. exists k, v. split; [now left|].
      rewrite Hk. discriminate.
Qed.

(** X2.  A Go map is ranged in an order that changes from run to run.
    The verdict of the label loop of [Filter] and [FilterByLabels] does
    not depend on that order: two orders of the same selector pairs give
    the same verdict (only the logged reason can differ). *)
Theorem label_verdict_ignores_the_order labels (selector selector' : list (string * string)) :
  selector ≡ₚ selector' ->
  fst (common.matchLabels labels selector) = fst (common.matchLabels labels selector').
Proof.
  intros Hperm.
  destruct (fst (common.matchLabels labels selector)) eqn:H1;
    destruct (fst (common.matchLabels labels selector')) eqn:H2; try reflexivity.
  - apply matchLabels_drops_iff in H1 as (key & filterVal & Hin & Hne).
    rewrite matchLabels_keeps_iff in H2. rewrite Hperm in Hin.
    specialize (H2 _ _ Hin). contradiction.
  - apply matchLabels_drops_iff in H2 as (key & filterVal & Hin & Hne).
    rewrite matchLabels_keeps_iff in H1. rewrite <- Hperm in Hin.
    specialize (H1 _ _ Hin). contradiction.
Qed.

(** Two orders of one selector: the verdict is the same, the reason is
    not. *)
Lemma label_order_witness :
  let labels : gmap string string := {[ "app" := "web" ]} in
  let one := [("tier", "db"); ("app", "api")] in
  let other := [("app", "api"); ("tier", "db")] in
  one ≡ₚ other /\
  fst (common.matchLabels labels one) = fst (common.matchLabels labels other) /\
  snd (common.matchLabels labels one) <> snd (common.matchLabels labels other).
Proof.
  cbv zeta. split; [apply Permutation_swap|]. split.
  - exact (label_verdict_ignores_the_order {[ "app" := "web" ]}
             [("tier", "db"); ("app", "api")] [("app", "api"); ("tier", "db")]
             (Permutation_swap _ _ _)).
  - vm_compute. discriminate.
Defined.


(** ** The image directory: pulling, listing and removing *)

(** How a pull can end. *)
Lemma gcp_PullImage_cases cloud reference (s : gcp.St) :
  gcp.lock (prov s) = sync.rwfree ->
  let out := gcp_image.PullImage cloud (gcp_image.PullImageRequest.naming reference) s in
  (exists proj name item image,
      (strings_Split reference "/" = [name] /\
       (exists svc, gcp_image.GetService cloud (gcp.AuthFile (gcp.config (prov s))) (gcp.Project (gcp.config (prov s))) (gcp.Zone (gcp.config (prov s))) [gcp.Scope (gcp.config (prov s))] = Some svc /\ proj = gcp_image.project svc)
       \/ strings_Split reference "/" = [proj; name]) /\
      gcp_image.ImagesListCall_Do cloud proj ("name eq " ++ name) = Ok [item] /\
      gcp_image.toRuntimeAPIImage item = Ok image /\
      out = Return (Ok tt) (with_prov (gcp.set_imageMap (<[reference := image]> (gcp.imageMap (prov s))) (prov s)) s))
  \/ (exists err, out = Return (Err err) s)
  \/ (exists msg, out = Panic msg s).
Proof.
  destruct s as [[l c m] t tr]; cbn; intros ->.
  unfold gcp_image.PullImage, gcp_image.PullImageRequest.naming. go.
  destruct (strings_Split reference "/") as [|a [|b [|x rest]]] eqn:Hsp; go.
  - right; left; eauto.
  - destruct (gcp_image.GetService _ _ _ _ _) as [svc|] eqn:Hsvc; go; [|right; right; eauto].
    destruct (gcp_image.ImagesListCall_Do _ _ _) as [[|item [|]]|err] eqn:Hdo; go; try (right; left; eauto; fail).
    unfold gcp.lock_Lock, gcp.lock_Unlock. go.
    destruct (gcp_image.toRuntimeAPIImage item) as [image|err] eqn:Hconv; go; [|right; left; eauto].
    left. exists (gcp_image.project svc), a, item, image. split; [left; eauto|]. auto.
  - destruct (gcp_image.GetService _ _ _ _ _) as [svc|] eqn:Hsvc; go; [|right; right; eauto].
    destruct (gcp_image.ImagesListCall_Do _ _ _) as [[|item [|]]|err] eqn:Hdo; go; try (right; left; eauto; fail).
    unfold gcp.lock_Lock, gcp.lock_Unlock. go.
    destruct (gcp_image.toRuntimeAPIImage item) as [image|err] eqn:Hconv; go; [|right; left; eauto].
    left. exists a, b, item, image. split; [right; eauto|]. auto.
  - right; left; eauto.
Qed.

Lemma toRuntimeAPIImage_Ok item image :
  gcp_image.toRuntimeAPIImage item = Ok image ->
  exists found, item = Some found /\
    kubeapi.Image.Id image = compute.Image.Name found /\
    kubeapi.Image.RepoTags image = [compute.Image.Name found] /\
    kubeapi.Image.RepoDigests image = [compute.Image.Name found] /\
    kubeapi.Image.Size_ image = compute.Image.ArchiveSizeBytes found mod 2 ^ 64 /\
    0 <= kubeapi.Image.Size_ image < 2 ^ 64.
Proof.
  destruct item as [found|]; cbn; [|discriminate].
  intros [= <-]. exists found. cbn. unfold gcp_image.uint64.
  repeat split; try reflexivity; apply Z.mod_pos_bound; lia.
Qed.

(** X3.  A pull either stores one image or changes nothing.  When
    [PullImage] succeeds, the directory has changed at the reference as
    the request spells it, and only there: the record stored is built
    from the one image that the compute API lists for the name (in the
    project named before the "/", or in the project of the service), and
    carries that image's name as id, as only tag and as only digest, and
    a size between 0 and 2^64 - 1.  In every other case (an error or a
    panic) the provider is as before.  A reference with more than one
    "/" is refused whatever the compute API holds.  The call never
    blocks and leaves the lock free. *)
Theorem pull_stores_one_image_or_changes_nothing cloud reference (s : gcp.St) :
  gcp.lock (prov s) = sync.rwfree ->
  let out := gcp_image.PullImage cloud (gcp_image.PullImageRequest.naming reference) s in
  (value_of out = Some (Ok tt) ->
     exists image,
       state_of out =
         with_prov (gcp.set_imageMap (<[reference := image]> (gcp.imageMap (prov s))) (prov s)) s /\
       (exists proj name found,
          gcp_image.ImagesListCall_Do cloud proj ("name eq " ++ name) = Ok [Some found] /\
          (strings_Split reference "/" = [name] /\
           (exists svc,
              gcp_image.GetService cloud (gcp.AuthFile (gcp.config (prov s))) (gcp.Project (gcp.config (prov s)))
                (gcp.Zone (gcp.config (prov s))) [gcp.Scope (gcp.config (prov s))] = Some svc /\
              proj = gcp_image.project svc)
           \/ strings_Split reference "/" = [proj; name]) /\
          kubeapi.Image.Id image = compute.Image.Name found /\
          kubeapi.Image.RepoTags image = [compute.Image.Name found] /\
          kubeapi.Image.RepoDigests image = [compute.Image.Name found]) /\
       0 <= kubeapi.Image.Size_ image < 2 ^ 64) /\
  (value_of out <> Some (Ok tt) -> state_of out = s) /\
  ((2 < length (strings_Split reference "/"))%nat ->
     out = Return (Err ("PullImage: can't parse " ++ reference)) s) /\
  gcp.lock (prov (state_of out)) = sync.rwfree /\
  (forall s', out <> Blocked s').
Proof.
  intros Hl out.
  assert (Hparse : (2 < length (strings_Split reference "/"))%nat ->
     out = Return (Err ("PullImage: can't parse " ++ reference)) s).
  { subst out. destruct s as [[l c m] t tr].
    unfold gcp_image.PullImage, gcp_image.PullImageRequest.naming. go.
    destruct (strings_Split reference "/") as [|a [|b [|x rest]]]; cbn; try lia. reflexivity. }
  destruct (gcp_PullImage_cases cloud reference s Hl)
    as [(proj & name & item & image & Hsp & Hdo & Hconv & Hout)|[[err Hout]|[msg Hout]]];
    fold out in Hout; rewrite Hout in *; cbn.
  - destruct (toRuntimeAPIImage_Ok _ _ Hconv) as (found & -> & Hid & Htags & Hdig & _ & Hsize).
    repeat split; try assumption; try discriminate; try lia; try congruence.
    + intros _. exists image. repeat split; try apply Hsize.
      exists proj, name, found. repeat split; assumption.
  - repeat split; try assumption; try discriminate; try lia; try congruence.
  - repeat split; try assumption; try discriminate; try lia; try congruence.
Qed.

Lemma append_length (a b : string) :
  String.length (a ++ b) = (String.length a + String.length b)%nat.
Proof.
  induction a as [|c a IH]; [reflexivity|].
  rewrite append_cons. cbn. now rewrite IH.
Qed.

Lemma append_latest_differs reference : reference ++ ":latest" <> reference.
Proof.
  intros H. apply (f_equal String.length) in H.
  rewrite append_length in H. cbn in H. lia.
Qed.

Lemma gcp_ListImages_named reference (s : gcp.St) :
  gcp.lock (prov s) = sync.rwfree ->
  gcp.ListImages (cases.images_named reference) s =
    Return (Ok {| kubeapi.ListImagesResponse.Images :=
                    option_list (gcp.imageMap (prov s) !! reference) |}) s.
Proof.
  destruct s as [[l c m] t tr]; cbn; intros ->.
  unfold gcp.ListImages, gcp.lock_RLock, gcp.lock_RUnlock, cases.images_named. go.
  destruct (m !! reference); reflexivity.
Qed.

(** X4.  After a pull that succeeded, the directory holds the image under
    the reference as the request spelled it, and a listing filtered by
    that reference returns it.  [ImageStatus] for the same reference
    reports it only when the reference contains a ":" : for a reference
    without ":" it looks under reference + ":latest", which the pull did
    not write, and answers with what the directory held there before. *)
Theorem pulled_image_is_reported_only_under_a_tagged_reference
    cloud reference (s : gcp.St) :
  gcp.lock (prov s) = sync.rwfree ->
  let pulled := gcp_image.PullImage cloud (gcp_image.PullImageRequest.naming reference) s in
  value_of pulled = Some (Ok tt) ->
  let s' := state_of pulled in
  exists image,
    gcp.imageMap (prov s') !! reference = Some image /\
    value_of (gcp.ListImages (cases.images_named reference) s')
      = Some (Ok {| kubeapi.ListImagesResponse.Images := [image] |}) /\
    (occurs ":" reference = true ->
       fst <$> value_of (gcp.ImageStatus (kubeapi.ImageStatusRequest.naming reference) s')
         = Some (Ok {| kubeapi.ImageStatusResponse.Image := Some image |})) /\
    (occurs ":" reference = false ->
       fst <$> value_of (gcp.ImageStatus (kubeapi.ImageStatusRequest.naming reference) s')
         = Some (Ok {| kubeapi.ImageStatusResponse.Image :=
                         gcp.imageMap (prov s) !! (reference ++ ":latest") |})).
Proof.
  intros Hl pulled Hv s'.
  destruct (gcp_PullImage_cases cloud reference s Hl)
    as [(proj & name & item & image & _ & _ & _ & Hout)|[[err Hout]|[msg Hout]]];
    fold pulled in Hout; subst s'; rewrite Hout in *; try discriminate.
  exists image. cbn [state_of].
  assert (Hl' : gcp.lock (prov (with_prov (gcp.set_imageMap
            (<[reference := image]> (gcp.imageMap (prov s))) (prov s)) s)) = sync.rwfree)
    by exact Hl.
  rewrite (gcp_ListImages_named _ _ Hl'), (gcp_ImageStatus_run _ _ Hl').
  cbn. rewrite lookup_insert_eq. repeat split.
  - intros ->. cbn. rewrite lookup_insert_eq. reflexivity.
  - intros ->. cbn. rewrite lookup_insert_ne by (intros H; exact (append_latest_differs _ (eq_sym H))).
    reflexivity.
Qed.

(** X5.  [RemoveImage] deletes the entry under the reference as the
    request spells it and never reports an error: when there is no such
    entry the provider is unchanged, and a second removal changes
    nothing more.  A listing filtered by the reference is empty
    afterwards.  The reference is not normalised as [ImageStatus] does
    it: after the removal of a reference without ":", [ImageStatus]
    for that reference still reports what the directory holds under
    reference + ":latest". *)
Theorem RemoveImage_deletes_the_reference_as_given reference (s : gcp.St) :
  gcp.lock (prov s) = sync.rwfree ->
  let out := gcp.RemoveImage (cases.remove_request reference) s in
  let s' := state_of out in
  out = Return (Ok tt)
          (with_prov (gcp.set_imageMap (delete reference (gcp.imageMap (prov s))) (prov s)) s) /\
  (gcp.imageMap (prov s) !! reference = None -> s' = s) /\
  gcp.RemoveImage (cases.remove_request reference) s' = Return (Ok tt) s' /\
  value_of (gcp.ListImages (cases.images_named reference) s')
    = Some (Ok {| kubeapi.ListImagesResponse.Images := [] |}) /\
  (occurs ":" reference = true ->
     fst <$> value_of (gcp.ImageStatus (kubeapi.ImageStatusRequest.naming reference) s')
       = Some (Ok {| kubeapi.ImageStatusResponse.Image := None |})) /\
  (occurs ":" reference = false ->
     fst <$> value_of (gcp.ImageStatus (kubeapi.ImageStatusRequest.naming reference) s')
       = Some (Ok {| kubeapi.ImageStatusResponse.Image :=
                       gcp.imageMap (prov s) !! (reference ++ ":latest") |})).
Proof.
  intros Hl out s'.
  assert (Hrun : forall s0 : gcp.St, gcp.lock (prov s0) = sync.rwfree ->
            gcp.RemoveImage (cases.remove_request reference) s0 =
            Return (Ok tt) (with_prov (gcp.set_imageMap
                      (delete reference (gcp.imageMap (prov s0))) (prov s0)) s0)).
  { intros [[l c m] t tr]; cbn; intros ->.
    unfold gcp.RemoveImage, gcp.lock_Lock, gcp.lock_Unlock, cases.remove_request. go.
    reflexivity. }
  subst s' out. rewrite (Hrun s Hl). cbn [state_of].
  set (s' := with_prov _ s).
  assert (Hl' : gcp.lock (prov s') = sync.rwfree) by exact Hl.
  split; [reflexivity|]. split; [|split; [|split; [|split]]].
  - intros Hnone. subst s'. destruct s as [[l c m] t tr]; cbn in *.
    unfold with_prov, gcp.set_imageMap; cbn. now rewrite delete_id.
  - rewrite (Hrun s' Hl'). subst s'. destruct s as [[l c m] t tr]; cbn.
    unfold with_prov, gcp.set_imageMap; cbn. now rewrite delete_delete_eq.
  - rewrite (gcp_ListImages_named _ _ Hl'). cbn. now rewrite lookup_delete_eq.
  - intros Hc. rewrite (gcp_ImageStatus_run _ _ Hl'), Hc. cbn. now rewrite lookup_delete_eq.
  - intros Hc. rewrite (gcp_ImageStatus_run _ _ Hl'), Hc. cbn.
    rewrite lookup_delete_ne by (intros H; exact (append_latest_differs _ (eq_sym H))).
    reflexivity.
Qed.

(** X6.  [ListImages] changes nothing.  With a filter that names an
    image it returns the entry under that reference, or nothing; without
    one (no filter, or a filter without an image) it returns one item
    for every entry of the directory, and every item is an image held by
    the directory. *)
Theorem ListImages_lists_the_directory req (s : gcp.St) :
  gcp.lock (prov s) = sync.rwfree ->
  exists images,
    gcp.ListImages req s = Return (Ok {| kubeapi.ListImagesResponse.Images := images |}) s /\
    match kubeapi.ListImagesRequest.Filter req ≫= kubeapi.ImageFilter.Image with
    | Some spec => images = option_list (gcp.imageMap (prov s) !! kubeapi.ImageSpec.Image spec)
    | None =>
        length images = size (gcp.imageMap (prov s)) /\
        forall image, image ∈ images <->
                      exists reference, gcp.imageMap (prov s) !! reference = Some image
    end.
Proof.
  destruct s as [[l c m] t tr]; cbn; intros ->.
  unfold gcp.ListImages, gcp.lock_RLock, gcp.lock_RUnlock. go.
  assert (Hall : length (snd <$> map_to_list m) = size m /\
            forall image, image ∈ snd <$> map_to_list m <->
                          exists reference, m !! reference = Some image).
  { split.
    - now rewrite length_fmap, length_map_to_list.
    - intros image. rewrite list_elem_of_fmap. split.
      + intros ([k v] & -> & Hin). apply elem_of_map_to_list in Hin. eauto.
      + intros [k Hk]. exists (k, image). split; [reflexivity|].
        now apply elem_of_map_to_list. }
  destruct req as [[[[[ref]|]]|]]; cbn.
  - eexists. split; [reflexivity|]. destruct (m !! ref); reflexivity.
  - eexists. split; [reflexivity|]. exact Hall.
  - eexists. split; [reflexivity|]. exact Hall.
Qed.

(** From an empty directory: "busybox" is found once in the project of
    the service and stored; "mirror/busybox" is found twice and
    "a/b/busybox" cannot be parsed, and the directory stays empty. *)
Lemma pull_witness :
  gcp.lock (prov cases.no_images) = sync.rwfree /\
  gcp.imageMap (prov (state_of (gcp_image.PullImage cases.cloud
     (gcp_image.PullImageRequest.naming "busybox") cases.no_images)))
    = {[ "busybox" := scenario.busybox ]} /\
  state_of (gcp_image.PullImage cases.cloud
     (gcp_image.PullImageRequest.naming "mirror/busybox") cases.no_images) = cases.no_images /\
  state_of (gcp_image.PullImage cases.cloud
     (gcp_image.PullImageRequest.naming "a/b/busybox") cases.no_images) = cases.no_images.
Proof.
  split; [reflexivity|]. split; [vm_compute; reflexivity|]. split.
  - apply (pull_stores_one_image_or_changes_nothing cases.cloud "mirror/busybox"
             cases.no_images eq_refl). vm_compute. discriminate.
  - apply (pull_stores_one_image_or_changes_nothing cases.cloud "a/b/busybox"
             cases.no_images eq_refl). vm_compute. discriminate.
Defined.

(** "busybox" has just been pulled and is in the directory, and
    [ImageStatus] for "busybox" answers that there is no such image. *)
Lemma pull_then_status_witness :
  gcp.lock (prov cases.no_images) = sync.rwfree /\
  let pulled := gcp_image.PullImage cases.cloud
                  (gcp_image.PullImageRequest.naming "busybox") cases.no_images in
  value_of pulled = Some (Ok tt) /\
  gcp.imageMap (prov (state_of pulled)) !! "busybox" = Some scenario.busybox /\
  fst <$> value_of (gcp.ImageStatus (kubeapi.ImageStatusRequest.naming "busybox")
                      (state_of pulled))
    = Some (Ok {| kubeapi.ImageStatusResponse.Image := None |}).
Proof.
  split; [reflexivity|]. cbv zeta. split; [reflexivity|]. split; [reflexivity|].
  destruct (pulled_image_is_reported_only_under_a_tagged_reference
              cases.cloud "busybox" cases.no_images eq_refl eq_refl)
    as (image & _ & _ & _ & Hstatus).
  exact (Hstatus eq_refl).
Defined.

(** The directory holds "busybox:latest": [ImageStatus] for "busybox"
    finds it, and removing "busybox" leaves it there. *)
Lemma remove_image_witness :
  gcp.lock (prov scenario.images) = sync.rwfree /\
  let s' := state_of (gcp.RemoveImage (cases.remove_request "busybox") scenario.images) in
  s' = scenario.images /\
  fst <$> value_of (gcp.ImageStatus (kubeapi.ImageStatusRequest.naming "busybox") s')
    = Some (Ok {| kubeapi.ImageStatusResponse.Image := Some scenario.busybox |}).
Proof.
  split; [reflexivity|]. cbv zeta.
  destruct (RemoveImage_deletes_the_reference_as_given "busybox" scenario.images eq_refl)
    as (_ & Hsame & _ & _ & _ & Hstatus).
  split; [exact (Hsame eq_refl) | exact (Hstatus eq_refl)].
Defined.

Lemma list_images_witness :
  gcp.lock (prov scenario.images) = sync.rwfree /\
  exists images,
    gcp.ListImages {| kubeapi.ListImagesRequest.Filter := None |} scenario.images
      = Return (Ok {| kubeapi.ListImagesResponse.Images := images |}) scenario.images /\
    length images = 1%nat.
Proof.
  split; [reflexivity|].
  destruct (ListImages_lists_the_directory
              {| kubeapi.ListImagesRequest.Filter := None |} scenario.images eq_refl)
    as (images & Hrun & Hlen & _).
  exists images. split; [exact Hrun | exact Hlen].
Defined.

(** ** Stopping a sandbox *)

Ltac aws0_unfold :=
  unfold aws0.PodSandboxStatus, aws0.RemovePodSandbox, aws0.StopPodSandbox,
    aws0.updateVMState, aws0.getPodData, aws0.GetIP, aws0.GetClient,
    aws0.vmMapLock_Lock, aws0.vmMapLock_Unlock,
    aws0.StateLock_Lock, aws0.StateLock_Unlock, aws0.embedded,
    aws0.load, aws0.store, aws0.at_, aws0.store_,
    common.StateLock_Lock, common.StateLock_Unlock, common.PodStatus, common.RemovePod,
    common.StopPod in *.

(** [StopPodSandbox] of virtualbox.go on a sandbox of the directory. *)
Lemma vbox_Stop_run req d (s : virtualbox.St) :
  let id := kubeapi.PodSandboxIdRequest.GetPodSandboxId req in
  virtualbox.vmMap (prov s) !! id = Some d ->
  virtualbox.vmMapLock (prov s) = sync.free ->
  common.StateLock (virtualbox.PodData d) = sync.free ->
  virtualbox.StopPodSandbox req s =
    Return (Ok kubeapi.mkStopPodSandboxResponse)
      (with_prov (virtualbox.store_ id
         (virtualbox.set_PodData
            (common.set_PodState kubeapi.PodSandBoxState_NOTREADY (virtualbox.PodData d)) d)
         (prov s)) s).
Proof.
  destruct s as [[nd src m l] t tr], d as [[i md an ca ip lb lx sl cl ps] v].
  cbn. intros Hm -> ->. vbox_unfold.
  repeat (go; rewrite ?Hm; maps). reflexivity.
Qed.

(** [StopPodSandbox] of the older aws listing. *)
Lemma aws0_Stop_run req d (s : aws0.St) :
  let id := kubeapi.PodSandboxIdRequest.GetPodSandboxId req in
  aws0.vmMap (prov s) !! id = Some d ->
  aws0.vmMapLock (prov s) = sync.free ->
  common.StateLock (aws.PodData d) = sync.free ->
  aws0.StopPodSandbox req s =
    Return (Ok kubeapi.mkStopPodSandboxResponse)
      (with_prov (aws0.store_ id
         (aws.set_PodData
            (common.set_PodState kubeapi.PodSandBoxState_NOTREADY (aws.PodData d)) d)
         (prov s)) s).
Proof.
  destruct s as [[m l c] t tr], d as [[i md an ca ip lb lx sl cl ps] v vs lc].
  cbn. intros Hm -> ->. aws0_unfold.
  repeat (go; rewrite ?Hm; maps). reflexivity.
Qed.

(** X7.  [StopPodSandbox] of the virtualbox provider and of the older aws
    listing, on a sandbox that the directory holds: the call succeeds,
    the record is marked [NOTREADY] and is otherwise as before, no call
    leaves the process (the machine is neither stopped nor destroyed),
    the directory lock is free again, and stopping once more changes
    nothing. *)
Theorem stop_marks_not_ready_and_leaves_the_machine_alone
    req (sv : virtualbox.St) (dv : virtualbox.podData) (s0 : aws0.St) (d0 : aws.podData) :
  let id := kubeapi.PodSandboxIdRequest.GetPodSandboxId req in
  let outv := virtualbox.StopPodSandbox req sv in
  let out0 := aws0.StopPodSandbox req s0 in
  virtualbox.vmMap (prov sv) !! id = Some dv ->
  virtualbox.vmMapLock (prov sv) = sync.free ->
  common.StateLock (virtualbox.PodData dv) = sync.free ->
  aws0.vmMap (prov s0) !! id = Some d0 ->
  aws0.vmMapLock (prov s0) = sync.free ->
  common.StateLock (aws.PodData d0) = sync.free ->
  (value_of outv = Some (Ok kubeapi.mkStopPodSandboxResponse) /\
   trace (state_of outv) = trace sv /\
   virtualbox.vmMap (prov (state_of outv))
     = <[id := virtualbox.set_PodData
                 (common.set_PodState kubeapi.PodSandBoxState_NOTREADY
                    (virtualbox.PodData dv)) dv]> (virtualbox.vmMap (prov sv)) /\
   virtualbox.vmMapLock (prov (state_of outv)) = sync.free /\
   virtualbox.StopPodSandbox req (state_of outv)
     = Return (Ok kubeapi.mkStopPodSandboxResponse) (state_of outv)) /\
  (value_of out0 = Some (Ok kubeapi.mkStopPodSandboxResponse) /\
   trace (state_of out0) = trace s0 /\
   aws0.vmMap (prov (state_of out0))
     = <[id := aws.set_PodData
                 (common.set_PodState kubeapi.PodSandBoxState_NOTREADY (aws.PodData d0)) d0]>
         (aws0.vmMap (prov s0)) /\
   aws0.vmMapLock (prov (state_of out0)) = sync.free /\
   aws0.StopPodSandbox req (state_of out0)
     = Return (Ok kubeapi.mkStopPodSandboxResponse) (state_of out0)).
Proof.
  intros id outv out0 Hv Hlv Hfv H0 Hl0 Hf0. split.
  - subst outv. rewrite (vbox_Stop_run req dv sv Hv Hlv Hfv). cbn [state_of value_of].
    fold id. repeat split; try assumption.
    rewrite (vbox_Stop_run req
               (virtualbox.set_PodData
                  (common.set_PodState kubeapi.PodSandBoxState_NOTREADY
                     (virtualbox.PodData dv)) dv)
               (with_prov (virtualbox.store_ id _ (prov sv)) sv)
               (lookup_insert_eq _ _ _) Hlv Hfv).
    f_equal. destruct sv as [[nd src m l] t tr]. unfold with_prov, virtualbox.store_; cbn.
    now rewrite insert_insert_eq.
  - subst out0. rewrite (aws0_Stop_run req d0 s0 H0 Hl0 Hf0). cbn [state_of value_of].
    fold id. repeat split; try assumption.
    rewrite (aws0_Stop_run req
               (aws.set_PodData
                  (common.set_PodState kubeapi.PodSandBoxState_NOTREADY (aws.PodData d0)) d0)
               (with_prov (aws0.store_ id _ (prov s0)) s0)
               (lookup_insert_eq _ _ _) Hl0 Hf0).
    f_equal. destruct s0 as [[m l c] t tr]. unfold with_prov, aws0.store_; cbn.
    now rewrite insert_insert_eq.
Qed.

(** Stopping ["i-1"]: its record becomes [NOTREADY], the trace stays
    empty. *)
Lemma stop_witness :
  let dv := scenario.vbox_record kubeapi.PodSandBoxState_READY in
  let d0 := scenario.aws_record kubeapi.PodSandBoxState_READY lvm.VMRunning 0 in
  let sv := scenario.vbox_with dv 0 in
  let s0 := scenario.aws0_with d0 0 in
  (virtualbox.vmMap (prov sv) !! "i-1" = Some dv /\ aws0.vmMap (prov s0) !! "i-1" = Some d0) /\
  virtualbox.vmMap (prov (state_of (virtualbox.StopPodSandbox scenario.the_sandbox sv)))
    = {[ "i-1" := scenario.vbox_record kubeapi.PodSandBoxState_NOTREADY ]} /\
  trace (state_of (aws0.StopPodSandbox scenario.the_sandbox s0)) = [].
Proof.
  cbv zeta. split; [split; reflexivity|].
  pose proof (stop_marks_not_ready_and_leaves_the_machine_alone scenario.the_sandbox
      (scenario.vbox_with (scenario.vbox_record kubeapi.PodSandBoxState_READY) 0)
      (scenario.vbox_record kubeapi.PodSandBoxState_READY)
      (scenario.aws0_with (scenario.aws_record kubeapi.PodSandBoxState_READY lvm.VMRunning 0) 0)
      (scenario.aws_record kubeapi.PodSandBoxState_READY lvm.VMRunning 0)
      eq_refl eq_refl eq_refl eq_refl eq_refl eq_refl) as [(_ & _ & Hmap & _) (_ & Htr & _)].
  split; [|exact Htr].
  rewrite Hmap. cbn. apply insert_singleton_eq.
Defined.

(** X8.  [StopPodSandbox] of aws.go takes the lock of the record and
    calls [StopPod], which takes the same lock: on a sandbox that the
    directory holds the call does not return.  It waits with the read
    lock of the directory and the lock of the record held and with the
    record's state as it was; from then on no [RemovePodSandbox]
    returns, nor does a status query for that sandbox. *)
Theorem aws_stop_of_a_sandbox_waits_for_its_own_lock env req d (s : aws.St) :
  let id := kubeapi.PodSandboxIdRequest.GetPodSandboxId req in
  aws.vmMap (prov s) !! id = Some d ->
  aws.vmMapLock (prov s) = sync.rwfree ->
  common.StateLock (aws.PodData d) = sync.free ->
  exists s',
    aws.StopPodSandbox req s = Blocked s' /\
    aws.vmMapLock (prov s') = {| sync.writer := false; sync.readers := 1 |} /\
    aws.vmMap (prov s')
      = <[id := aws.set_PodData
                  (common.set_StateLock {| sync.locked := true |} (aws.PodData d)) d]>
          (aws.vmMap (prov s)) /\
    trace s' = trace s /\
    (forall req', exists s'', aws.RemovePodSandbox env req' s' = Blocked s'') /\
    (exists s'', aws.PodSandboxStatus env req s' = Blocked s'').
Proof.
  destruct s as [[m l c] t tr], d as [[i md an ca ip lb lx sl cl ps] v vs lc].
  cbn. intros Hm -> ->. aws_unfold.
  repeat (go; rewrite ?Hm; maps).
  eexists. split; [reflexivity|]. cbn. repeat split.
  - intros req'. eauto.
  - repeat (go; maps). eauto.
Qed.

Lemma aws_stop_witness :
  let d := scenario.aws_record kubeapi.PodSandBoxState_READY lvm.VMRunning 0 in
  let s := scenario.aws_with d 0 in
  aws.vmMap (prov s) !! "i-1" = Some d /\
  value_of (aws.StopPodSandbox scenario.the_sandbox s) = None /\
  exists s', aws.StopPodSandbox scenario.the_sandbox s = Blocked s' /\
             aws.vmMap (prov s') !! "i-1"
               = Some (aws.set_PodData
                         (common.set_StateLock {| sync.locked := true |} (aws.PodData d)) d).
Proof.
  cbv zeta. split; [reflexivity|]. split; [reflexivity|].
  destruct (aws_stop_of_a_sandbox_waits_for_its_own_lock scenario.env_ok scenario.the_sandbox
              (scenario.aws_record kubeapi.PodSandBoxState_READY lvm.VMRunning 0)
              (scenario.aws_with (scenario.aws_record kubeapi.PodSandBoxState_READY
                                    lvm.VMRunning 0) 0)
              eq_refl eq_refl eq_refl) as (s' & Hout & _ & Hmap & _).
  exists s'. split; [exact Hout|]. rewrite Hmap. apply lookup_insert_eq.
Defined.

(** X9.  In the older aws listing [updateVMState] takes the lock of the
    record, which [PodSandboxStatus] and the loop of [ListPodSandbox]
    already hold: a status query for a sandbox of the directory does not
    return, and neither does a listing of a directory that is not empty.
    Both wait before any call to the backend.  The listing waits with
    the directory lock held, so that no later lookup returns either. *)
Theorem older_aws_status_and_listing_wait_for_a_lock_they_hold env req lreq d (s : aws0.St) :
  let id := kubeapi.PodSandboxIdRequest.GetPodSandboxId req in
  aws0.vmMap (prov s) !! id = Some d ->
  aws0.vmMapLock (prov s) = sync.free ->
  (forall k d', aws0.vmMap (prov s) !! k = Some d' ->
     common.StateLock (aws.PodData d') = sync.free) ->
  (exists s', aws0.PodSandboxStatus env req s = Blocked s' /\
              aws0.vmMapLock (prov s') = sync.free /\ trace s' = trace s) /\
  (exists s', aws0.ListPodSandbox env lreq s = Blocked s' /\
              aws0.vmMapLock (prov s') = {| sync.locked := true |} /\
              trace s' = trace s /\
              forall id', exists s'', aws0.getPodData id' s' = Blocked s'').
Proof.
  intros id Hm Hl Hfree. split.
  - specialize (Hfree _ _ Hm).
    destruct s as [[m l c] t tr], d as [[i md an ca ip lb lx sl cl ps] v vs lc].
    cbn in *. subst l sl id.
    repeat (aws0_unfold; go; rewrite ?Hm; maps).
    eexists. split; [reflexivity|]. cbn. auto.
  - destruct (map_to_list (aws0.vmMap (prov s))) as [|[k d'] rest] eqn:Hlist.
    + apply map_to_list_empty_iff in Hlist. rewrite Hlist in Hm.
      rewrite lookup_empty in Hm. discriminate.
    + assert (Hk : aws0.vmMap (prov s) !! k = Some d').
      { apply elem_of_map_to_list. rewrite Hlist. apply list_elem_of_here. }
      specialize (Hfree _ _ Hk).
      destruct s as [[m l c] t tr], d' as [[i md an ca ip lb lx sl cl ps] v vs lc].
      cbn in *. subst l sl.
      unfold aws0.ListPodSandbox.
      repeat (aws0_unfold; go; rewrite ?Hlist; cbn [range fst snd]; go; rewrite ?Hk; maps).
      eexists. split; [reflexivity|]. cbn. repeat split. eauto.
Qed.

Lemma older_aws_witness :
  let d := scenario.aws_record kubeapi.PodSandBoxState_READY lvm.VMRunning 0 in
  let s := scenario.aws0_with d 0 in
  aws0.vmMap (prov s) !! "i-1" = Some d /\
  value_of (aws0.PodSandboxStatus scenario.env_ok scenario.the_sandbox s) = None /\
  value_of (aws0.ListPodSandbox scenario.env_ok (scenario.list_request None) s) = None /\
  (exists s', aws0.PodSandboxStatus scenario.env_ok scenario.the_sandbox s = Blocked s').
Proof.
  cbv zeta. split; [reflexivity|]. split; [reflexivity|]. split; [reflexivity|].
  assert (Hfree : forall k d',
            aws0.vmMap (prov (scenario.aws0_with
               (scenario.aws_record kubeapi.PodSandBoxState_READY lvm.VMRunning 0) 0)) !! k
              = Some d' ->
            common.StateLock (aws.PodData d') = sync.free).
  { intros k d' Hk. cbn in Hk. apply lookup_singleton_Some in Hk as [_ <-]. reflexivity. }
  destruct (older_aws_status_and_listing_wait_for_a_lock_they_hold scenario.env_ok
              scenario.the_sandbox (scenario.list_request None)
              (scenario.aws_record kubeapi.PodSandBoxState_READY lvm.VMRunning 0)
              (scenario.aws0_with (scenario.aws_record kubeapi.PodSandBoxState_READY
                                     lvm.VMRunning 0) 0)
              eq_refl eq_refl Hfree) as [(s' & Hout & _) _].
  exists s'. exact Hout.
Defined.

(** ** The listing of the virtualbox provider *)

Section VboxListing.
Context (env : Env) (f : option kubeapi.PodSandboxFilter.t).

(** The loop body queries the backend once and leaves the provider alone. *)
Lemma vbox_examine_run k d :
  exists r, forall s0 : virtualbox.St,
    virtualbox.examine env k d f s0 =
      Return r {| prov := prov s0;
                  now := now s0 + Z.of_N (elapsed env (GetState (virtualbox.Name_ (virtualbox.vm d))));
                  trace := trace s0 ++ [GetState (virtualbox.Name_ (virtualbox.vm d))] |}.
Proof.
  unfold virtualbox.examine. go.
  destruct (vm_GetState env _) as [st|]; [|eauto].
  destruct f as [flt|]; cbn;
    repeat match goal with |- context [if ?b then _ else _] => destruct b; cbn end; eauto.
Qed.

(** When the loop body shows a record, and what it shows. *)
Lemma vbox_examine_keeps k d item (s : virtualbox.St) :
  value_of (virtualbox.examine env k d f s) = Some (Some item) <->
  exists st, vm_GetState env (virtualbox.Name_ (virtualbox.vm d)) = Ok st /\
    let podState := if String.eqb st lvm.VMRunning
                    then common.PodState (virtualbox.PodData d)
                    else kubeapi.PodSandBoxState_NOTREADY in
    item = virtualbox.with_sandbox_State podState (common2.GetSandbox (virtualbox.PodData d)) /\
    match f with
    | None => True
    | Some f =>
        (kubeapi.PodSandboxFilter.GetId f = "" \/ kubeapi.PodSandboxFilter.GetId f = k) /\
        kubeapi.PodSandboxFilter.GetState f = podState /\
        (forall key filterVal,
           kubeapi.PodSandboxFilter.GetLabelSelector f !! key = Some filterVal ->
           common.Labels (virtualbox.PodData d) !! key = Some filterVal)
    end.
Proof.
  unfold virtualbox.examine. go.
  destruct (vm_GetState env _) as [st|err]; cbn.
  2:{ split; [discriminate|]. intros (st & [=] & _). }
  set (podState := if negb (String.eqb st lvm.VMRunning)
                   then kubeapi.PodSandBoxState_NOTREADY
                   else common.PodState (virtualbox.PodData d)).
  assert (Hps : (if String.eqb st lvm.VMRunning
                 then common.PodState (virtualbox.PodData d)
                 else kubeapi.PodSandBoxState_NOTREADY) = podState).
  { subst podState. destruct (String.eqb st lvm.VMRunning); reflexivity. }
  destruct f as [flt|].
  - unfold common2.FilterByLabels.
    destruct (String.eqb (kubeapi.PodSandboxFilter.GetId flt) "") eqn:E1;
    destruct (String.eqb (kubeapi.PodSandboxFilter.GetId flt) k) eqn:E2;
    destruct (kubeapi.PodSandBoxState_eqb (kubeapi.PodSandboxFilter.GetState flt) podState)
      eqn:E3; cbn;
    rewrite ?String.eqb_eq, ?String.eqb_neq in *;
    try apply PodSandBoxState_eqb_eq in E3;
    try (assert (kubeapi.PodSandboxFilter.GetState flt <> podState)
           by (intros HE; apply PodSandBoxState_eqb_eq in HE; congruence)).
    all: try (split; [discriminate|]; intros (st' & [= <-] & _ & Hc); rewrite Hps in Hc;
              destruct Hc as ([?|?] & ? & ?); tauto).
    all: destruct (fst (common.matchLabels (common.Labels (virtualbox.PodData d))
                          (map_to_list (kubeapi.PodSandboxFilter.GetLabelSelector flt))))
           eqn:Hml; cbn.
    all: try (split; [discriminate|]; intros (st' & [= <-] & _ & Hc); rewrite Hps in Hc;
              destruct Hc as (_ & _ & Hc);
              assert (Hk : fst (common.matchLabels (common.Labels (virtualbox.PodData d))
                          (map_to_list (kubeapi.PodSandboxFilter.GetLabelSelector flt))) = false)
                by (apply matchLabels_keeps_iff; intros key filterVal Hin;
                    apply Hc, elem_of_map_to_list, Hin);
              congruence).
    all: split;
      [intros [= <-]; exists st; split; [reflexivity|]; cbv zeta; rewrite Hps;
       split; [reflexivity|]; repeat split; auto;
       intros key filterVal Hl;
       apply (proj1 (matchLabels_keeps_iff _ _) Hml), elem_of_map_to_list, Hl
      |intros (st' & [= <-] & -> & _); rewrite Hps; reflexivity].
  - cbn. split.
    + intros [= <-]. exists st. rewrite Hps. auto.
    + intros (st' & [= <-] & -> & _). rewrite Hps. reflexivity.
Qed.


Lemma vbox_examine_value k d (s s0 : virtualbox.St) :
  value_of (virtualbox.examine env k d f s) = value_of (virtualbox.examine env k d f s0).
Proof. destruct (vbox_examine_run k d) as [r Hr]. now rewrite !Hr. Qed.

Lemma vbox_listing_loop (l : list (string * virtualbox.podData)) :
  forall acc (s : virtualbox.St),
  exists items s',
    range l
      (fun entry sandboxes =>
         bind (virtualbox.examine env (fst entry) (snd entry) f)
           (fun kept => match kept with
                        | Some sandbox => ret (sandboxes ++ [sandbox])%list
                        | None => ret sandboxes
                        end)) acc s
      = Return (acc ++ items)%list s' /\
    prov s' = prov s /\
    trace s' = (trace s ++
                ((fun entry => GetState (virtualbox.Name_ (virtualbox.vm (snd entry)))) <$> l))%list /\
    (length items <= length l)%nat /\
    (forall item, item ∈ items <->
       exists k d, (k, d) ∈ l /\
                   value_of (virtualbox.examine env k d f s) = Some (Some item)).
Proof.
  induction l as [|[k d] l IH]; intros acc s.
  - exists [], s. cbn. rewrite !app_nil_r. repeat split; auto.
    + intros Hin. inversion Hin.
    + intros (k & d & Hin & _). inversion Hin.
  - cbn [range]. unfold bind at 1. unfold bind at 1. cbn [fst snd].
    destruct (vbox_examine_run k d) as [r Hr]. rewrite Hr.
    set (s1 := {| prov := prov s; now := _; trace := _ |}).
    assert (Hv : forall item, r = Some item <->
                   value_of (virtualbox.examine env k d f s) = Some (Some item)).
    { intros item. rewrite Hr. cbn. split; congruence. }
    destruct r as [sandbox|].
    + destruct (IH (acc ++ [sandbox])%list s1) as (items & s' & Hrun & Hp & Htr & Hlen & Hit).
      exists (sandbox :: items), s'. unfold ret at 1. rewrite Hrun, <- app_assoc.
      split; [reflexivity|]. split; [exact Hp|]. split; [|split].
      * rewrite Htr. subst s1. cbn. now rewrite <- app_assoc.
      * cbn. lia.
      * intros item. rewrite elem_of_cons, Hit. split.
        -- intros [->|(k0 & d0 & Hin & Hval)].
           ++ exists k, d. split; [now left|]. now apply Hv.
           ++ exists k0, d0. split; [now right|].
              now rewrite (vbox_examine_value k0 d0 s s1).
        -- intros (k0 & d0 & Hin & Hval). apply elem_of_cons in Hin as [[= -> ->]|Hin].
           ++ left. apply Hv in Hval. congruence.
           ++ right. exists k0, d0. split; [exact Hin|].
              now rewrite (vbox_examine_value k0 d0 s1 s).
    + destruct (IH acc s1) as (items & s' & Hrun & Hp & Htr & Hlen & Hit).
      exists items, s'. unfold ret at 1. rewrite Hrun.
      split; [reflexivity|]. split; [exact Hp|]. split; [|split].
      * rewrite Htr. subst s1. cbn. now rewrite <- app_assoc.
      * cbn. lia.
      * intros item. rewrite Hit. split.
        -- intros (k0 & d0 & Hin & Hval). exists k0, d0. split; [now right|].
           now rewrite (vbox_examine_value k0 d0 s s1).
        -- intros (k0 & d0 & Hin & Hval). apply elem_of_cons in Hin as [[= -> ->]|Hin].
           ++ apply Hv in Hval. discriminate.
           ++ exists k0, d0. split; [exact Hin|].
              now rewrite (vbox_examine_value k0 d0 s1 s).
Qed.

End VboxListing.

(** X10.  [ListPodSandbox] of the virtualbox provider returns without an
    error and leaves the provider as it was; it asks the backend for the
    state of every machine of the directory, once each, in the order of
    the loop.  An item is listed exactly when it comes from a record
    whose state query succeeded (a record whose query fails is left out
    without an error) and that passes the filter, where the state shown
    and filtered on is [NOTREADY] when the machine is not running and
    the state of the record otherwise; that state is not written back. *)
Theorem virtualbox_listing_queries_every_machine_and_stores_nothing
    env req (s : virtualbox.St) :
  let f := kubeapi.ListPodSandboxRequest.Filter req in
  virtualbox.vmMapLock (prov s) = sync.free ->
  exists items s',
    virtualbox.ListPodSandbox env req s
      = Return (Ok {| kubeapi.ListPodSandboxResponse.Items := items |}) s' /\
    prov s' = prov s /\
    trace s' = (trace s ++
                ((fun entry => GetState (virtualbox.Name_ (virtualbox.vm (snd entry))))
                   <$> map_to_list (virtualbox.vmMap (prov s))))%list /\
    (length items <= size (virtualbox.vmMap (prov s)))%nat /\
    (forall item, item ∈ items <->
       exists k d st,
         virtualbox.vmMap (prov s) !! k = Some d /\
         vm_GetState env (virtualbox.Name_ (virtualbox.vm d)) = Ok st /\
         let podState := if String.eqb st lvm.VMRunning
                         then common.PodState (virtualbox.PodData d)
                         else kubeapi.PodSandBoxState_NOTREADY in
         item = virtualbox.with_sandbox_State podState
                  (common2.GetSandbox (virtualbox.PodData d)) /\
         match f with
         | None => True
         | Some f =>
             (kubeapi.PodSandboxFilter.GetId f = "" \/ kubeapi.PodSandboxFilter.GetId f = k) /\
             kubeapi.PodSandboxFilter.GetState f = podState /\
             (forall key filterVal,
                kubeapi.PodSandboxFilter.GetLabelSelector f !! key = Some filterVal ->
                common.Labels (virtualbox.PodData d) !! key = Some filterVal)
         end).
Proof.
  intros f Hl.
  destruct s as [[nd src m l] t tr]; cbn in *; subst l.
  set (s0 := {| prov := {| virtualbox.netDevice := nd; virtualbox.vmSrc := src;
                           virtualbox.vmMap := m;
                           virtualbox.vmMapLock := {| sync.locked := true |} |};
                now := t; trace := tr |} : virtualbox.St).
  destruct (vbox_listing_loop env f (map_to_list m) [] s0)
    as (items & s' & Hrun & Hp & Htr & Hlen & Hit).
  destruct s' as [p' t' tr']; cbn in Hp, Htr; subst p' tr'.
  exists items.
  exists {| prov := {| virtualbox.netDevice := nd; virtualbox.vmSrc := src;
                       virtualbox.vmMap := m; virtualbox.vmMapLock := sync.free |};
            now := t';
            trace := tr ++ ((fun entry => GetState (virtualbox.Name_ (virtualbox.vm (snd entry))))
                              <$> map_to_list m) |}.
  split.
  { unfold virtualbox.ListPodSandbox.
    rewrite (bind_Return _ _ _ tt s0) by reflexivity.
    eapply defer_Return.
    - rewrite (bind_Return _ _ _ (prov s0) s0) by reflexivity.
      cbn [prov virtualbox.vmMap s0]. fold f.
      erewrite bind_Return by exact Hrun. reflexivity.
    - reflexivity. }
  split; [reflexivity|]. split; [reflexivity|]. split.
  { now rewrite length_map_to_list in Hlen. }
  intros item. rewrite Hit. split.
  - intros (k & d & Hin & Hval). apply elem_of_map_to_list in Hin.
    apply vbox_examine_keeps in Hval as (st & Hst & Hitem & Hsel).
    exists k, d, st. auto.
  - intros (k & d & st & Hin & Hst & Hitem & Hsel).
    exists k, d. split; [now apply elem_of_map_to_list|].
    apply vbox_examine_keeps. exists st. auto.
Qed.

(** The machine of ["i-1"] is halted: the listing shows it as
    [NOTREADY] after one query, and the record is still [READY]. *)
Lemma virtualbox_listing_witness :
  let s := scenario.vbox_with (scenario.vbox_record kubeapi.PodSandBoxState_READY) 0 in
  let out := virtualbox.ListPodSandbox scenario.env_halted (scenario.list_request None) s in
  virtualbox.vmMapLock (prov s) = sync.free /\
  prov (state_of out) = prov s /\
  trace (state_of out) = [GetState "i-1"] /\
  (kubeapi.PodSandbox.State <$>
     (value_of out ≫= fun r => match r with
                               | Ok resp => Some (kubeapi.ListPodSandboxResponse.Items resp)
                               | Err _ => None
                               end ≫= head))
    = Some (Some kubeapi.PodSandBoxState_NOTREADY).
Proof.
  cbv zeta. split; [reflexivity|].
  split; [|split; [|reflexivity]].
  - destruct (virtualbox_listing_queries_every_machine_and_stores_nothing scenario.env_halted
                (scenario.list_request None)
                (scenario.vbox_with (scenario.vbox_record kubeapi.PodSandBoxState_READY) 0)
                eq_refl) as (items & s' & Hrun & Hp & _).
    rewrite Hrun. exact Hp.
  - reflexivity.
Defined.

(** ** A sandbox from its creation to its removal *)

Section Life.
Context (env : Env).

(** The record that a successful [RunPodSandbox] of aws.go leaves in the directory. *)
Lemma aws_Run_registered req resp (s s' : aws.St) :
  aws.vmMapLock (prov s) = sync.rwfree ->
  aws.RunPodSandbox env req s = Return (Ok resp) s' ->
  exists cfg m ip c rec,
    kubeapi.RunPodSandboxRequest.Config req = Some cfg /\
    common_CreateClient env ip = Ok (Some c) /\
    resp = {| kubeapi.RunPodSandboxResponse.PodSandboxId := Some m |} /\
    prov s' = aws.set_vmMap (<[m := rec]> (aws.vmMap (prov s))) (prov s) /\
    common.Id (aws.PodData rec) = m /\
    common.Ip (aws.PodData rec) = ip /\
    common.Client (aws.PodData rec) = Some c /\
    common.Labels (aws.PodData rec) = kubeapi.PodSandboxConfig.Labels cfg /\
    common.Linux (aws.PodData rec) = kubeapi.PodSandboxConfig.Linux cfg /\
    common.PodState (aws.PodData rec) = kubeapi.PodSandBoxState_READY /\
    common.StateLock (aws.PodData rec) = sync.free /\
    aws.InstanceID (aws.vm rec) = m /\
    aws.vmState rec = lvm.VMRunning /\
    now s' = aws.vmStateLastChecked rec + Z.of_N (elapsed env (Insert m)).
Proof.
  destruct s as [[m l c] t tr]; cbn; intros ->.
  unfold aws.RunPodSandbox, aws.vmMapLock_Lock, aws.vmMapLock_Unlock. go.
  destruct (ioutil_ReadFile env _) as [raw|e] eqn:Hraw; [|discriminate].
  destruct (kubeapi.RunPodSandboxRequest.Config req) as [cfg|] eqn:Hcfg; [|discriminate].
  go. destruct (vm_Provision env _) as [iid|e] eqn:Hprov; [|discriminate].
  go. destruct (vm_GetIPs env _) as [ips|e] eqn:Hips; [|discriminate].
  destruct ips as [|ip ips]; [discriminate|].
  go. destruct (common_CreateClient env _) as [[cl|]|e] eqn:Hcl; [| discriminate | discriminate].
  go. intros [= <- <-]. eexists cfg, iid, ip, cl, _.
  repeat (split; [reflexivity || eassumption|]). reflexivity.
Qed.

End Life.

(** X11.  After a successful [RunPodSandbox] of aws.go the id handed
    back is in the directory: [GetClient] for it returns the client that
    the factory made, every other entry is as before, and a status query
    within 30 seconds of the creation (when the request carried a Linux
    configuration) changes nothing, asks the backend nothing, and
    reports the sandbox as [READY] with the address and the labels of
    the creation. *)
Theorem a_created_sandbox_is_found_and_reported_ready env req resp (s s' : aws.St) :
  aws.vmMapLock (prov s) = sync.rwfree ->
  aws.RunPodSandbox env req s = Return (Ok resp) s' ->
  exists cfg m ip c,
    kubeapi.RunPodSandboxRequest.Config req = Some cfg /\
    resp = {| kubeapi.RunPodSandboxResponse.PodSandboxId := Some m |} /\
    common_CreateClient env ip = Ok (Some c) /\
    aws.GetClient m s' = Return (Ok (Some c)) s' /\
    (forall k, k <> m -> aws.vmMap (prov s') !! k = aws.vmMap (prov s) !! k) /\
    (forall env' dt lx,
       kubeapi.PodSandboxConfig.Linux cfg = Some lx ->
       Z.of_N (elapsed env (Insert m)) + Z.of_N dt <= 30 * time_Second ->
       exists status,
         aws.PodSandboxStatus env'
           {| kubeapi.PodSandboxIdRequest.PodSandboxId := Some m |} (later dt s')
           = Return (Ok {| kubeapi.PodSandboxStatusResponse.Status := Some status |})
               (later dt s') /\
         kubeapi.PodSandboxStatus.Id status = Some m /\
         kubeapi.PodSandboxStatus.State status = Some kubeapi.PodSandBoxState_READY /\
         kubeapi.PodSandboxStatus.Network status
           = Some {| kubeapi.PodSandboxNetworkStatus.Ip := Some ip |} /\
         kubeapi.PodSandboxStatus.Labels status = kubeapi.PodSandboxConfig.Labels cfg).
Proof.
  intros Hl Hrun.
  destruct (aws_Run_registered env req resp s s' Hl Hrun)
    as (cfg & m & ip & c & rec & Hcfg & Hcl & Hresp & Hprov & Hid & Hip & Hc & Hlb & Hlx
        & Hps & Hsl & Hiid & Hvs & Hnow).
  assert (Hm : aws.vmMap (prov s') !! m = Some rec).
  { rewrite Hprov. cbn. apply lookup_insert_eq. }
  assert (Hl' : aws.vmMapLock (prov s') = sync.rwfree) by (rewrite Hprov; exact Hl).
  exists cfg, m, ip, c. repeat (split; [assumption|]). split; [|split].
  - rewrite (aws_GetClient_present m rec s' Hm Hl'), Hc. reflexivity.
  - intros k Hk. rewrite Hprov. cbn. now apply lookup_insert_ne.
  - intros env' dt lx Hlinux Hdt.
    rewrite (aws_Status_run env' {| kubeapi.PodSandboxIdRequest.PodSandboxId := Some m |}
               rec (later dt s') Hm Hl' Hsl).
    cbv zeta.
    assert (Hfresh : record.stale (now (later dt s')) rec = false).
    { unfold record.stale, Time_After, Time_Add. cbn. apply Z.ltb_ge. lia. }
    assert (Hrec : record.downgraded (record.refreshed env' (now (later dt s')) rec) = rec).
    { unfold record.refreshed. rewrite Hfresh. unfold record.downgraded. rewrite Hvs.
      reflexivity. }
    assert (Hex : record.examined env'
                    (kubeapi.PodSandboxIdRequest.GetPodSandboxId
                       {| kubeapi.PodSandboxIdRequest.PodSandboxId := Some m |})
                    rec (later dt s') = later dt s').
    { unfold record.examined. rewrite Hfresh, Hrec.
      change (kubeapi.PodSandboxIdRequest.GetPodSandboxId
                {| kubeapi.PodSandboxIdRequest.PodSandboxId := Some m |}) with m.
      rewrite (aws_store_same m rec (prov (later dt s')) Hm).
      destruct s' as [p t tr]; reflexivity. }
    rewrite Hrec, Hex. unfold common.PodStatus. rewrite Hlx, Hlinux. cbn.
    eexists. split; [reflexivity|]. cbn. rewrite Hid, Hps, Hip, Hlb. auto.
Qed.

(** ["i-1"] is created in an empty directory; five ticks later a status
    query reports it [READY] although the backend would say halted. *)
Lemma created_sandbox_witness :
  aws.vmMapLock (prov scenario.aws_empty) = sync.rwfree /\
  aws.RunPodSandbox scenario.env_ok scenario.run_web scenario.aws_empty
    = Return (Ok {| kubeapi.RunPodSandboxResponse.PodSandboxId := Some "i-1" |})
        cases.created /\
  aws.GetClient "i-1" cases.created = Return (Ok (Some 7%nat)) cases.created /\
  exists status,
    aws.PodSandboxStatus scenario.env_halted (cases.sandbox "i-1") (later 5 cases.created)
      = Return (Ok {| kubeapi.PodSandboxStatusResponse.Status := Some status |})
          (later 5 cases.created) /\
    kubeapi.PodSandboxStatus.State status = Some kubeapi.PodSandBoxState_READY.
Proof.
  split; [reflexivity|]. split; [reflexivity|].
  destruct (a_created_sandbox_is_found_and_reported_ready scenario.env_ok scenario.run_web
              {| kubeapi.RunPodSandboxResponse.PodSandboxId := Some "i-1" |}
              scenario.aws_empty cases.created eq_refl eq_refl)
    as (cfg & m & ip & c & Hcfg & Hresp & Hcl & Hget & _ & Hstatus).
  injection Hresp as <-. injection Hcl as <-. injection Hcfg as <-.
  split; [exact Hget|].
  destruct (Hstatus scenario.env_halted 5%N _ eq_refl) as (status & Hrun & _ & Hstate & _).
  { vm_compute. discriminate. }
  exists status. split; [exact Hrun | exact Hstate].
Defined.

(** X12.  Removing a sandbox that [RunPodSandbox] of aws.go has just
    created destroys the machine that was provisioned for it, closes the
    client that was made for it and deletes its entry: the directory is
    the one before the creation without that id, and the provider is
    exactly as before when the id was new.  When the backend refuses to
    destroy the machine, the provider stays as the creation left it. *)
Theorem removing_a_created_sandbox_restores_the_directory
    env env' req resp (s s' : aws.St) :
  aws.vmMapLock (prov s) = sync.rwfree ->
  aws.RunPodSandbox env req s = Return (Ok resp) s' ->
  exists m ip c,
    resp = {| kubeapi.RunPodSandboxResponse.PodSandboxId := Some m |} /\
    common_CreateClient env ip = Ok (Some c) /\
    let removal := aws.RemovePodSandbox env'
                     {| kubeapi.PodSandboxIdRequest.PodSandboxId := Some m |} s' in
    (vm_Destroy env' m = None ->
       value_of removal = Some (Ok kubeapi.mkRemovePodSandboxResponse) /\
       trace (state_of removal) = (trace s' ++ [Destroy m; Close (Some c); Delete m])%list /\
       aws.vmMap (prov (state_of removal)) = delete m (aws.vmMap (prov s)) /\
       (aws.vmMap (prov s) !! m = None -> prov (state_of removal) = prov s)) /\
    (forall err, vm_Destroy env' m = Some err ->
       value_of removal = Some (Err ("RemovePodSandbox: " ++ err)) /\
       prov (state_of removal) = prov s').
Proof.
  intros Hl Hrun.
  destruct (aws_Run_registered env req resp s s' Hl Hrun)
    as (cfg & m & ip & c & rec & Hcfg & Hcl & Hresp & Hprov & Hid & Hip & Hc & Hlb & Hlx
        & Hps & Hsl & Hiid & Hvs & Hnow).
  assert (Hm : aws.vmMap (prov s') !! m = Some rec).
  { rewrite Hprov. cbn. apply lookup_insert_eq. }
  assert (Hl' : aws.vmMapLock (prov s') = sync.rwfree) by (rewrite Hprov; exact Hl).
  exists m, ip, c. split; [exact Hresp|]. split; [exact Hcl|]. cbv zeta.
  rewrite (aws_Remove_run env' {| kubeapi.PodSandboxIdRequest.PodSandboxId := Some m |}
             rec s' Hm Hl' Hsl).
  cbv zeta. rewrite Hiid, Hc.
  change (kubeapi.PodSandboxIdRequest.GetPodSandboxId
            {| kubeapi.PodSandboxIdRequest.PodSandboxId := Some m |}) with m.
  split.
  - intros ->. cbn. rewrite Hprov. cbn. rewrite delete_insert_eq.
    repeat split; try reflexivity.
    intros Hfresh. destruct s as [[mp l cf] t tr]; cbn in *.
    unfold aws.set_vmMap; cbn. now rewrite delete_id.
  - intros err ->. cbn. auto.
Qed.

Lemma create_then_remove_witness :
  aws.vmMapLock (prov scenario.aws_empty) = sync.rwfree /\
  aws.RunPodSandbox scenario.env_ok scenario.run_web scenario.aws_empty
    = Return (Ok {| kubeapi.RunPodSandboxResponse.PodSandboxId := Some "i-1" |})
        cases.created /\
  prov (state_of (aws.RemovePodSandbox scenario.env_ok (cases.sandbox "i-1") cases.created))
    = prov scenario.aws_empty.
Proof.
  split; [reflexivity|]. split; [reflexivity|].
  destruct (removing_a_created_sandbox_restores_the_directory scenario.env_ok scenario.env_ok
              scenario.run_web
              {| kubeapi.RunPodSandboxResponse.PodSandboxId := Some "i-1" |}
              scenario.aws_empty cases.created eq_refl eq_refl)
    as (m & ip & c & Hresp & _ & Hremoved & _).
  injection Hresp as <-.
  destruct (Hremoved eq_refl) as (_ & _ & _ & Hback).
  exact (Hback eq_refl).
Defined.

(** X13.  [RunPodSandbox] of aws.go accepts a request without a Linux
    configuration, but [PodStatus] reads [p.Linux.NamespaceOptions]:
    every later status query for that sandbox panics with a nil
    dereference.  The deferred unlocks run: the directory lock and the
    lock of the record are free after the panic. *)
Theorem status_of_a_sandbox_created_without_linux_config_panics
    env env' req resp dt (s s' : aws.St) :
  aws.vmMapLock (prov s) = sync.rwfree ->
  aws.RunPodSandbox env req s = Return (Ok resp) s' ->
  (kubeapi.RunPodSandboxRequest.Config req ≫= kubeapi.PodSandboxConfig.Linux) = None ->
  exists m s'',
    resp = {| kubeapi.RunPodSandboxResponse.PodSandboxId := Some m |} /\
    aws.PodSandboxStatus env' {| kubeapi.PodSandboxIdRequest.PodSandboxId := Some m |}
      (later dt s') = Panic nil_dereference s'' /\
    aws.vmMapLock (prov s'') = sync.rwfree /\
    (exists rec, aws.vmMap (prov s'') !! m = Some rec /\
                 common.StateLock (aws.PodData rec) = sync.free).
Proof.
  intros Hl Hrun Hnolinux.
  destruct (aws_Run_registered env req resp s s' Hl Hrun)
    as (cfg & m & ip & c & rec & Hcfg & Hcl & Hresp & Hprov & Hid & Hip & Hc & Hlb & Hlx
        & Hps & Hsl & Hiid & Hvs & Hnow).
  rewrite Hcfg in Hnolinux. cbn in Hnolinux. rewrite Hnolinux in Hlx.
  assert (Hm : aws.vmMap (prov (later dt s')) !! m = Some rec).
  { change (prov (later dt s')) with (prov s'). rewrite Hprov. cbn. apply lookup_insert_eq. }
  assert (Hl' : aws.vmMapLock (prov (later dt s')) = sync.rwfree).
  { change (prov (later dt s')) with (prov s'). rewrite Hprov. exact Hl. }
  exists m, (record.examined env' m rec (later dt s')).
  split; [exact Hresp|].
  destruct (examined_record_fields env' (now (later dt s')) rec) as (Hid' & Hx' & _ & Hsl' & _).
  cbv zeta in Hid', Hx', Hsl'.
  split; [|split].
  - rewrite (aws_Status_run env' {| kubeapi.PodSandboxIdRequest.PodSandboxId := Some m |}
               rec (later dt s') Hm Hl' Hsl). cbv zeta.
    unfold common.PodStatus. rewrite Hx', Hlx. reflexivity.
  - exact Hl'.
  - eexists. split; [apply lookup_insert_eq|]. rewrite Hsl'. exact Hsl.
Qed.

Lemma status_without_linux_witness :
  let req := {| kubeapi.RunPodSandboxRequest.Config :=
                  Some {| kubeapi.PodSandboxConfig.Metadata := None;
                          kubeapi.PodSandboxConfig.Labels := ∅;
                          kubeapi.PodSandboxConfig.Annotations := ∅;
                          kubeapi.PodSandboxConfig.Linux := None |} |} in
  let run := aws.RunPodSandbox scenario.env_ok req scenario.aws_empty in
  aws.vmMapLock (prov scenario.aws_empty) = sync.rwfree /\
  value_of run = Some (Ok {| kubeapi.RunPodSandboxResponse.PodSandboxId := Some "i-1" |}) /\
  exists s'', aws.PodSandboxStatus scenario.env_ok (cases.sandbox "i-1")
                (later 0 (state_of run)) = Panic nil_dereference s''.
Proof.
  cbv zeta. split; [reflexivity|]. split; [reflexivity|].
  destruct (status_of_a_sandbox_created_without_linux_config_panics
              scenario.env_ok scenario.env_ok
              {| kubeapi.RunPodSandboxRequest.Config :=
                   Some {| kubeapi.PodSandboxConfig.Metadata := None;
                           kubeapi.PodSandboxConfig.Labels := ∅;
                           kubeapi.PodSandboxConfig.Annotations := ∅;
                           kubeapi.PodSandboxConfig.Linux := None |} |}
              {| kubeapi.RunPodSandboxResponse.PodSandboxId := Some "i-1" |} 0%N
              scenario.aws_empty _ eq_refl eq_refl eq_refl)
    as (m & s'' & Hresp & Hpanic & _).
  injection Hresp as <-. exists s''. exact Hpanic.
Defined.

(** X14.  [RunPodSandbox] indexes the address list without looking at
    its length: when the backend provisions a machine and reports no
    address for it, the call panics (in aws.go and in virtualbox.go).
    Nothing is registered, and the trace ends with the address query:
    the machine that was provisioned is not destroyed. *)
Theorem an_empty_address_list_panics_and_leaves_the_machine
    env req cfg raw ma mv (sa : aws.St) (sv : virtualbox.St) :
  let key := aws.SshKey (aws.config (prov sa)) in
  let src := virtualbox.vmSrc (prov sv) in
  let outa := aws.RunPodSandbox env req sa in
  let outv := virtualbox.RunPodSandbox env req sv in
  kubeapi.RunPodSandboxRequest.Config req = Some cfg ->
  ioutil_ReadFile env key = Ok raw ->
  (vm_Provision env (aws.awsName cfg) = Ok ma -> vm_GetIPs env ma = Ok [] ->
     exists s', outa = Panic "runtime error: index out of range" s' /\
                prov s' = prov sa /\
                trace s' = (trace sa ++ [ReadFile key; Provision (aws.awsName cfg);
                                         GetIPs ma])%list) /\
  (vm_Provision env src = Ok mv -> vm_GetIPs env mv = Ok [] ->
     exists s', outv = Panic "runtime error: index out of range" s' /\
                prov s' = prov sv /\
                trace s' = (trace sv ++ [Provision src; GetIPs mv])%list).
Proof.
  intros key src outa outv Hcfg Hraw. split.
  - intros Hp Hi. subst outa key.
    destruct sa as [[mp l c] t tr]; cbn in *.
    unfold aws.RunPodSandbox. go. rewrite Hraw, Hcfg. go. rewrite Hp. go. rewrite Hi. go.
    eexists. split; [reflexivity|]. cbn. split; [reflexivity|].
    now rewrite <- !app_assoc.
  - intros Hp Hi. subst outv src.
    destruct sv as [[nd sr mp l] t tr]; cbn in *.
    unfold virtualbox.RunPodSandbox. go. rewrite Hp. go. rewrite Hi. go.
    eexists. split; [reflexivity|]. cbn. split; [reflexivity|].
    now rewrite <- !app_assoc.
Qed.

Lemma empty_address_list_witness :
  let outa := aws.RunPodSandbox cases.env_no_address scenario.run_web scenario.aws_empty in
  let outv := virtualbox.RunPodSandbox cases.env_no_address scenario.run_web
                scenario.vbox_empty in
  kubeapi.RunPodSandboxRequest.Config scenario.run_web = Some scenario.web_config /\
  (exists s', outa = Panic "runtime error: index out of range" s' /\
              trace s' = [ReadFile "id.pem"; Provision "default:web"; GetIPs "i-1"]) /\
  (exists s', outv = Panic "runtime error: index out of range" s' /\
              trace s' = [Provision "box.ova"; GetIPs "i-1"]).
Proof.
  cbv zeta. split; [reflexivity|].
  destruct (an_empty_address_list_panics_and_leaves_the_machine cases.env_no_address
              scenario.run_web scenario.web_config "key" "i-1" "i-1"
              scenario.aws_empty scenario.vbox_empty eq_refl eq_refl) as [Ha Hv].
  split.
  - destruct (Ha eq_refl eq_refl) as (s' & Hout & _ & Htr). exists s'. split; assumption.
  - destruct (Hv eq_refl eq_refl) as (s' & Hout & _ & Htr). exists s'. split; assumption.
Defined.

(** [GetClient] and [GetIP] of virtualbox.go on a sandbox of the directory. *)
Lemma vbox_lookup_present id d (s : virtualbox.St) :
  virtualbox.vmMap (prov s) !! id = Some d ->
  virtualbox.vmMapLock (prov s) = sync.free ->
  virtualbox.GetClient id s = Return (Ok (common.Client (virtualbox.PodData d))) s /\
  virtualbox.GetIP id s = Return (Ok (common.Ip (virtualbox.PodData d))) s.
Proof.
  destruct s as [[nd src m l] t tr]; cbn; intros Hm ->.
  unfold virtualbox.GetClient, virtualbox.GetIP. vbox_unfold.
  repeat (go; rewrite ?Hm). split; reflexivity.
Qed.

(** X15.  Unlike aws.go, [RunPodSandbox] of virtualbox.go does not test
    the client for nil: when the factory reports no error and hands back
    no client, the sandbox is registered all the same, and [GetClient]
    for it answers with a nil client and no error ([GetIP] with the
    address). *)
Theorem virtualbox_registers_a_sandbox_without_a_client
    env req cfg m ip ips (s : virtualbox.St) :
  virtualbox.vmMapLock (prov s) = sync.free ->
  kubeapi.RunPodSandboxRequest.Config req = Some cfg ->
  vm_Provision env (virtualbox.vmSrc (prov s)) = Ok m ->
  vm_GetIPs env m = Ok (ip :: ips) ->
  common_CreateClient env ip = Ok None ->
  exists s',
    virtualbox.RunPodSandbox env req s
      = Return (Ok {| kubeapi.RunPodSandboxResponse.PodSandboxId := Some m |}) s' /\
    trace s' = (trace s ++ [Provision (virtualbox.vmSrc (prov s)); GetIPs m;
                            CreateClient ip; Insert m])%list /\
    virtualbox.GetClient m s' = Return (Ok None) s' /\
    virtualbox.GetIP m s' = Return (Ok ip) s'.
Proof.
  intros Hl Hcfg Hp Hi Hc.
  pose proof (vbox_Run_outcome env req s Hl) as Hout. cbv zeta in Hout.
  assert (Hrun : exists resp s', virtualbox.RunPodSandbox env req s = Return (Ok resp) s').
  { destruct s as [[nd src mp l] t tr]; cbn in *. subst l.
    unfold virtualbox.RunPodSandbox, virtualbox.vmMapLock_Lock, virtualbox.vmMapLock_Unlock.
    go. rewrite Hp. go. rewrite Hi. go. rewrite Hc. go. rewrite Hcfg. go. eauto. }
  destruct Hrun as (resp & s' & Hrun). rewrite Hrun in Hout.
  destruct Hout as (cfg' & m' & ip' & ips' & c' & rec & Hcfg' & Hp' & Hi' & Hc' & Hresp
                    & Hmap & Hlock & Hid & Hip & Hcl & _ & _ & Htr).
  rewrite Hp in Hp'. injection Hp' as <-.
  rewrite Hi in Hi'. injection Hi' as <- <-.
  rewrite Hc in Hc'. injection Hc' as <-.
  exists s'. rewrite Hrun, Hresp. split; [reflexivity|]. split; [exact Htr|].
  assert (Hm : virtualbox.vmMap (prov s') !! m = Some rec).
  { rewrite Hmap. apply lookup_insert_eq. }
  destruct (vbox_lookup_present m rec s' Hm Hlock) as [Hgc Hgi].
  rewrite Hgc, Hgi, Hcl, Hip. auto.
Qed.

Lemma virtualbox_no_client_witness :
  let out := virtualbox.RunPodSandbox scenario.env_nil_client scenario.run_web
               scenario.vbox_empty in
  virtualbox.vmMapLock (prov scenario.vbox_empty) = sync.free /\
  value_of out = Some (Ok {| kubeapi.RunPodSandboxResponse.PodSandboxId := Some "i-1" |}) /\
  virtualbox.GetClient "i-1" (state_of out) = Return (Ok None) (state_of out).
Proof.
  cbv zeta. split; [reflexivity|].
  destruct (virtualbox_registers_a_sandbox_without_a_client scenario.env_nil_client
              scenario.run_web scenario.web_config "i-1" "10.0.0.1" []
              scenario.vbox_empty eq_refl eq_refl eq_refl eq_refl eq_refl)
    as (s' & Hrun & _ & Hgc & _).
  rewrite Hrun. cbn [value_of state_of]. split; [reflexivity | exact Hgc].
Defined.

(** ** What a listing and a status query leave behind *)

(** X16.  [ListPodSandbox] of aws.go, on a provider whose locks are
    free, returns without an error and leaves exactly the state that
    examining the entries of the directory one after the other leaves
    (directory, clock and trace), with the locks free again and the ids
    of the directory as they were.  Every record is examined once, at
    the time the clock shows when the loop reaches it: it is left with
    the answer of the backend as its sample when the cached sample was
    older than 30 seconds at that time and the query succeeded, with the
    cached sample otherwise, and [NOTREADY] when that sample is not
    "running".  The items are, in the order of the loop, the sandboxes
    of the records left behind that [Filter] keeps. *)
Theorem aws_listing_examines_every_record_and_shows_the_kept_ones env req (s : aws.St) :
  let f := kubeapi.ListPodSandboxRequest.Filter req in
  let entries := map_to_list (aws.vmMap (prov s)) in
  let s' := listing.examined_all env entries s in
  let items := omap (listing.shown f s') entries in
  aws.vmMapLock (prov s) = sync.rwfree ->
  (forall k d, aws.vmMap (prov s) !! k = Some d ->
     common.StateLock (aws.PodData d) = sync.free) ->
  aws.ListPodSandbox env req s
    = Return (Ok {| kubeapi.ListPodSandboxResponse.Items := items |}) s' /\
  aws.vmMapLock (prov s') = sync.rwfree /\
  aws.config (prov s') = aws.config (prov s) /\
  (forall k, aws.vmMap (prov s') !! k = None <-> aws.vmMap (prov s) !! k = None) /\
  (forall k d, aws.vmMap (prov s) !! k = Some d ->
     exists before after d',
       entries = (before ++ (k, d) :: after)%list /\
       let t := now (listing.examined_all env before s) in
       let seen :=
         if Time_After t (Time_Add (aws.vmStateLastChecked d) (30 * time_Second))
         then match vm_GetState env (aws.InstanceID (aws.vm d)) with
              | Ok st => st
              | Err _ => aws.vmState d
              end
         else aws.vmState d in
       now s <= t <= now s' /\
       aws.vmMap (prov s') !! k = Some d' /\
       d' = record.downgraded (record.refreshed env t d) /\
       aws.vmState d' = seen /\
       common.PodState (aws.PodData d')
         = (if String.eqb seen lvm.VMRunning
            then common.PodState (aws.PodData d)
            else kubeapi.PodSandBoxState_NOTREADY) /\
       common.StateLock (aws.PodData d') = sync.free) /\
  (forall item, item ∈ items <->
     exists k d', aws.vmMap (prov s') !! k = Some d' /\
                  fst (common.Filter (aws.PodData d') f) = false /\
                  item = common.GetSandbox (aws.PodData d')).
Proof.
  intros f entries s' items Hl Hfree.
  assert (Hrecord : forall k d, aws.vmMap (prov s) !! k = Some d ->
            exists before after,
              entries = (before ++ (k, d) :: after)%list /\
              now s <= now (listing.examined_all env before s) <= now s' /\
              aws.vmMap (prov s') !! k
                = Some (record.downgraded
                          (record.refreshed env (now (listing.examined_all env before s)) d))).
  { intros k d Hk.
    assert (Hin : (k, d) ∈ entries) by (apply elem_of_map_to_list, Hk).
    apply list_elem_of_split in Hin as (before & after & Hsplit).
    exists before, after. split; [exact Hsplit|].
    pose proof (NoDup_fst_map_to_list (aws.vmMap (prov s))) as Hnd.
    fold entries in Hnd. rewrite Hsplit, fmap_app, fmap_cons in Hnd.
    apply NoDup_app in Hnd as (_ & _ & Hnd). apply NoDup_cons in Hnd as [Hafter _].
    subst s'. rewrite Hsplit, examined_all_app.
    set (sb := listing.examined_all env before s).
    change (listing.examined_all env ((k, d) :: after) sb)
      with (listing.examined_all env after (record.examined env k d sb)).
    destruct (examined_all_keeps env after (record.examined env k d sb)) as (_ & _ & Hout).
    split.
    - split; [apply examined_all_now|].
      etransitivity; [apply (examined_now env k d sb)|]. apply examined_all_now.
    - rewrite (Hout k Hafter). cbn. apply lookup_insert_eq. }
  assert (Hkeys : forall k, aws.vmMap (prov s') !! k = None <-> aws.vmMap (prov s) !! k = None).
  { intros k. destruct (aws.vmMap (prov s) !! k) as [d|] eqn:Hk.
    - destruct (Hrecord k d Hk) as (before & after & _ & _ & Hk'). rewrite Hk'.
      split; discriminate.
    - split; [reflexivity|]. intros _.
      destruct (examined_all_keeps env entries s) as (_ & _ & Hout). fold s' in Hout.
      rewrite Hout; [exact Hk|].
      intros Hin. apply list_elem_of_fmap in Hin as ([k0 d0] & -> & Hin).
      apply elem_of_map_to_list in Hin. cbn in Hk. congruence. }
  destruct (examined_all_keeps env entries s) as (Hl' & Hc' & _). fold s' in Hl', Hc'.
  split; [exact (aws_List_exact env f req s eq_refl Hl Hfree)|].
  split; [congruence|]. split; [exact Hc'|]. split; [exact Hkeys|]. split.
  - intros k d Hk. destruct (Hrecord k d Hk) as (before & after & Hsplit & Ht & Hk').
    exists before, after,
      (record.downgraded
         (record.refreshed env (now (listing.examined_all env before s)) d)).
    split; [exact Hsplit|]. cbv zeta.
    split; [exact Ht|]. split; [exact Hk'|]. split; [reflexivity|].
    destruct (examined_sample env (now (listing.examined_all env before s)) d) as [H1 H2].
    split; [exact H1|]. split; [exact H2|].
    destruct (examined_record_fields env (now (listing.examined_all env before s)) d)
      as (_ & _ & _ & Hsl & _). cbv zeta in Hsl. rewrite Hsl. eauto.
  - intros item. subst items. rewrite list_elem_of_omap. split.
    + intros ([k d] & _ & Hshown). unfold listing.shown in Hshown. cbn [fst] in Hshown.
      destruct (aws.vmMap (prov s') !! k) as [d'|] eqn:Hk'; cbn in Hshown; [|discriminate].
      destruct (fst (common.Filter (aws.PodData d') f)) eqn:Hf; [discriminate|].
      injection Hshown as <-. eauto.
    + intros (k & d' & Hk' & Hf & ->).
      destruct (aws.vmMap (prov s) !! k) as [d|] eqn:Hk.
      * exists (k, d). split; [apply elem_of_map_to_list, Hk|].
        unfold listing.shown. cbn [fst]. rewrite Hk'. cbn. now rewrite Hf.
      * apply Hkeys in Hk. congruence.
Qed.

(** The sample of ["i-1"] is 40 s old and the backend says "halted":
    the listing asks the backend once, stores the answer with a new
    time, marks the record [NOTREADY] and shows it as [NOTREADY]. *)
Lemma aws_listing_witness :
  let d := scenario.aws_record kubeapi.PodSandBoxState_READY lvm.VMRunning 0 in
  let s := scenario.aws_with d (40 * time_Second) in
  let out := aws.ListPodSandbox scenario.env_halted (scenario.list_request None) s in
  aws.vmMapLock (prov s) = sync.rwfree /\
  value_of out
    = Some (Ok {| kubeapi.ListPodSandboxResponse.Items :=
                    [common.GetSandbox (scenario.pod kubeapi.PodSandBoxState_NOTREADY)] |}) /\
  trace (state_of out) = [GetState "i-1"] /\
  aws.vmMap (prov (state_of out))
    = {[ "i-1" := scenario.aws_record kubeapi.PodSandBoxState_NOTREADY lvm.VMHalted
                    (40 * time_Second + 1) ]}.
Proof.
  cbv zeta. split; [reflexivity|].
  assert (Hfree : forall k d',
            aws.vmMap (prov (scenario.aws_with
               (scenario.aws_record kubeapi.PodSandBoxState_READY lvm.VMRunning 0)
               (40 * time_Second))) !! k = Some d' ->
            common.StateLock (aws.PodData d') = sync.free).
  { intros k d' Hk. cbn in Hk. apply lookup_singleton_Some in Hk as [_ <-]. reflexivity. }
  rewrite (proj1 (aws_listing_examines_every_record_and_shows_the_kept_ones
                    scenario.env_halted (scenario.list_request None)
                    (scenario.aws_with
                       (scenario.aws_record kubeapi.PodSandBoxState_READY lvm.VMRunning 0)
                       (40 * time_Second)) eq_refl Hfree)).
  cbn [value_of state_of]. split; [reflexivity|]. split; reflexivity.
Defined.

(** X17.  In aws.go nothing sets a record back to [READY]: when a record
    is [NOTREADY], it is still [NOTREADY] after a status query and after
    a listing, whatever the backend reports about the machine, and a
    status query that returns reports [NOTREADY]. *)
Theorem aws_not_ready_is_never_taken_back env req lreq d (s : aws.St) :
  let id := kubeapi.PodSandboxIdRequest.GetPodSandboxId req in
  let status_out := aws.PodSandboxStatus env req s in
  let list_out := aws.ListPodSandbox env lreq s in
  aws.vmMap (prov s) !! id = Some d ->
  aws.vmMapLock (prov s) = sync.rwfree ->
  (forall k d', aws.vmMap (prov s) !! k = Some d' ->
     common.StateLock (aws.PodData d') = sync.free) ->
  common.PodState (aws.PodData d) = kubeapi.PodSandBoxState_NOTREADY ->
  (exists d', aws.vmMap (prov (state_of status_out)) !! id = Some d' /\
     common.PodState (aws.PodData d') = kubeapi.PodSandBoxState_NOTREADY) /\
  (forall status,
     value_of status_out
       = Some (Ok {| kubeapi.PodSandboxStatusResponse.Status := Some status |}) ->
     kubeapi.PodSandboxStatus.State status = Some kubeapi.PodSandBoxState_NOTREADY) /\
  (exists d', aws.vmMap (prov (state_of list_out)) !! id = Some d' /\
     common.PodState (aws.PodData d') = kubeapi.PodSandBoxState_NOTREADY).
Proof.
  intros id status_out list_out Hm Hl Hfree Hnr.
  assert (Hstay : forall t,
            common.PodState (aws.PodData (record.downgraded (record.refreshed env t d)))
            = kubeapi.PodSandBoxState_NOTREADY).
  { intros t. pose proof (examined_PodState env t d) as H. cbv zeta in H. rewrite H, Hnr.
    now destruct (String.eqb _ _). }
  assert (Hstatus : status_out =
            match common.PodStatus
                    (aws.PodData (record.downgraded (record.refreshed env (now s) d)))
                    (record.examined env id d s) with
            | Return status s' =>
                Return (Ok {| kubeapi.PodSandboxStatusResponse.Status := Some status |}) s'
            | Panic msg s' => Panic msg s'
            | Blocked s' => Blocked s'
            end).
  { subst status_out. exact (aws_Status_run env req d s Hm Hl (Hfree _ _ Hm)). }
  destruct (aws_List_run env (kubeapi.ListPodSandboxRequest.Filter lreq) lreq s eq_refl Hl Hfree)
    as (items & s' & Hrun & _ & _ & _ & Hsome & _).
  fold list_out in Hrun.
  split; [|split].
  - exists (record.downgraded (record.refreshed env (now s) d)). split; [|apply Hstay].
    rewrite Hstatus. unfold common.PodStatus.
    destruct (common.Linux _); cbn; apply lookup_insert_eq.
  - intros status. rewrite Hstatus. unfold common.PodStatus.
    destruct (common.Linux _); cbn; [|discriminate].
    intros [= <-]. cbn. now rewrite Hstay.
  - rewrite Hrun. cbn. destruct (Hsome id d Hm) as (t & Hk & _). eauto.
Qed.

(** The record of ["i-1"] is [NOTREADY] and its sample is 40 seconds
    old: the status query asks the backend, which says running, and
    still reports [NOTREADY]. *)
Lemma aws_not_ready_witness :
  let d := scenario.aws_record kubeapi.PodSandBoxState_NOTREADY lvm.VMHalted 0 in
  let s := scenario.aws_with d (40 * time_Second) in
  let out := aws.PodSandboxStatus scenario.env_ok scenario.the_sandbox s in
  aws.vmMap (prov s) !! "i-1" = Some d /\
  vm_GetState scenario.env_ok "i-1" = Ok lvm.VMRunning /\
  trace (state_of out) = [GetState "i-1"] /\
  (forall status,
     value_of out = Some (Ok {| kubeapi.PodSandboxStatusResponse.Status := Some status |}) ->
     kubeapi.PodSandboxStatus.State status = Some kubeapi.PodSandBoxState_NOTREADY).
Proof.
  cbv zeta. split; [reflexivity|]. split; [reflexivity|]. split; [reflexivity|].
  assert (Hfree : forall k d',
            aws.vmMap (prov (scenario.aws_with
               (scenario.aws_record kubeapi.PodSandBoxState_NOTREADY lvm.VMHalted 0)
               (40 * time_Second))) !! k = Some d' ->
            common.StateLock (aws.PodData d') = sync.free).
  { intros k d' Hk. cbn in Hk. apply lookup_singleton_Some in Hk as [_ <-]. reflexivity. }
  exact (proj1 (proj2 (aws_not_ready_is_never_taken_back scenario.env_ok scenario.the_sandbox
           (scenario.list_request None)
           (scenario.aws_record kubeapi.PodSandBoxState_NOTREADY lvm.VMHalted 0)
           (scenario.aws_with (scenario.aws_record kubeapi.PodSandBoxState_NOTREADY
                                 lvm.VMHalted 0) (40 * time_Second))
           eq_refl eq_refl Hfree eq_refl))).
Defined.

(** X18.  The virtualbox provider does not store what it sees: a status
    query that finds the machine not running reports [NOTREADY] and
    leaves the provider as it was, and a later query that finds the
    machine running reports the state of the record again. *)
Theorem virtualbox_readiness_follows_the_machine env env' req d lx st (s : virtualbox.St) :
  virtualbox.vmMap (prov s) !! kubeapi.PodSandboxIdRequest.GetPodSandboxId req = Some d ->
  virtualbox.vmMapLock (prov s) = sync.free ->
  common.StateLock (virtualbox.PodData d) = sync.free ->
  common.Linux (virtualbox.PodData d) = Some lx ->
  vm_GetState env (virtualbox.Name_ (virtualbox.vm d)) = Ok st ->
  st <> lvm.VMRunning ->
  vm_GetState env' (virtualbox.Name_ (virtualbox.vm d)) = Ok lvm.VMRunning ->
  exists status s1 status' s2,
    virtualbox.PodSandboxStatus env req s
      = Return (Ok {| kubeapi.PodSandboxStatusResponse.Status := Some status |}) s1 /\
    kubeapi.PodSandboxStatus.State status = Some kubeapi.PodSandBoxState_NOTREADY /\
    prov s1 = prov s /\
    virtualbox.PodSandboxStatus env' req s1
      = Return (Ok {| kubeapi.PodSandboxStatusResponse.Status := Some status' |}) s2 /\
    kubeapi.PodSandboxStatus.State status' = Some (common.PodState (virtualbox.PodData d)) /\
    prov s2 = prov s.
Proof.
  intros Hm Hl Hf Hlx Hst Hne Hst'.
  destruct (vbox_Status_reports_without_storing env req d lx st s Hm Hl Hf Hlx Hst)
    as (status & s1 & Hrun & Hstate & Hprov).
  assert (Hm1 : virtualbox.vmMap (prov s1)
                  !! kubeapi.PodSandboxIdRequest.GetPodSandboxId req = Some d)
    by (rewrite Hprov; exact Hm).
  assert (Hl1 : virtualbox.vmMapLock (prov s1) = sync.free) by (rewrite Hprov; exact Hl).
  destruct (vbox_Status_reports_without_storing env' req d lx lvm.VMRunning s1
              Hm1 Hl1 Hf Hlx Hst')
    as (status' & s2 & Hrun' & Hstate' & Hprov').
  exists status, s1, status', s2.
  apply String.eqb_neq in Hne. rewrite Hne in Hstate.
  split; [exact Hrun|]. split; [exact Hstate|]. split; [exact Hprov|].
  split; [exact Hrun'|]. split; [exact Hstate'|]. congruence.
Qed.

Lemma virtualbox_readiness_witness :
  let d := scenario.vbox_record kubeapi.PodSandBoxState_READY in
  let s := scenario.vbox_with d 0 in
  let s1 := state_of (virtualbox.PodSandboxStatus scenario.env_halted scenario.the_sandbox s) in
  virtualbox.vmMap (prov s) !! "i-1" = Some d /\
  lvm.VMHalted <> lvm.VMRunning /\
  exists status' s2,
    virtualbox.PodSandboxStatus scenario.env_ok scenario.the_sandbox s1
      = Return (Ok {| kubeapi.PodSandboxStatusResponse.Status := Some status' |}) s2 /\
    kubeapi.PodSandboxStatus.State status' = Some kubeapi.PodSandBoxState_READY.
Proof.
  cbv zeta. split; [reflexivity|].
  assert (Hne : lvm.VMHalted <> lvm.VMRunning) by discriminate.
  split; [exact Hne|].
  destruct (virtualbox_readiness_follows_the_machine scenario.env_halted scenario.env_ok
              scenario.the_sandbox (scenario.vbox_record kubeapi.PodSandBoxState_READY)
              _ lvm.VMHalted
              (scenario.vbox_with (scenario.vbox_record kubeapi.PodSandBoxState_READY) 0)
              eq_refl eq_refl eq_refl eq_refl eq_refl Hne eq_refl)
    as (status & s1 & status' & s2 & Hrun & _ & _ & Hrun' & Hstate' & _).
  rewrite Hrun. cbn [state_of]. exists status', s2. split; [exact Hrun' | exact Hstate'].
Defined.

(** ** The ids of the directory *)

Lemma fold_left_keys {A} (l : list (string * A)) acc :
  fold_left (fun r entry => r ++ [fst entry])%list l acc = (acc ++ l.*1)%list.
Proof.
  revert acc. induction l as [|x l IH]; intros acc; cbn.
  - now rewrite app_nil_r.
  - rewrite IH, <- app_assoc. reflexivity.
Qed.

(** X19.  [GetVMList] of aws.go and of virtualbox.go returns the ids of
    the directory, each one once, and changes nothing. *)
Theorem GetVMList_returns_every_id_once (sa : aws.St) (sv : virtualbox.St) :
  virtualbox.vmMapLock (prov sv) = sync.free ->
  (exists ids, aws.GetVMList sa = Return ids sa /\
     NoDup ids /\ length ids = size (aws.vmMap (prov sa)) /\
     forall id, id ∈ ids <-> is_Some (aws.vmMap (prov sa) !! id)) /\
  (exists ids, virtualbox.GetVMList sv = Return ids sv /\
     NoDup ids /\ length ids = size (virtualbox.vmMap (prov sv)) /\
     forall id, id ∈ ids <-> is_Some (virtualbox.vmMap (prov sv) !! id)).
Proof.
  intros Hl.
  assert (Hkeys : forall A (m : gmap string A),
            NoDup ((map_to_list m).*1) /\
            length ((map_to_list m).*1) = size m /\
            forall id, id ∈ (map_to_list m).*1 <-> is_Some (m !! id)).
  { intros A m. split; [apply NoDup_fst_map_to_list|]. split.
    - now rewrite length_fmap, length_map_to_list.
    - intros id. rewrite list_elem_of_fmap. split.
      + intros ([k v] & -> & Hin). apply elem_of_map_to_list in Hin. eauto.
      + intros [v Hv]. exists (id, v). split; [reflexivity|]. now apply elem_of_map_to_list. }
  split.
  - exists ((map_to_list (aws.vmMap (prov sa))).*1).
    rewrite aws_GetVMList_returns, fold_left_keys. split; [reflexivity|]. apply Hkeys.
  - exists ((map_to_list (virtualbox.vmMap (prov sv))).*1).
    rewrite (vbox_GetVMList_returns sv Hl), fold_left_keys. split; [reflexivity|]. apply Hkeys.
Qed.

Lemma GetVMList_witness :
  virtualbox.vmMapLock (prov scenario.vbox_empty) = sync.free /\
  aws.GetVMList cases.created = Return ["i-1"] cases.created /\
  exists ids, virtualbox.GetVMList scenario.vbox_empty = Return ids scenario.vbox_empty /\
              length ids = 0%nat.
Proof.
  split; [reflexivity|]. split; [reflexivity|].
  destruct (GetVMList_returns_every_id_once cases.created scenario.vbox_empty eq_refl)
    as [_ (ids & Hrun & _ & Hlen & _)].
  exists ids. split; [exact Hrun | exact Hlen].
Defined.

(** ** Calls leave the provider at rest *)

Lemma aws_at_rest_examined env id d (s : aws.St) :
  rest.aws_at_rest (prov s) ->
  aws.vmMap (prov s) !! id = Some d ->
  rest.aws_at_rest (prov (record.examined env id d s)).
Proof.
  intros [Hl Hrec] Hm. split; [exact Hl|].
  intros k d'. cbn. destruct (decide (k = id)) as [->|Hne].
  - rewrite lookup_insert_eq. intros [= <-].
    destruct (examined_record_fields env (now s) d) as (Hid & _ & _ & Hsl & _).
    cbv zeta in Hid, Hsl. rewrite Hid, Hsl. apply Hrec, Hm.
  - rewrite lookup_insert_ne by congruence. apply Hrec.
Qed.

(** X20.  From an aws provider at rest (directory lock free, every
    record under its own id with its lock free), creating, removing,
    querying and listing sandboxes and looking up a client never wait
    for a lock, and whether they return or panic they leave the
    provider at rest; the two lookups change nothing at all. *)
Theorem aws_calls_come_back_and_leave_the_provider_at_rest env (s : aws.St) :
  rest.aws_at_rest (prov s) ->
  (forall req, let out := aws.RunPodSandbox env req s in
     rest.comes_back out /\ rest.aws_at_rest (prov (state_of out))) /\
  (forall req, let out := aws.RemovePodSandbox env req s in
     rest.comes_back out /\ rest.aws_at_rest (prov (state_of out))) /\
  (forall req, let out := aws.PodSandboxStatus env req s in
     rest.comes_back out /\ rest.aws_at_rest (prov (state_of out))) /\
  (forall req, let out := aws.ListPodSandbox env req s in
     rest.comes_back out /\ rest.aws_at_rest (prov (state_of out))) /\
  (forall id, let out := aws.GetClient id s in
     rest.comes_back out /\ state_of out = s) /\
  (let out := aws.GetVMList s in rest.comes_back out /\ state_of out = s).
Proof.
  intros Hrest. pose proof Hrest as [Hl Hrec].
  split; [|split; [|split; [|split; [|split]]]].
  - intros req out. pose proof (aws_Run_outcome env req s Hl) as Hout. cbv zeta in Hout.
    fold out in Hout. destruct out as [[resp|err] s'|msg s'|s']; cbn.
    + destruct Hout as (cfg & raw & m & ip & ips & c & rec & _ & _ & _ & _ & _ & _ & Hmap
                        & Hlock & Hid & _ & _ & _ & Hsl & _).
      split; [exact I|]. split; [exact Hlock|].
      intros k d. rewrite Hmap. destruct (decide (k = m)) as [->|Hne].
      * rewrite lookup_insert_eq. intros [= <-]. auto.
      * rewrite lookup_insert_ne by congruence. apply Hrec.
    + rewrite Hout. auto.
    + rewrite Hout. auto.
    + contradiction.
  - intros req out. subst out.
    destruct (aws.vmMap (prov s) !! kubeapi.PodSandboxIdRequest.GetPodSandboxId req)
      as [d|] eqn:Hm.
    + rewrite (aws_Remove_run env req d s Hm Hl (proj2 (Hrec _ _ Hm))). cbv zeta.
      destruct (vm_Destroy env _); cbn; (split; [exact I|]); [exact Hrest|].
      split; [exact Hl|]. intros k d'. cbn. intros Hk.
      apply lookup_delete_Some in Hk as [_ Hk]. apply Hrec, Hk.
    + rewrite (aws_Remove_absent env req s Hm Hl). cbn. auto.
  - intros req out. subst out.
    destruct (aws.vmMap (prov s) !! kubeapi.PodSandboxIdRequest.GetPodSandboxId req)
      as [d|] eqn:Hm.
    + rewrite (aws_Status_run env req d s Hm Hl (proj2 (Hrec _ _ Hm))). cbv zeta.
      unfold common.PodStatus. destruct (common.Linux _); cbn [ret panic state_of rest.comes_back];
        (split; [exact I|]); apply aws_at_rest_examined; assumption.
    + rewrite (aws_Status_absent env req s Hm Hl). cbn. auto.
  - intros req out. subst out.
    destruct (aws_List_run env (kubeapi.ListPodSandboxRequest.Filter req) req s eq_refl Hl)
      as (items & s' & Hrun & Hlock & _ & Hnone & Hsome & _).
    { intros k d Hk. apply (Hrec _ _ Hk). }
    rewrite Hrun. cbn. split; [exact I|]. split; [exact Hlock|].
    intros k d' Hk. destruct (aws.vmMap (prov s) !! k) as [d|] eqn:Hk0.
    + destruct (Hsome k d Hk0) as (t & Hk' & _). rewrite Hk in Hk'. injection Hk' as ->.
      destruct (examined_record_fields env t d) as (Hid & _ & _ & Hsl & _).
      cbv zeta in Hid, Hsl. rewrite Hid, Hsl. apply Hrec, Hk0.
    + rewrite (Hnone k Hk0) in Hk. discriminate.
  - intros id out. subst out. destruct (aws.vmMap (prov s) !! id) as [d|] eqn:Hm.
    + rewrite (aws_GetClient_present id d s Hm Hl). cbn. auto.
    + rewrite (aws_GetClient_absent id s Hm Hl). cbn. auto.
  - cbv zeta. rewrite aws_GetVMList_returns. cbn. auto.
Qed.

(** The empty provider is at rest, and so is the provider after a
    creation. *)
Lemma aws_at_rest_witness :
  rest.aws_at_rest (prov scenario.aws_empty) /\
  rest.aws_at_rest (prov cases.created) /\
  rest.comes_back (aws.PodSandboxStatus scenario.env_ok (cases.sandbox "i-1") cases.created).
Proof.
  assert (Hempty : rest.aws_at_rest (prov scenario.aws_empty)).
  { split; [reflexivity|]. intros id d Hid. cbn in Hid. rewrite lookup_empty in Hid.
    discriminate. }
  assert (Hcreated : rest.aws_at_rest (prov cases.created)).
  { exact (proj2 (proj1 (aws_calls_come_back_and_leave_the_provider_at_rest
                           scenario.env_ok scenario.aws_empty Hempty) scenario.run_web)). }
  split; [exact Hempty|]. split; [exact Hcreated|]. exact I.
Defined.

(** The listing of the virtualbox provider returns and stores nothing. *)
Lemma vbox_List_returns env req (s : virtualbox.St) :
  virtualbox.vmMapLock (prov s) = sync.free ->
  exists items s',
    virtualbox.ListPodSandbox env req s
      = Return (Ok {| kubeapi.ListPodSandboxResponse.Items := items |}) s' /\
    prov s' = prov s.
Proof.
  intros Hl.
  destruct s as [[nd src m l] t tr]; cbn in *; subst l.
  set (s0 := {| prov := {| virtualbox.netDevice := nd; virtualbox.vmSrc := src;
                           virtualbox.vmMap := m;
                           virtualbox.vmMapLock := {| sync.locked := true |} |};
                now := t; trace := tr |} : virtualbox.St).
  destruct (vbox_listing_loop env (kubeapi.ListPodSandboxRequest.Filter req)
              (map_to_list m) [] s0) as (items & s' & Hrun & Hp & _).
  destruct s' as [p' t' tr']; cbn in Hp; subst p'.
  exists items.
  exists {| prov := {| virtualbox.netDevice := nd; virtualbox.vmSrc := src;
                       virtualbox.vmMap := m; virtualbox.vmMapLock := sync.free |};
            now := t'; trace := tr' |}.
  split; [|reflexivity].
  unfold virtualbox.ListPodSandbox.
  rewrite (bind_Return _ _ _ tt s0) by reflexivity.
  eapply defer_Return.
  - rewrite (bind_Return _ _ _ (prov s0) s0) by reflexivity.
    cbn [prov virtualbox.vmMap s0].
    erewrite bind_Return by exact Hrun. reflexivity.
  - reflexivity.
Qed.

Lemma vbox_lookup_absent id (s : virtualbox.St) :
  virtualbox.vmMap (prov s) !! id = None ->
  virtualbox.vmMapLock (prov s) = sync.free ->
  virtualbox.GetClient id s = Return (Err (id ++ " unknown pod name")) s /\
  virtualbox.GetIP id s = Return (Err (id ++ " unknown pod name")) s.
Proof.
  destruct s as [[nd src m l] t tr]; cbn; intros Hm ->.
  unfold virtualbox.GetClient, virtualbox.GetIP. vbox_unfold.
  repeat (go; rewrite ?Hm). split; reflexivity.
Qed.

(** X21.  From a virtualbox provider at rest, every call of the provider
    comes back and leaves it at rest; status queries and listings leave
    the provider unchanged, and the lookups change nothing at all. *)
Theorem virtualbox_calls_come_back_and_leave_the_provider_at_rest env (s : virtualbox.St) :
  rest.vbox_at_rest (prov s) ->
  (forall req, let out := virtualbox.RunPodSandbox env req s in
     rest.comes_back out /\ rest.vbox_at_rest (prov (state_of out))) /\
  (forall req, let out := virtualbox.StopPodSandbox req s in
     rest.comes_back out /\ rest.vbox_at_rest (prov (state_of out))) /\
  (forall req, let out := virtualbox.RemovePodSandbox env req s in
     rest.comes_back out /\ rest.vbox_at_rest (prov (state_of out))) /\
  (forall req, let out := virtualbox.PodSandboxStatus env req s in
     rest.comes_back out /\ prov (state_of out) = prov s) /\
  (forall req, let out := virtualbox.ListPodSandbox env req s in
     rest.comes_back out /\ prov (state_of out) = prov s) /\
  (forall id, let out := virtualbox.GetClient id s in
     rest.comes_back out /\ state_of out = s) /\
  (forall id, let out := virtualbox.GetIP id s in
     rest.comes_back out /\ state_of out = s) /\
  (let out := virtualbox.GetVMList s in rest.comes_back out /\ state_of out = s).
Proof.
  intros Hrest. pose proof Hrest as [Hl Hrec].
  split; [|split; [|split; [|split; [|split; [|split; [|split]]]]]].
  - intros req out. pose proof (vbox_Run_outcome env req s Hl) as Hout. cbv zeta in Hout.
    fold out in Hout. destruct out as [[resp|err] s'|msg s'|s']; cbn.
    + destruct Hout as (cfg & m & ip & ips & c & rec & _ & _ & _ & _ & _ & Hmap
                        & Hlock & Hid & _ & _ & _ & Hsl & _).
      split; [exact I|]. split; [exact Hlock|].
      intros k d. rewrite Hmap. destruct (decide (k = m)) as [->|Hne].
      * rewrite lookup_insert_eq. intros [= <-]. auto.
      * rewrite lookup_insert_ne by congruence. apply Hrec.
    + rewrite Hout. auto.
    + rewrite Hout. auto.
    + contradiction.
  - intros req out. subst out.
    destruct (virtualbox.vmMap (prov s) !! kubeapi.PodSandboxIdRequest.GetPodSandboxId req)
      as [d|] eqn:Hm.
    + rewrite (vbox_Stop_run req d s Hm Hl (proj2 (Hrec _ _ Hm))).
      set (id := kubeapi.PodSandboxIdRequest.GetPodSandboxId req) in *.
      cbn [state_of rest.comes_back]. split; [exact I|]. split; [exact Hl|].
      intros k d'. unfold with_prov, virtualbox.store_. cbn [prov virtualbox.vmMap virtualbox.set_vmMap].
      destruct (decide (k = id)) as [->|Hne].
      * rewrite lookup_insert_eq. intros [= <-]. cbn. apply Hrec, Hm.
      * rewrite lookup_insert_ne by congruence. apply Hrec.
    + rewrite (vbox_Stop_absent req s Hm Hl). cbn. auto.
  - intros req out. subst out.
    destruct (virtualbox.vmMap (prov s) !! kubeapi.PodSandboxIdRequest.GetPodSandboxId req)
      as [d|] eqn:Hm.
    + rewrite (vbox_Remove_run env req d s Hm Hl). cbv zeta.
      destruct (vm_Destroy env _); cbn; (split; [exact I|]); [exact Hrest|].
      split; [exact Hl|]. intros k d'. cbn. intros Hk.
      apply lookup_delete_Some in Hk as [_ Hk]. apply Hrec, Hk.
    + rewrite (vbox_Remove_absent env req s Hm Hl). cbn. auto.
  - intros req out. subst out.
    destruct (virtualbox.vmMap (prov s) !! kubeapi.PodSandboxIdRequest.GetPodSandboxId req)
      as [d|] eqn:Hm.
    + rewrite (vbox_Status_run env req d s Hm Hl (proj2 (Hrec _ _ Hm))). cbv zeta.
      unfold common2.PodStatus. destruct (common.Linux _); cbn; [|auto].
      destruct (vm_GetState env _); cbn; auto.
    + rewrite (vbox_Status_absent env req s Hm Hl). cbn. auto.
  - intros req out. subst out.
    destruct (vbox_List_returns env req s Hl) as (items & s' & Hrun & Hp).
    rewrite Hrun. cbn. auto.
  - intros id out. subst out. destruct (virtualbox.vmMap (prov s) !! id) as [d|] eqn:Hm.
    + rewrite (proj1 (vbox_lookup_present id d s Hm Hl)). cbn. auto.
    + rewrite (proj1 (vbox_lookup_absent id s Hm Hl)). cbn. auto.
  - intros id out. subst out. destruct (virtualbox.vmMap (prov s) !! id) as [d|] eqn:Hm.
    + rewrite (proj2 (vbox_lookup_present id d s Hm Hl)). cbn. auto.
    + rewrite (proj2 (vbox_lookup_absent id s Hm Hl)). cbn. auto.
  - cbv zeta. rewrite (vbox_GetVMList_returns s Hl). cbn. auto.
Qed.

Lemma vbox_at_rest_witness :
  rest.vbox_at_rest (prov scenario.vbox_empty) /\
  rest.vbox_at_rest
    (prov (state_of (virtualbox.RunPodSandbox scenario.env_ok scenario.run_web
                       scenario.vbox_empty))).
Proof.
  assert (Hempty : rest.vbox_at_rest (prov scenario.vbox_empty)).
  { split; [reflexivity|]. intros id d Hid. cbn in Hid. rewrite lookup_empty in Hid.
    discriminate. }
  split; [exact Hempty|].
  exact (proj2 (proj1 (virtualbox_calls_come_back_and_leave_the_provider_at_rest
                         scenario.env_ok scenario.vbox_empty Hempty) scenario.run_web)).
Defined.

(** ** The older aws listing: removal and lookups *)

Section Older.
Context (env : Env).

(** [RemovePodSandbox] of the older listing on a sandbox of the directory. *)
Lemma aws0_Remove_run req d (s : aws0.St) :
  let id := kubeapi.PodSandboxIdRequest.GetPodSandboxId req in
  let iid := aws.InstanceID (aws.vm d) in
  aws0.vmMap (prov s) !! id = Some d ->
  aws0.vmMapLock (prov s) = sync.free ->
  aws0.RemovePodSandbox env req s =
    match vm_Destroy env iid with
    | Some err =>
        Return (Err ("RemovePodSandbox: " ++ err))
          {| prov := prov s;
             now := now s + Z.of_N (elapsed env (Destroy iid));
             trace := trace s ++ [Destroy iid] |}
    | None =>
        Return (Ok kubeapi.mkRemovePodSandboxResponse)
          {| prov := aws0.set_vmMap (delete id (aws0.vmMap (prov s))) (prov s);
             now := now s + Z.of_N (elapsed env (Destroy iid))
                    + Z.of_N (elapsed env (Close (common.Client (aws.PodData d))))
                    + Z.of_N (elapsed env (Delete id));
             trace := trace s ++ [Destroy iid; Close (common.Client (aws.PodData d)); Delete id] |}
    end.
Proof.
  destruct s as [[m l c] t tr], d as [[i md an ca ip lb lx sl cl ps] v vs lc].
  cbn. intros Hm ->. aws0_unfold.
  repeat (go; rewrite ?Hm; maps).
  destruct (vm_Destroy env _); go; [reflexivity|].
  rewrite <- !app_assoc. reflexivity.
Qed.

(** [GetClient] and [GetIP] of the older listing. *)
Lemma aws0_lookup id (s : aws0.St) :
  aws0.vmMapLock (prov s) = sync.free ->
  aws0.GetClient id s =
    Return (match aws0.vmMap (prov s) !! id with
            | Some d => Ok (common.Client (aws.PodData d))
            | None => Err (id ++ " unknown pod name")
            end) s /\
  aws0.GetIP id s =
    Return (match aws0.vmMap (prov s) !! id with
            | Some d => Ok (common.Ip (aws.PodData d))
            | None => Err (id ++ " unknown pod name")
            end) s.
Proof.
  destruct s as [[m l c] t tr]; cbn; intros ->. aws0_unfold.
  destruct (m !! id) eqn:Hm; repeat (go; rewrite ?Hm); split; reflexivity.
Qed.

End Older.

(** X22.  In the older aws listing, for a sandbox that the directory
    holds, [GetClient] and [GetIP] answer from its record and change
    nothing, and [RemovePodSandbox] destroys the machine, closes the
    client and deletes the entry, in that order, with the directory lock
    free afterwards: a later lookup or removal of the id reports that it
    is unknown.  When the backend refuses to destroy the machine the
    error is handed back after that one call and the provider is
    unchanged. *)
Theorem older_aws_remove_destroys_closes_deletes env req d (s : aws0.St) :
  let id := kubeapi.PodSandboxIdRequest.GetPodSandboxId req in
  let machine := aws.InstanceID (aws.vm d) in
  let out := aws0.RemovePodSandbox env req s in
  aws0.vmMap (prov s) !! id = Some d ->
  aws0.vmMapLock (prov s) = sync.free ->
  aws0.GetClient id s = Return (Ok (common.Client (aws.PodData d))) s /\
  aws0.GetIP id s = Return (Ok (common.Ip (aws.PodData d))) s /\
  (vm_Destroy env machine = None ->
     value_of out = Some (Ok kubeapi.mkRemovePodSandboxResponse) /\
     trace (state_of out)
       = (trace s ++ [Destroy machine; Close (common.Client (aws.PodData d)); Delete id])%list /\
     aws0.vmMap (prov (state_of out)) = delete id (aws0.vmMap (prov s)) /\
     aws0.vmMapLock (prov (state_of out)) = sync.free /\
     aws0.GetClient id (state_of out)
       = Return (Err (id ++ " unknown pod name")) (state_of out) /\
     forall env', aws0.RemovePodSandbox env' req (state_of out)
                  = Return (Err ("RemovePodSandbox: Invalid PodSandboxId (" ++ id ++ ")"))
                      (state_of out)) /\
  (forall err, vm_Destroy env machine = Some err ->
     value_of out = Some (Err ("RemovePodSandbox: " ++ err)) /\
     trace (state_of out) = (trace s ++ [Destroy machine])%list /\
     prov (state_of out) = prov s).
Proof.
  intros id machine out Hm Hl.
  destruct (aws0_lookup id s Hl) as [Hgc Hgi]. rewrite Hm in Hgc, Hgi.
  split; [exact Hgc|]. split; [exact Hgi|].
  subst out. rewrite (aws0_Remove_run env req d s Hm Hl). cbv zeta. fold id machine.
  split.
  - intros ->. cbn [value_of state_of trace prov].
    set (s' := {| prov := _; now := _; trace := _ |}).
    assert (Hl' : aws0.vmMapLock (prov s') = sync.free) by exact Hl.
    assert (Hm' : aws0.vmMap (prov s') !! id = None) by apply lookup_delete_eq.
    do 3 (split; [reflexivity|]). split; [exact Hl|]. split.
    + destruct (aws0_lookup id s' Hl') as [Hgc' _]. now rewrite Hm' in Hgc'.
    + intros env'. subst s'. destruct s as [[m l c] t tr]. cbn in Hl, Hm' |- *. subst l.
      unfold aws0.RemovePodSandbox. aws0_unfold. fold id.
      repeat (go; rewrite ?Hm'). reflexivity.
  - intros err ->. cbn. auto.
Qed.

Lemma older_aws_remove_witness :
  let d := scenario.aws_record kubeapi.PodSandBoxState_READY lvm.VMRunning 0 in
  let s := scenario.aws0_with d 0 in
  aws0.vmMap (prov s) !! "i-1" = Some d /\
  trace (state_of (aws0.RemovePodSandbox scenario.env_ok scenario.the_sandbox s))
    = [Destroy "i-1"; Close (Some 7%nat); Delete "i-1"] /\
  prov (state_of (aws0.RemovePodSandbox scenario.env_destroy_fails scenario.the_sandbox s))
    = prov s.
Proof.
  cbv zeta. split; [reflexivity|]. split.
  - exact (proj1 (proj2 (proj1 (proj2 (proj2
      (older_aws_remove_destroys_closes_deletes scenario.env_ok scenario.the_sandbox
         (scenario.aws_record kubeapi.PodSandBoxState_READY lvm.VMRunning 0)
         (scenario.aws0_with (scenario.aws_record kubeapi.PodSandBoxState_READY
                                lvm.VMRunning 0) 0) eq_refl eq_refl))) eq_refl))).
  - exact (proj2 (proj2 (proj2 (proj2 (proj2
      (older_aws_remove_destroys_closes_deletes scenario.env_destroy_fails
         scenario.the_sandbox
         (scenario.aws_record kubeapi.PodSandBoxState_READY lvm.VMRunning 0)
         (scenario.aws0_with (scenario.aws_record kubeapi.PodSandBoxState_READY
                                lvm.VMRunning 0) 0) eq_refl eq_refl))) "backend says no"
      eq_refl))).
Defined.

(** ** Holding the directory for a reader (aws.go) *)

(** X23.  [RLockMap] takes the read lock of the directory of aws.go and
    [RUnlockMap] gives it back, restoring the state.  While it is held,
    [GetClientLocked] answers what [GetClient] answers, [GetClient]
    itself still returns (the lock admits more readers), and no
    [RemovePodSandbox] returns.  [RUnlockMap] without a lock held makes
    the runtime stop with "sync: RUnlock of unlocked RWMutex". *)
Theorem a_held_read_lock_admits_lookups_and_keeps_removals_out env id (s : aws.St) :
  aws.vmMapLock (prov s) = sync.rwfree ->
  let held := state_of (aws.RLockMap s) in
  aws.RLockMap s = Return tt held /\
  aws.vmMapLock (prov held) = {| sync.writer := false; sync.readers := 1 |} /\
  (exists r, aws.GetClientLocked id held = Return r held /\
             aws.GetClient id s = Return r s /\
             aws.GetClient id held = Return r held) /\
  (forall req, exists s', aws.RemovePodSandbox env req held = Blocked s') /\
  aws.RUnlockMap held = Return tt s /\
  aws.RUnlockMap s = Panic "sync: RUnlock of unlocked RWMutex" s.
Proof.
  destruct s as [[m l c] t tr]; cbn; intros ->.
  unfold aws.RLockMap, aws.RUnlockMap, aws.GetClient, aws.GetClientLocked,
    aws.RemovePodSandbox, aws.vmMapLock_RLock, aws.vmMapLock_RUnlock, aws.vmMapLock_Lock,
    aws.getPodData, aws.load, aws.at_.
  go. split; [reflexivity|]. split; [reflexivity|]. split; [|split; [|split]].
  - destruct (m !! id) eqn:Hm; go; rewrite ?Hm; eauto.
  - intros req. eauto.
  - reflexivity.
  - reflexivity.
Qed.

Lemma held_read_lock_witness :
  aws.vmMapLock (prov cases.created) = sync.rwfree /\
  aws.GetClientLocked "i-1" (state_of (aws.RLockMap cases.created))
    = Return (Ok (Some 7%nat)) (state_of (aws.RLockMap cases.created)) /\
  aws.RUnlockMap (state_of (aws.RLockMap cases.created)) = Return tt cases.created.
Proof.
  split; [reflexivity|]. split; [reflexivity|].
  exact (proj1 (proj2 (proj2 (proj2 (proj2
    (a_held_read_lock_admits_lookups_and_keeps_removals_out scenario.env_ok "i-1"
       cases.created eq_refl)))))).
Defined.
